(** * LoadCalculator: the load and system-sizing arithmetic of [src/App.js]

    A shallow embedding of the calculation code of the React application:
    [handleSubmit] of the equipment form, [handleEdit] of the equipment
    table, [handleFacilityInfoChange], [fetchSolarData] and
    [calculateTotals] of [App], followed by the properties that the
    specification states about them.

    State.  The handlers read the React state and hand a new value to a
    setter; here each one is a function from the state it reads (and the
    text of the input element) to the value it hands over.  Rendering, the
    timers that clear the error message and delay the lookup, and the PDF
    export are left out.

    Numbers.  A JavaScript number is a [num]: a rational ([Fin]), one of
    the two infinities, or [NaN].  Zero has no sign: the code compares with
    [>] and takes [||], for which +0 and -0 behave alike, and every division
    is by a positive literal or by a divisor tested to be above 0.

    The arithmetic is read in two ways.  In [JS] every operation is exact:
    this is the reading of the formulas of the specification, and it is used
    for the statements about a formula that the code evaluates, about the
    conversions of texts and about the guards.  In [Double] every literal,
    conversion and operation is followed by the rounding to the nearest
    IEEE-754 binary64 double (ties to even, gradual underflow, overflow to an
    infinity): this is what the program computes, and the statements about
    signs, order, multiples of 5 and infinities are made there.  [to_float]
    compares [Double] with the binary64 floats of the kernel on given
    operands.

    Strings are sequences of 8-bit code units. *)

From Stdlib Require Floats.
From Stdlib Require Import ZArith QArith Qcanon Qround Qpower Qabs.
From Stdlib Require Import Bool List String Ascii Lia Lqa.
Import ListNotations.

Open Scope Z_scope.
Open Scope string_scope.

(* ================================================================== *)
(** * JavaScript numbers *)
(* ================================================================== *)

Module JS.

Inductive num : Type :=
| Fin (q : Qc)
| PInf
| NInf
| NaN.

(** A decimal literal of the source, as a canonical rational. *)
Definition lit (q : Q) : num := Fin (Q2Qc q).

Definition inf_of (c : comparison) : num :=
  match c with
  | Gt => PInf
  | Lt => NInf
  | Eq => NaN
  end.

(** [a + b] *)
Definition add (a b : num) : num :=
  match a, b with
  | NaN, _ | _, NaN => NaN
  | Fin x, Fin y => Fin (x + y)
  | PInf, NInf | NInf, PInf => NaN
  | PInf, _ | _, PInf => PInf
  | NInf, _ | _, NInf => NInf
  end.

(** [a * b]: a zero times an infinity is [NaN]. *)
Definition mul (a b : num) : num :=
  match a, b with
  | NaN, _ | _, NaN => NaN
  | Fin x, Fin y => Fin (x * y)
  | Fin x, PInf | PInf, Fin x => inf_of (x ?= 0)%Qc
  | Fin x, NInf | NInf, Fin x => inf_of (0 ?= x)%Qc
  | PInf, PInf | NInf, NInf => PInf
  | PInf, NInf | NInf, PInf => NInf
  end.

(** [a / b]: a finite value over zero is an infinity of its sign, and
    [0 / 0] is [NaN]. *)
Definition div (a b : num) : num :=
  match a, b with
  | NaN, _ | _, NaN => NaN
  | Fin x, Fin y =>
      if Qc_eq_dec y 0 then inf_of (x ?= 0)%Qc else Fin (x / y)
  | Fin _, PInf | Fin _, NInf => Fin 0
  | PInf, Fin y => match (y ?= 0)%Qc with Lt => NInf | _ => PInf end
  | NInf, Fin y => match (y ?= 0)%Qc with Lt => PInf | _ => NInf end
  | _, _ => NaN
  end.

(** [a > b]: false as soon as one side is [NaN]. *)
Definition gtb (a b : num) : bool :=
  match a, b with
  | Fin x, Fin y => match (x ?= y)%Qc with Gt => true | _ => false end
  | PInf, Fin _ | PInf, NInf | Fin _, NInf => true
  | _, _ => false
  end.

(** Truthiness of a number: [0] and [NaN] are falsy. *)
Definition truthy (a : num) : bool :=
  match a with
  | Fin x => if Qc_eq_dec x 0 then false else true
  | NaN => false
  | PInf | NInf => true
  end.

(** [a || b] on numbers. *)
Definition or_else (a b : num) : num := if truthy a then a else b.

Definition of_Z (z : Z) : num := Fin (Q2Qc (inject_Z z)).

(** [Math.round]: the nearest integer, a tie going up. *)
Definition Math_round (a : num) : num :=
  match a with
  | Fin x => of_Z (Qfloor (x + (1 # 2))%Q)
  | other => other
  end.

Definition finite (a : num) : bool :=
  match a with Fin _ => true | _ => false end.

(** [a] is a finite number that is not negative. *)
Definition nonneg (a : num) : bool :=
  match a with
  | Fin x => match (x ?= 0)%Qc with Lt => false | _ => true end
  | _ => false
  end.

(** [a <= b] as a proposition, on finite numbers only. *)
Definition le (a b : num) : Prop :=
  match a, b with
  | Fin x, Fin y => (x <= y)%Qc
  | _, _ => False
  end.

End JS.
Export JS.

Declare Scope num_scope.
Delimit Scope num_scope with num.
Bind Scope num_scope with num.
Infix "+" := add : num_scope.
Infix "*" := mul : num_scope.
Infix "/" := div : num_scope.
Infix ">?" := gtb (at level 70) : num_scope.
Infix "||" := or_else : num_scope.
Infix "<=" := le : num_scope.

(* ================================================================== *)
(** * Built-in conversions from strings: [parseInt], [parseFloat], [Number] *)
(* ================================================================== *)

Module Parse.

Definition code (c : ascii) : nat := nat_of_ascii c.

(** White space and line terminators below code unit 256:
    TAB, LF, VT, FF, CR, SP and NBSP. *)
Definition is_space (c : ascii) : bool :=
  let n := code c in
  ((9 <=? n) && (n <=? 13) || (n =? 32) || (n =? 160))%nat.

Definition is_digit (c : ascii) : bool :=
  let n := code c in ((48 <=? n) && (n <=? 57))%nat.

(** The value of a digit of radix at most 16, if [c] is one. *)
Definition hex_val (c : ascii) : option Z :=
  let n := code c in
  if ((48 <=? n) && (n <=? 57))%nat then Some (Z.of_nat n - 48)
  else if ((65 <=? n) && (n <=? 70))%nat then Some (Z.of_nat n - 55)
  else if ((97 <=? n) && (n <=? 102))%nat then Some (Z.of_nat n - 87)
  else None.

Fixpoint trim_start (s : list ascii) : list ascii :=
  match s with
  | c :: rest => if is_space c then trim_start rest else s
  | [] => []
  end.

Definition trim (s : list ascii) : list ascii :=
  rev (trim_start (rev (trim_start s))).

(** The longest prefix of decimal digits, and what follows it. *)
Fixpoint span_digits (s : list ascii) : list ascii * list ascii :=
  match s with
  | c :: rest =>
      if is_digit c
      then let (ds, tl) := span_digits rest in (c :: ds, tl)
      else ([], s)
  | [] => ([], [])
  end.

Definition digits_val (ds : list ascii) : Z :=
  fold_left (fun acc c => 10 * acc + (Z.of_nat (code c) - 48)) ds 0.

(** An optional sign: [true] for a minus. *)
Definition take_sign (s : list ascii) : bool * list ascii :=
  match s with
  | "-"%char :: rest => (true, rest)
  | "+"%char :: rest => (false, rest)
  | _ => (false, s)
  end.

Definition signed (neg : bool) (n : num) : num :=
  if neg then (lit (-1) * n)%num else n.

(** [parseInt(s, 10)]: leading white space, a sign, then the longest run
    of decimal digits; [NaN] when there is no digit. *)
Definition parseInt (s : string) : num :=
  let (neg, s1) := take_sign (trim_start (list_ascii_of_string s)) in
  let (ds, _) := span_digits s1 in
  match ds with
  | [] => NaN
  | _ => signed neg (of_Z (digits_val ds))
  end.

(** An exponent part [e], [e+] or [e-] followed by at least one digit. *)
Definition take_exponent (s : list ascii) : Z * list ascii :=
  match s with
  | c :: rest =>
      if (code c =? 101)%nat || (code c =? 69)%nat then
        let (neg, s1) := take_sign rest in
        let (ds, tl) := span_digits s1 in
        match ds with
        | [] => (0, s)
        | _ => ((if neg then - digits_val ds else digits_val ds), tl)
        end
      else (0, s)
  | [] => (0, [])
  end.

Definition Infinity_chars : list ascii := list_ascii_of_string "Infinity".

Fixpoint strip_prefix (p s : list ascii) : option (list ascii) :=
  match p, s with
  | [], _ => Some s
  | a :: p', b :: s' => if Ascii.eqb a b then strip_prefix p' s' else None
  | _ :: _, [] => None
  end.

(** The mathematical value of digits [int.frac] times ten to the [e]. *)
Definition decimal_value (int frac : list ascii) (e : Z) : num :=
  let mant := digits_val (int ++ frac) in
  let ex := e - Z.of_nat (List.length frac) in
  Fin (Q2Qc (inject_Z mant * Qpower 10 ex)).

(** The longest prefix of [s] that is a signed decimal literal
    (StrDecimalLiteral), with its value and the rest of the input. *)
Definition decimal_prefix (s : list ascii) : option (num * list ascii) :=
  let (neg, s1) := take_sign s in
  match strip_prefix Infinity_chars s1 with
  | Some tl => Some (signed neg PInf, tl)
  | None =>
      let (int, s2) := span_digits s1 in
      let (frac, s3) :=
        match s2 with
        | "."%char :: s2' =>
            let (fr, tl) := span_digits s2' in
            match int, fr with
            | [], [] => ([], s2)
            | _, _ => (fr, tl)
            end
        | _ => ([], s2)
        end in
      match int, frac with
      | [], [] => None
      | _, _ =>
          let (e, s4) := take_exponent s3 in
          Some (signed neg (decimal_value int frac e), s4)
      end
  end.

(** [parseFloat(s)] *)
Definition parseFloat (s : string) : num :=
  match decimal_prefix (trim_start (list_ascii_of_string s)) with
  | Some (n, _) => n
  | None => NaN
  end.

(** Digits of radix 2, 8 or 16 after a [0b], [0o] or [0x] prefix. *)
Fixpoint radix_digits (radix : Z) (acc : Z) (s : list ascii) : option Z :=
  match s with
  | [] => Some acc
  | c :: rest =>
      match hex_val c with
      | Some d => if (d <? radix)%Z then radix_digits radix (radix * acc + d) rest
                  else None
      | None => None
      end
  end.

Definition non_decimal (s : list ascii) : option num :=
  match s with
  | "0"%char :: p :: ((_ :: _) as ds) =>
      let radix :=
        if (code p =? 120)%nat || (code p =? 88)%nat then Some 16
        else if (code p =? 111)%nat || (code p =? 79)%nat then Some 8
        else if (code p =? 98)%nat || (code p =? 66)%nat then Some 2
        else None in
      match radix with
      | Some r => option_map of_Z (radix_digits r 0 ds)
      | None => None
      end
  | _ => None
  end.

(** [Number(s)] on a string: white space is trimmed on both sides, the
    empty string is [0], and the whole text has to be one literal. *)
Definition StringToNumber (s : string) : num :=
  match trim (list_ascii_of_string s) with
  | [] => lit 0
  | t =>
      match non_decimal t with
      | Some n => n
      | None =>
          match decimal_prefix t with
          | Some (n, []) => n
          | _ => NaN
          end
      end
  end.

End Parse.
Export Parse.

(* ================================================================== *)
(** * The data of the application *)
(* ================================================================== *)

(** A value held in a form or state field: absent, a number (the initial
    state) or the text of an input element. *)
Inductive value : Type :=
| VUndef
| VNum (n : num)
| VStr (s : string).

(** [Number(v)] *)
Definition Number (v : value) : num :=
  match v with
  | VUndef => NaN
  | VNum n => n
  | VStr s => StringToNumber s
  end.

(** One line of the equipment table. *)
Record EquipmentItem : Type := mkItem {
  id : Z;
  name : string;
  qty : num;
  power : num;
  hours : num;
  totalDailyKWh : num
}.

(** The state of the equipment form; every field is the text of its input
    ([INITIAL_FORM_STATE] holds the number [1] in [qty], which [parseInt]
    reads as the text ["1"]). *)
Module Form.
Record formData : Type := mk {
  name : string;
  qty : string;
  power : string;
  hours : string;
  kwh : string
}.
End Form.

Definition INITIAL_FORM_STATE : Form.formData :=
  Form.mk "" "1" "" "" "".

Record FacilityInfo : Type := mkFacility {
  streetAddress : string;
  zipCode : string;
  opHoursDay : value;
  opDaysWeek : value
}.

(** The initial [facilityInfo] of [App]. *)
Definition initial_facilityInfo : FacilityInfo :=
  mkFacility "" "" (VNum (lit 10)) (VNum (lit 5)).

(** What [calculateTotals] returns. *)
Record CalculationResult : Type := mkResult {
  daily : num;
  monthly : num;
  annual : num;
  pvSize : num;
  batterySize : num;
  irradianceInfo : string
}.

(* ================================================================== *)
(** * [EquipmentForm]: adding a line *)
(* ================================================================== *)

(** [handleSubmit]: [inl] is the error message shown (nothing is added),
    [inr] the item handed to [onAddEquipment]; [now] is [Date.now()]. *)
Definition handleSubmit (formData : Form.formData) (now : Z)
  : string + EquipmentItem :=
  if (Form.name formData =? "")%string then
    inl "Please provide an equipment name."
  else
    let numQty := parseInt (Form.qty formData) in
    let numKwh := parseFloat (Form.kwh formData) in
    let numPower := parseInt (Form.power formData) in
    let numHours := parseFloat (Form.hours formData) in
    let add_item totalDailyKWh :=
      inr (mkItem now (Form.name formData) numQty
             (numPower || lit 0)%num (numHours || lit 0)%num totalDailyKWh) in
    if (numKwh >? lit 0)%num then
      add_item (numKwh * numQty)%num
    else if ((numPower >? lit 0) && (numHours >? lit 0))%num then
      add_item (numQty * numPower * numHours / lit 1000)%num
    else
      inl "Please provide either Power and Hours, or a Daily Load kWh.".

(** [addEquipment]: the new line goes to the end of the list. *)
Definition addEquipment (prev : list EquipmentItem) (item : EquipmentItem)
  : list EquipmentItem :=
  prev ++ [item].

(** [removeEquipment] *)
Definition removeEquipment (prev : list EquipmentItem) (id' : Z)
  : list EquipmentItem :=
  filter (fun item => negb (id item =? id')%Z) prev.

(* ================================================================== *)
(** * [EquipmentTable]: editing a line *)
(* ================================================================== *)

(** The body of the [map] callback of [handleEdit] on a line whose [id]
    matches. *)
Definition edit_item (field : string) (numValue : num) (item : EquipmentItem)
  : EquipmentItem :=
  if (field =? "qty")%string then
    let perUnitKwh :=
      if (qty item >? lit 0)%num then (totalDailyKWh item / qty item)%num
      else lit 0 in
    mkItem (id item) (name item) numValue (power item) (hours item)
           (perUnitKwh * numValue)%num
  else if (field =? "power")%string then
    mkItem (id item) (name item) (qty item) numValue (hours item)
           (qty item * numValue * hours item / lit 1000)%num
  else if (field =? "hours")%string then
    mkItem (id item) (name item) (qty item) (power item) numValue
           (qty item * power item * numValue / lit 1000)%num
  else if (field =? "dailyKWhPerUnit")%string then
    mkItem (id item) (name item) (qty item) (lit 0) (lit 0)
           (numValue * qty item)%num
  else item.

(** The number [handleEdit] works with: [parseFloat(value) || 0], and at
    most 24 for the hours. *)
Definition edit_value (field value : string) : num :=
  let numValue := (parseFloat value || lit 0)%num in
  if (field =? "hours")%string && (numValue >? lit 24)%num then lit 24
  else numValue.

(** [handleEdit]: the list handed to [onUpdateEquipment]. *)
Definition handleEdit (equipmentList : list EquipmentItem)
    (id' : Z) (field value : string) : list EquipmentItem :=
  let numValue := edit_value field value in
  map (fun item =>
         if (id item =? id')%Z then edit_item field numValue item else item)
      equipmentList.

(** The figure shown in the "Daily Load / unit" column. *)
Definition perUnitKwh (item : EquipmentItem) : num :=
  if (qty item >? lit 0)%num then (totalDailyKWh item / qty item)%num
  else lit 0.

(* ================================================================== *)
(** * [App]: facility information, zip-code lookup and the totals *)
(* ================================================================== *)

(** [{ ...prev, [id]: value }] on the four keys the application reads;
    another key would be added to the object and never looked at. *)
Definition set_key (prev : FacilityInfo) (key value : string) : FacilityInfo :=
  if (key =? "streetAddress")%string then
    mkFacility value (zipCode prev) (opHoursDay prev) (opDaysWeek prev)
  else if (key =? "zipCode")%string then
    mkFacility (streetAddress prev) value (opHoursDay prev) (opDaysWeek prev)
  else if (key =? "opHoursDay")%string then
    mkFacility (streetAddress prev) (zipCode prev) (VStr value)
               (opDaysWeek prev)
  else if (key =? "opDaysWeek")%string then
    mkFacility (streetAddress prev) (zipCode prev) (opHoursDay prev)
               (VStr value)
  else prev.

(** [handleFacilityInfoChange] for the input [key] (the [id] of the
    element) holding the text [value]. *)
Definition handleFacilityInfoChange (prev : FacilityInfo)
    (key value : string) : FacilityInfo :=
  let value :=
    if (key =? "opDaysWeek")%string then
      if (value =? "")%string then value
      else if (parseInt value >? lit 7)%num then "7" else value
    else value in
  set_key prev key value.

(** What [fetchSolarData] passes to [setPeakSunHours], and the place it
    names in the text passed to [setIrradianceInfo] ([None] for the
    request to enter a valid zip code). *)
Definition fetchSolarData (zip : string) : num * option string :=
  if (String.length zip <? 5)%nat then (lit 4.5, None)
  else if String.prefix "85" zip || String.prefix "86" zip then
    (lit 6.5, Some "Arizona")
  else if String.prefix "9" zip then
    (lit 5.5, Some "the West Coast")
  else if String.prefix "98" zip || String.prefix "99" zip then
    (lit 3.8, Some "the Pacific Northwest")
  else if String.prefix "3" zip then
    (lit 5.0, Some "the Southeast")
  else (lit 4.5, Some "an average US location").

Section Totals.

(** The state [calculateTotals] closes over. *)
Variable facilityInfo : FacilityInfo.
Variable equipmentList : list EquipmentItem.
Variable peakSunHours : num.
Variable irradianceInfo' : string.

Definition daysPerWeek : num := (Number (opDaysWeek facilityInfo) || lit 0)%num.
Definition daysPerMonth : num := (daysPerWeek / lit 7 * lit 30.44)%num.
Definition daysPerYear : num := (daysPerWeek / lit 7 * lit 365.25)%num.

Definition totalDailyLoad : num :=
  fold_left (fun sum item => (sum + totalDailyKWh item)%num)
            equipmentList (lit 0).
Definition totalMonthlyLoad : num := (totalDailyLoad * daysPerMonth)%num.
Definition totalAnnualLoad : num := (totalDailyLoad * daysPerYear)%num.

Definition systemEfficiency : num := lit 0.85.
Definition dailyEnergyNeeded : num :=
  if (totalAnnualLoad >? lit 0)%num then (totalAnnualLoad / lit 365.25)%num
  else lit 0.
Definition solarPVSize : num :=
  if ((dailyEnergyNeeded >? lit 0) && (peakSunHours >? lit 0))%num
  then (dailyEnergyNeeded / (peakSunHours * systemEfficiency))%num
  else lit 0.

Definition rawBatterySize : num := (solarPVSize * lit 2)%num.
Definition batteryStorageSize : num :=
  (Math_round (rawBatterySize / lit 5) * lit 5)%num.

Definition calculateTotals : CalculationResult :=
  mkResult totalDailyLoad totalMonthlyLoad totalAnnualLoad
           solarPVSize batteryStorageSize irradianceInfo'.

End Totals.

(* ================================================================== *)
(** * Notions used in the statements *)
(* ================================================================== *)


(** Step 1 as the specification words it: max(0, opDaysWeek), a missing
    or invalid value counting as 0. *)
Definition spec_daysPerWeek (opDaysWeek' : num) : num :=
  if (opDaysWeek' >? lit 0)%num then opDaysWeek' else lit 0.

(** The five figures of a result are finite and not negative. *)
Definition outputs_nonneg (r : CalculationResult) : bool :=
  nonneg (daily r) && nonneg (monthly r) && nonneg (annual r)
  && nonneg (pvSize r) && nonneg (batterySize r).

(* ================================================================== *)
(** * Worked inputs *)
(* ================================================================== *)

(** One fan, entered with quantity 1 and 7 kWh a day per unit. *)
Definition fan_7kWh : EquipmentItem :=
  mkItem 1 "Fan" (lit 1) (lit 0) (lit 0) (lit 7).

(** The facility after "-1" is typed in the days-per-week input. *)
Definition minus_one_day : FacilityInfo :=
  handleFacilityInfoChange initial_facilityInfo "opDaysWeek" "-1".

(** The facility after "1e1", ten in exponent notation, is typed there. *)
Definition ten_days_exponent : FacilityInfo :=
  handleFacilityInfoChange initial_facilityInfo "opDaysWeek" "1e1".

(** The form with a name, 5 kWh a day per unit and the quantity cleared. *)
Definition blank_qty_form : Form.formData := Form.mk "Fan" "" "" "" "5".

(** The form with power and hours and a quantity that is not a number. *)
Definition text_qty_form : Form.formData := Form.mk "Fan" "abc" "100" "8" "".

(* ================================================================== *)
(** * More of [EquipmentForm]: the template select and the inputs *)
(* ================================================================== *)

(** An entry of [STANDARD_EQUIPMENT]; the powers are integer literals. *)
Module Std.
Record equipment : Type := mk {
  name : string;
  power : Z
}.
End Std.

Definition STANDARD_EQUIPMENT : list Std.equipment :=
  [ Std.mk "AC Unit" 5000;
    Std.mk "ERV Unit" 1500;
    Std.mk "Exhaust Fan" 750;
    Std.mk "LED Lighting (per 1k sqft)" 100;
    Std.mk "Furnace Fan" 800;
    Std.mk "Roof Top AC" 12000;
    Std.mk "Computer/Workstation" 150;
    Std.mk "Commercial Washer" 4500;
    Std.mk "Commercial Dryer" 5500;
    Std.mk "Air Compressor (10hp)" 7500 ].

Definition digit_char (d : Z) : ascii := ascii_of_nat (48 + Z.to_nat d).

(** The decimal digits of [n], most significant first, put in front of
    [acc]; [fuel] bounds the number of divisions. *)
Fixpoint digits_of (fuel : nat) (n : Z) (acc : list ascii) : list ascii :=
  let acc' := digit_char (n mod 10) :: acc in
  match fuel with
  | O => acc'
  | S fuel' => if (n <? 10)%Z then acc' else digits_of fuel' (n / 10) acc'
  end.

(** [toString()] of an integer below 10^21 in absolute value: its decimal
    digits, after a minus sign when it is negative. *)
Definition Z_toString (z : Z) : string :=
  let n := Z.abs z in
  let ds := digits_of (Z.to_nat (Z.log2 n)) n [] in
  string_of_list_ascii (if (z <? 0)%Z then "-"%char :: ds else ds).

(** [handleSelectChange].  The value of an option of the select is the
    empty text ([None]) or the JSON text of an entry, which [JSON.parse]
    gives back ([Some]). *)
Definition handleSelectChange (prev : Form.formData)
    (selected : option Std.equipment) : Form.formData :=
  match selected with
  | None => Form.mk "" (Form.qty prev) "" "" (Form.kwh prev)
  | Some eq =>
      Form.mk (Std.name eq) (Form.qty prev) (Z_toString (Std.power eq))
              (Form.hours prev) (Form.kwh prev)
  end.

(** [{ ...prev, [id]: value }] on the five keys of the form state; another
    key would be added to the object and never looked at. *)
Definition set_form_key (prev : Form.formData) (key value : string)
  : Form.formData :=
  if (key =? "name")%string then
    Form.mk value (Form.qty prev) (Form.power prev) (Form.hours prev)
            (Form.kwh prev)
  else if (key =? "qty")%string then
    Form.mk (Form.name prev) value (Form.power prev) (Form.hours prev)
            (Form.kwh prev)
  else if (key =? "power")%string then
    Form.mk (Form.name prev) (Form.qty prev) value (Form.hours prev)
            (Form.kwh prev)
  else if (key =? "hours")%string then
    Form.mk (Form.name prev) (Form.qty prev) (Form.power prev) value
            (Form.kwh prev)
  else if (key =? "kwh")%string then
    Form.mk (Form.name prev) (Form.qty prev) (Form.power prev)
            (Form.hours prev) value
  else prev.

(** [handleChange] of the form, for the input [key] holding [value]. *)
Definition handleChange (prev : Form.formData) (key value : string)
  : Form.formData :=
  let value :=
    if (key =? "hours")%string && (StringToNumber value >? lit 24)%num
    then "24" else value in
  set_form_key prev key value.

(** The [disabled] attribute of the three load inputs: power and hours
    are disabled while [kwh] holds a text, [kwh] while power or hours do. *)
Definition power_hours_disabled (formData : Form.formData) : bool :=
  negb (Form.kwh formData =? "")%string.

Definition kwh_disabled (formData : Form.formData) : bool :=
  negb (Form.power formData =? "")%string
  || negb (Form.hours formData =? "")%string.

Definition input_disabled (formData : Form.formData) (key : string) : bool :=
  if (key =? "power")%string || (key =? "hours")%string
  then power_hours_disabled formData
  else if (key =? "kwh")%string then kwh_disabled formData
  else false.

(** Typing [value] in the input [key]: a disabled input fires no change
    event. *)
Definition type_into (formData : Form.formData) (kv : string * string)
  : Form.formData :=
  if input_disabled formData (fst kv) then formData
  else handleChange formData (fst kv) (snd kv).

(** The form after typing the given texts, in turn, into the given
    inputs, starting from [INITIAL_FORM_STATE]. *)
Definition typed (inputs : list (string * string)) : Form.formData :=
  fold_left type_into inputs INITIAL_FORM_STATE.

(** At most one way of entering the load is in use. *)
Definition exclusive (formData : Form.formData) : bool :=
  (Form.kwh formData =? "")%string
  || ((Form.power formData =? "")%string
      && (Form.hours formData =? "")%string).

(* ================================================================== *)
(** * More of [App]: validity of the facility and the equipment list *)
(* ================================================================== *)

(** What may follow a literal that [Number] accepts: nothing, or text
    that starts with white space. *)
Definition ends_ok (ws : list ascii) : Prop :=
  match ws with
  | [] => True
  | c :: _ => is_space c = true
  end.

(** [s.trim()] *)
Definition String_trim (s : string) : string :=
  string_of_list_ascii (trim (list_ascii_of_string s)).

(** [isFacilityInfoValid] *)
Definition isFacilityInfoValid (facilityInfo : FacilityInfo) : bool :=
  negb (String_trim (streetAddress facilityInfo) =? "")%string
  && negb (String_trim (zipCode facilityInfo) =? "")%string.

(** What the user does to the equipment list: submit the form, edit a
    cell of the table, remove a line. *)
Inductive event : Type :=
| Submit (formData : Form.formData) (now : Z)
| Edit (id' : Z) (field value : string)
| Remove (id' : Z).

(** The list that the handler of the event passes to [setEquipmentList]. *)
Definition step (equipmentList : list EquipmentItem) (e : event)
  : list EquipmentItem :=
  match e with
  | Submit formData now =>
      match handleSubmit formData now with
      | inr item => addEquipment equipmentList item
      | inl _ => equipmentList
      end
  | Edit id' field value => handleEdit equipmentList id' field value
  | Remove id' => removeEquipment equipmentList id'
  end.

(** The list after the events, from the empty list of a fresh page. *)
Definition run (events : list event) : list EquipmentItem :=
  fold_left step events [].

Definition is_nan (a : num) : bool :=
  match a with NaN => true | _ => false end.

(** The line has a name, and its power and hours are numbers. *)
Definition line_ok (item : EquipmentItem) : bool :=
  negb (name item =? "")%string
  && negb (is_nan (power item)) && negb (is_nan (hours item)).

(* ================================================================== *)
(** * The same arithmetic in binary64 *)
(* ================================================================== *)

(** JavaScript computes in IEEE-754 binary64: every literal, conversion
    and arithmetic operation yields the double nearest to the exact
    result.  [Double] holds the handlers and [calculateTotals] read this
    way: each operation is the exact one of [JS] followed by [round].
    The comparisons, [||] and [Math.round] need no rounding. *)
Module Double.

(** The position of the leading binary digit of a positive rational:
    the [l] with [2^l <= q < 2^(l+1)]. *)
Definition ilog2 (q : Q) : Z :=
  let l := Z.log2 (Qnum q) - Z.log2 (Zpos (Qden q)) in
  if Qle_bool (2 ^ l) q then l else l - 1.

(** The nearest integer, a tie going to the even one. *)
Definition rne (q : Q) : Z :=
  let f := Qfloor q in
  match (q - inject_Z f ?= 1 # 2)%Q with
  | Lt => f
  | Gt => f + 1
  | Eq => if Z.even f then f else f + 1
  end.

(** The exponent of the last place of a positive [q]: 53 significant
    binary digits, and no place below [2^-1074]. *)
Definition exponent (q : Q) : Z := Z.max (ilog2 q - 52) (-1074).

(** The multiple of [2^exponent] nearest to a positive [q]. *)
Definition nearest (q : Q) : Q :=
  let e := exponent q in (inject_Z (rne (q / 2 ^ e)) * 2 ^ e)%Q.

(** A positive [q] as a double: an infinity from [2^1024] on. *)
Definition round_pos (q : Q) : num :=
  let v := nearest q in
  if Qle_bool (2 ^ 1024) v then PInf else Fin (Q2Qc v).

(** [- a] *)
Definition opp (a : num) : num :=
  match a with
  | Fin x => Fin (- x)
  | PInf => NInf
  | NInf => PInf
  | NaN => NaN
  end.

(** The double nearest to [a]: round to nearest, ties to even, with
    gradual underflow and overflow to an infinity. *)
Definition round (a : num) : num :=
  match a with
  | Fin x =>
      match (x ?= 0)%Qc with
      | Eq => a
      | Gt => round_pos x
      | Lt => opp (round_pos (- x))
      end
  | _ => a
  end.

(** [a] is a value that a double can hold. *)
Definition is_double (a : num) : Prop := round a = a.

Declare Scope double_scope.
Delimit Scope double_scope with dbl.
Bind Scope double_scope with num.

(** A decimal literal of the source. *)
Definition lit (q : Q) : num := round (JS.lit q).

Definition add (a b : num) : num := round (JS.add a b).
Definition mul (a b : num) : num := round (JS.mul a b).
Definition div (a b : num) : num := round (JS.div a b).

(** [a <= b]: false as soon as one side is [NaN]. *)
Definition leb (a b : num) : bool :=
  match a, b with
  | NaN, _ | _, NaN => false
  | _, _ => negb (gtb a b)
  end.

Definition parseInt (s : string) : num := round (Parse.parseInt s).
Definition parseFloat (s : string) : num := round (Parse.parseFloat s).

(** [Number(v)]; a number held in the state is a double already. *)
Definition Number (v : value) : num :=
  match v with
  | VUndef => NaN
  | VNum n => n
  | VStr s => round (Parse.StringToNumber s)
  end.

Infix "+" := add : double_scope.
Infix "*" := mul : double_scope.
Infix "/" := div : double_scope.
Infix ">?" := gtb (at level 70) : double_scope.
Infix "||" := or_else : double_scope.
Infix "<=?" := leb (at level 70) : double_scope.

(** [handleSubmit] *)
Definition handleSubmit (formData : Form.formData) (now : Z)
  : string + EquipmentItem :=
  if (Form.name formData =? "")%string then
    inl "Please provide an equipment name."
  else
    let numQty := parseInt (Form.qty formData) in
    let numKwh := parseFloat (Form.kwh formData) in
    let numPower := parseInt (Form.power formData) in
    let numHours := parseFloat (Form.hours formData) in
    let add_item totalDailyKWh :=
      inr (mkItem now (Form.name formData) numQty
             (numPower || lit 0)%dbl (numHours || lit 0)%dbl totalDailyKWh) in
    if (numKwh >? lit 0)%dbl then
      add_item (numKwh * numQty)%dbl
    else if ((numPower >? lit 0) && (numHours >? lit 0))%dbl then
      add_item (numQty * numPower * numHours / lit 1000)%dbl
    else
      inl "Please provide either Power and Hours, or a Daily Load kWh.".

(** The body of the [map] callback of [handleEdit]. *)
Definition edit_item (field : string) (numValue : num) (item : EquipmentItem)
  : EquipmentItem :=
  if (field =? "qty")%string then
    let perUnitKwh :=
      if (qty item >? lit 0)%dbl then (totalDailyKWh item / qty item)%dbl
      else lit 0 in
    mkItem (id item) (name item) numValue (power item) (hours item)
           (perUnitKwh * numValue)%dbl
  else if (field =? "power")%string then
    mkItem (id item) (name item) (qty item) numValue (hours item)
           (qty item * numValue * hours item / lit 1000)%dbl
  else if (field =? "hours")%string then
    mkItem (id item) (name item) (qty item) (power item) numValue
           (qty item * power item * numValue / lit 1000)%dbl
  else if (field =? "dailyKWhPerUnit")%string then
    mkItem (id item) (name item) (qty item) (lit 0) (lit 0)
           (numValue * qty item)%dbl
  else item.

Definition edit_value (field value : string) : num :=
  let numValue := (parseFloat value || lit 0)%dbl in
  if (field =? "hours")%string && (numValue >? lit 24)%dbl then lit 24
  else numValue.

(** [handleEdit] *)
Definition handleEdit (equipmentList : list EquipmentItem)
    (id' : Z) (field value : string) : list EquipmentItem :=
  let numValue := edit_value field value in
  map (fun item =>
         if (id item =? id')%Z then edit_item field numValue item else item)
      equipmentList.

(** The figure shown in the "Daily Load / unit" column. *)
Definition perUnitKwh (item : EquipmentItem) : num :=
  if (qty item >? lit 0)%dbl then (totalDailyKWh item / qty item)%dbl
  else lit 0.

Section Totals.

Variable facilityInfo : FacilityInfo.
Variable equipmentList : list EquipmentItem.
Variable peakSunHours : num.
Variable irradianceInfo' : string.

Definition daysPerWeek : num := (Number (opDaysWeek facilityInfo) || lit 0)%dbl.
Definition daysPerMonth : num := (daysPerWeek / lit 7 * lit 30.44)%dbl.
Definition daysPerYear : num := (daysPerWeek / lit 7 * lit 365.25)%dbl.

Definition totalDailyLoad : num :=
  fold_left (fun sum item => (sum + totalDailyKWh item)%dbl)
            equipmentList (lit 0).
Definition totalMonthlyLoad : num := (totalDailyLoad * daysPerMonth)%dbl.
Definition totalAnnualLoad : num := (totalDailyLoad * daysPerYear)%dbl.

Definition systemEfficiency : num := lit 0.85.
Definition dailyEnergyNeeded : num :=
  if (totalAnnualLoad >? lit 0)%dbl then (totalAnnualLoad / lit 365.25)%dbl
  else lit 0.
Definition solarPVSize : num :=
  if ((dailyEnergyNeeded >? lit 0) && (peakSunHours >? lit 0))%dbl
  then (dailyEnergyNeeded / (peakSunHours * systemEfficiency))%dbl
  else lit 0.

Definition rawBatterySize : num := (solarPVSize * lit 2)%dbl.
Definition batteryStorageSize : num :=
  (Math_round (rawBatterySize / lit 5) * lit 5)%dbl.

Definition calculateTotals : CalculationResult :=
  mkResult totalDailyLoad totalMonthlyLoad totalAnnualLoad
           solarPVSize batteryStorageSize irradianceInfo'.

End Totals.

(** The last three steps of [calculateTotals] as functions of the figure
    each one starts from. *)
Definition needed_of (annualLoad : num) : num :=
  if (annualLoad >? lit 0)%dbl then (annualLoad / lit 365.25)%dbl else lit 0.

Definition pv_of (needed psh : num) : num :=
  if ((needed >? lit 0) && (psh >? lit 0))%dbl
  then (needed / (psh * systemEfficiency))%dbl else lit 0.

Definition battery_of (pv : num) : num :=
  (Math_round (pv * lit 2 / lit 5) * lit 5)%dbl.

(** How a running sum [b] stands to the sum [a] it replaces once a term
    has been raised: it is not below it, unless [a] is [NaN] already or
    [b] became [NaN] by meeting the opposite infinity. *)
Definition raised (a b : num) : Prop :=
  a = NaN \/ (b = NaN /\ a = NInf) \/ leb a b = true.

(** Every line of the list has a [totalDailyKWh >= 0]. *)
Definition loads_nonneg (l : list EquipmentItem) : bool :=
  forallb (fun item => leb (JS.lit 0) (totalDailyKWh item)) l.

(** The equipment list after the form is submitted on an empty list. *)
Definition submitted (formData : Form.formData) (now : Z)
  : list EquipmentItem :=
  match handleSubmit formData now with
  | inr item => [item]
  | inl _ => []
  end.

End Double.

Bind Scope num_scope with num.

(** The facility after "7" is typed in the days-per-week input. *)
Definition seven_days : FacilityInfo :=
  handleFacilityInfoChange initial_facilityInfo "opDaysWeek" "7".

(** One line entered with quantity 1 and 1e17 kWh a day per unit. *)
Definition load_1e17 : list EquipmentItem :=
  Double.submitted (Form.mk "Load" "1" "" "" "1e17") 1.

(** One line entered with quantity 10 and 1e308 kWh a day per unit. *)
Definition load_1e308_times_10 : list EquipmentItem :=
  Double.submitted (Form.mk "Load" "10" "" "" "1e308") 1.

(** The facility after the days-per-week input is cleared. *)
Definition no_days : FacilityInfo :=
  handleFacilityInfoChange initial_facilityInfo "opDaysWeek" "".

(** Two lines, each entered with quantity 1 and 1e308 kWh a day. *)
Definition two_loads_1e308 : list EquipmentItem :=
  Double.submitted (Form.mk "Load" "1" "" "" "1e308") 1
  ++ Double.submitted (Form.mk "Load" "1" "" "" "1e308") 2.

(** One line entered with quantity 5, 1 W and 6.917e-321 hours a day. *)
Definition five_faint_lamps : list EquipmentItem :=
  Double.submitted (Form.mk "Lamp" "5" "1" "6.917e-321" "") 1.

(** A double as a binary64 float of the kernel, to compare [Double] with
    the machine arithmetic on given numbers. *)
Definition to_float (a : num) : PrimFloat.float :=
  match a with
  | Fin q =>
      FloatOps.SF2Prim
        (SpecFloat.binary_normalize 53 1024 (Qnum q)
                                    (- Z.log2 (Zpos (Qden q))) false)
  | PInf => PrimFloat.infinity
  | NInf => PrimFloat.neg_infinity
  | NaN => PrimFloat.nan
  end.

(* ================================================================== *)
(** * Facts about the arithmetic *)
(* ================================================================== *)

(** Goals on canonical rationals are moved to [Q], where [lra] and [nra]
    decide them. *)
Ltac qc2q :=
  unfold Qcle, Qclt, Qcdiv, Qcinv, Qcmult, Qcplus, Qcminus, Qcopp, Q2Qc in *;
  cbn [this] in *;
  repeat rewrite Qred_correct in *.

(** Closed equations between numbers, by evaluation. *)
Ltac num_eq :=
  vm_compute;
  first [ reflexivity
        | apply f_equal; apply Qc_is_canon; vm_compute; reflexivity ].

#[global] Arguments Qccompare : simpl never.
#[global] Arguments Qcplus : simpl never.
#[global] Arguments Qcmult : simpl never.
#[global] Arguments Qcdiv : simpl never.
#[global] Arguments Qcinv : simpl never.
#[global] Arguments Q2Qc : simpl never.
#[global] Arguments Qc_eq_dec : simpl never.

(** The conversions on a few texts. *)
Example parseInt_examples :
  parseInt "" = NaN /\ parseInt "abc" = NaN /\ parseInt "10" = lit 10 /\
  parseInt "  -42px" = lit (-42) /\ parseInt "7.9" = lit 7 /\
  parseInt "1e1" = lit 1.
Proof. repeat split; reflexivity. Qed.

Example parseFloat_examples :
  parseFloat "" = NaN /\ parseFloat "." = NaN /\ parseFloat "4" = lit 4 /\
  parseFloat ".5" = lit 0.5 /\ parseFloat "5." = lit 5 /\
  parseFloat "3.5e-1x" = lit 0.35 /\ parseFloat "5e" = lit 5 /\
  parseFloat "-Infinity" = NInf.
Proof. repeat split; reflexivity. Qed.

Example StringToNumber_examples :
  StringToNumber "" = lit 0 /\ StringToNumber "  " = lit 0 /\
  StringToNumber " 12 " = lit 12 /\ StringToNumber "12 3" = NaN /\
  StringToNumber "7.5" = lit 7.5 /\ StringToNumber "1e1" = lit 10 /\
  StringToNumber "-3" = lit (-3) /\ StringToNumber "0x1F" = lit 31 /\
  StringToNumber "5e" = NaN /\ StringToNumber "abc" = NaN.
Proof. repeat split; reflexivity. Qed.

Example fan_7kWh_submitted :
  handleSubmit (Form.mk "Fan" "1" "" "" "7") 1 = inr fan_7kWh.
Proof. reflexivity. Qed.

Section Arithmetic.

Local Open Scope Qc_scope.

Lemma Qc_compare_spec (x y : Qc) :
  CompareSpec (x = y) (x < y) (y < x) (x ?= y).
Proof.
  destruct (x ?= y) eqn:E; constructor.
  - now apply Qceq_alt.
  - now apply Qclt_alt.
  - now apply Qcgt_alt in E.
Qed.

Lemma Qc_lt_irrefl (x : Qc) : ~ x < x.
Proof. qc2q. lra. Qed.

Lemma Qc_lt_asym (x y : Qc) : x < y -> y < x -> False.
Proof. qc2q. lra. Qed.

Lemma lit_pos (q : Q) : (0 < q)%Q -> 0 < Q2Qc q.
Proof. intros H. qc2q. exact H. Qed.

Lemma gtb_Fin (x y : Qc) : gtb (Fin x) (Fin y) = true <-> y < x.
Proof.
  cbn. destruct (Qc_compare_spec x y) as [E | L | G]; split; intros H;
    try discriminate; try reflexivity; try assumption.
  - subst. now apply Qc_lt_irrefl in H.
  - exfalso. eapply Qc_lt_asym; eassumption.
Qed.

Lemma gtb_Fin_false (x y : Qc) : gtb (Fin x) (Fin y) = false <-> x <= y.
Proof.
  rewrite <- Bool.not_true_iff_false, gtb_Fin. qc2q. lra.
Qed.

Lemma nonneg_Fin (x : Qc) : nonneg (Fin x) = true <-> 0 <= x.
Proof.
  cbn. destruct (Qc_compare_spec x 0) as [E | L | G]; split; intros H;
    try discriminate; try reflexivity.
  - subst. qc2q. lra.
  - exfalso. qc2q. lra.
  - qc2q. lra.
Qed.

Lemma nonneg_inv (a : num) :
  nonneg a = true -> exists x, a = Fin x /\ 0 <= x.
Proof.
  destruct a as [x | | |]; try discriminate.
  intros H. exists x. split; [reflexivity | now apply nonneg_Fin].
Qed.

Lemma finite_inv (a : num) : finite a = true -> exists x, a = Fin x.
Proof. destruct a as [x | | |]; try discriminate. now exists x. Qed.

Lemma add_comm (a b : num) : add a b = add b a.
Proof.
  destruct a, b; cbn; try reflexivity. f_equal. ring.
Qed.



Lemma Qc_inv_pos (c : Qc) : 0 < c -> 0 < / c.
Proof. intros H. qc2q. now apply Qinv_lt_0_compat. Qed.

Lemma Qc_mul_nonneg (a b : Qc) : 0 <= a -> 0 <= b -> 0 <= a * b.
Proof. intros. qc2q. nra. Qed.

Lemma Qc_div_nonneg (a c : Qc) : 0 <= a -> 0 < c -> 0 <= a / c.
Proof.
  intros Ha Hc. apply Qc_inv_pos in Hc. unfold Qcdiv.
  apply Qc_mul_nonneg; [exact Ha |]. qc2q. lra.
Qed.

Lemma Qc_mul_le_r (a b c : Qc) : a <= b -> 0 <= c -> a * c <= b * c.
Proof. intros. qc2q. nra. Qed.

Lemma Qc_div_le_r (a b c : Qc) : a <= b -> 0 < c -> a / c <= b / c.
Proof.
  intros Hab Hc. apply Qc_inv_pos in Hc. unfold Qcdiv.
  apply Qc_mul_le_r; [exact Hab |]. qc2q. lra.
Qed.

Lemma Qc_lt_le (a b : Qc) : a < b -> a <= b.
Proof. qc2q. lra. Qed.

Lemma Qc_le_refl (a : Qc) : a <= a.
Proof. qc2q. lra. Qed.

Lemma Qc_le_trans (a b c : Qc) : a <= b -> b <= c -> a <= c.
Proof. qc2q. lra. Qed.

Lemma Qc_le_lt_trans (a b c : Qc) : a <= b -> b < c -> a < c.
Proof. qc2q. lra. Qed.

Lemma Qc_lt_le_trans (a b c : Qc) : a < b -> b <= c -> a < c.
Proof. qc2q. lra. Qed.

Lemma cmp_lt (x y : Qc) : x < y -> (x ?= y) = Lt.
Proof. apply Qclt_alt. Qed.

Lemma cmp_gt (x y : Qc) : y < x -> (x ?= y) = Gt.
Proof. apply Qcgt_alt. Qed.



End Arithmetic.

(* ================================================================== *)
(** * The totals *)
(* ================================================================== *)




(* ================================================================== *)
(** * Literals and quotients *)
(* ================================================================== *)

Section Shapes.

Local Open Scope Qc_scope.

Lemma lit_neq_0 (q : Q) : ~ (q == 0)%Q -> Q2Qc q <> 0.
Proof.
  intros H E. apply H.
  apply (f_equal this) in E. unfold Q2Qc in E. cbn [this] in E.
  rewrite <- (Qred_correct q), E. reflexivity.
Qed.

Lemma lit_neq (p q : Q) : ~ (p == q)%Q -> lit p <> lit q.
Proof.
  intros H E. apply H. injection E as E.
  rewrite <- (Qred_correct p), <- (Qred_correct q), E. reflexivity.
Qed.

Lemma div_Fin (x c : Qc) : c <> 0 -> div (Fin x) (Fin c) = Fin (x / c).
Proof.
  intros H. cbn. destruct (Qc_eq_dec c 0) as [E | _]; [contradiction | reflexivity].
Qed.

Lemma div_lit (x : Qc) (q : Q) :
  ~ (q == 0)%Q -> div (Fin x) (lit q) = Fin (x / Q2Qc q).
Proof. intros H. apply div_Fin, lit_neq_0, H. Qed.

End Shapes.

(* ================================================================== *)
(** * Whole numbers *)
(* ================================================================== *)

Section Sizing.

Local Open Scope Qc_scope.

Lemma of_Z_times_5 (k : Z) : mul (of_Z k) (lit 5) = of_Z (5 * k).
Proof.
  unfold of_Z, lit. cbn [mul]. f_equal. apply Qc_is_canon. qc2q.
  rewrite inject_Z_mult. ring.
Qed.

Lemma of_Z_nonneg (k : Z) : (0 <= k)%Z -> nonneg (of_Z k) = true.
Proof.
  intros H. apply nonneg_Fin. qc2q.
  change 0%Q with (inject_Z 0). now rewrite <- Zle_Qle.
Qed.

Lemma round_nonneg (x : Qc) :
  0 <= x -> (0 <= Qfloor (x + (1 # 2))%Q)%Z.
Proof.
  intros H. change 0%Z with (Qfloor 0). apply Qfloor_resp_le.
  qc2q. lra.
Qed.

End Sizing.

(* ================================================================== *)
(** * The period totals on finite numbers *)
(* ================================================================== *)

Section Signs.

Local Open Scope Qc_scope.


End Signs.

(* ================================================================== *)
(** * Editing the quantity of a line *)
(* ================================================================== *)

Section EditQty.

Local Open Scope Qc_scope.

(** What [handleEdit] makes of a line whose quantity is edited. *)
Lemma edit_item_qty (numValue : num) (item : EquipmentItem) :
  edit_item "qty" numValue item
  = mkItem (id item) (name item) numValue (power item) (hours item)
           (mul (perUnitKwh item) numValue).
Proof. reflexivity. Qed.


Lemma nth_error_handleEdit l id' field value i :
  nth_error (handleEdit l id' field value) i
  = option_map
      (fun item => if (id item =? id')%Z
                   then edit_item field (edit_value field value) item
                   else item)
      (nth_error l i).
Proof. unfold handleEdit. apply nth_error_map. Qed.

End EditQty.



(* ================================================================== *)
(** * Days per week *)
(* ================================================================== *)

Lemma parseInt_empty_not_above (value : string) (bound : num) :
  (parseInt value >? bound)%num = true -> (value =? "")%string = false.
Proof.
  destruct (value =? "")%string eqn:E; [| reflexivity].
  apply String.eqb_eq in E. subst. cbn. discriminate.
Qed.

Lemma handleFacilityInfoChange_capped prev value :
  (parseInt value >? lit 7)%num = true ->
  handleFacilityInfoChange prev "opDaysWeek" value
  = mkFacility (streetAddress prev) (zipCode prev) (opHoursDay prev) (VStr "7").
Proof.
  intros H. unfold handleFacilityInfoChange.
  cbn [String.eqb Ascii.eqb Bool.eqb].
  rewrite (parseInt_empty_not_above _ _ H), H. reflexivity.
Qed.

(** C7, as the code has it.  The cap at 7 is applied when the value is
    entered: [handleFacilityInfoChange] stores "7" for every text whose
    [parseInt] is above 7, so that entering 10 gives the same result of
    [calculateTotals] as entering 7, for every equipment list and peak sun
    hours.  [calculateTotals] works with the stored value as it is. *)
Theorem opDaysWeek_capped_on_entry :
  (forall prev value,
      (parseInt value >? lit 7)%num = true ->
      opDaysWeek (handleFacilityInfoChange prev "opDaysWeek" value) = VStr "7" /\
      daysPerWeek (handleFacilityInfoChange prev "opDaysWeek" value) = lit 7 /\
      forall l psh info,
        calculateTotals (handleFacilityInfoChange prev "opDaysWeek" value)
                        l psh info
        = calculateTotals (handleFacilityInfoChange prev "opDaysWeek" "7")
                          l psh info) /\
  (forall prev l psh info,
      calculateTotals (handleFacilityInfoChange prev "opDaysWeek" "10")
                      l psh info
      = calculateTotals (handleFacilityInfoChange prev "opDaysWeek" "7")
                        l psh info) /\
  (forall fi, daysPerWeek fi = (Number (opDaysWeek fi) || lit 0)%num).
Proof.
  split; [| split].
  - intros prev value H. rewrite (handleFacilityInfoChange_capped prev value H).
    split; [reflexivity |]. split; [num_eq |]. reflexivity.
  - intros prev l psh info.
    now rewrite (handleFacilityInfoChange_capped prev "10" eq_refl).
  - reflexivity.
Qed.

Lemma opDaysWeek_capped_on_entry_witness :
  (parseInt "10" >? lit 7)%num = true /\
  opDaysWeek (handleFacilityInfoChange initial_facilityInfo "opDaysWeek" "10")
  = VStr "7".
Proof.
  split; [reflexivity |].
  apply (proj1 opDaysWeek_capped_on_entry initial_facilityInfo "10").
  reflexivity.
Defined.

(** C7 as stated fails: [calculateTotals] works with ten days per week when
    ten is what the state holds, and the monthly total of the fan is then
    304.4 and not the 213.08 of seven days; typing "1e1" puts ten there,
    because the cap looks at [parseInt] of the text, which is 1. *)
Lemma calculateTotals_has_no_cap :
  monthly (calculateTotals (mkFacility "" "" (VNum (lit 10)) (VNum (lit 10)))
                           [fan_7kWh] (lit 4.5) "") = lit 304.4 /\
  monthly (calculateTotals (mkFacility "" "" (VNum (lit 10)) (VNum (lit 7)))
                           [fan_7kWh] (lit 4.5) "") = lit 213.08 /\
  calculateTotals (mkFacility "" "" (VNum (lit 10)) (VNum (lit 10)))
                  [fan_7kWh] (lit 4.5) ""
  <> calculateTotals (mkFacility "" "" (VNum (lit 10)) (VNum (lit 7)))
                     [fan_7kWh] (lit 4.5) "" /\
  opDaysWeek ten_days_exponent = VStr "1e1" /\
  daysPerWeek ten_days_exponent = lit 10 /\
  monthly (calculateTotals ten_days_exponent [fan_7kWh] (lit 4.5) "")
  = lit 304.4.
Proof.
  assert (H10 : monthly (calculateTotals
                           (mkFacility "" "" (VNum (lit 10)) (VNum (lit 10)))
                           [fan_7kWh] (lit 4.5) "") = lit 304.4) by num_eq.
  assert (H7 : monthly (calculateTotals
                          (mkFacility "" "" (VNum (lit 10)) (VNum (lit 7)))
                          [fan_7kWh] (lit 4.5) "") = lit 213.08) by num_eq.
  split; [exact H10 |]. split; [exact H7 |]. split.
  - intros E. apply (f_equal monthly) in E. rewrite H10, H7 in E. revert E.
    apply lit_neq. vm_compute. discriminate.
  - repeat split; num_eq.
Qed.

(** C8, as the code has it.  The days per week are
    Number(opDaysWeek) || 0: 0 when the value is missing, blank or not a
    number, and the number itself otherwise, a negative one included.  They
    agree with max(0, opDaysWeek) exactly on the values that are not
    negative numbers. *)
Theorem daysPerWeek_coercion :
  (forall fi,
      daysPerWeek fi
      = match Number (opDaysWeek fi) with NaN => lit 0 | n => n end) /\
  (forall fi,
      match Number (opDaysWeek fi) with
      | Fin q => (0 <= q)%Qc
      | NInf => False
      | _ => True
      end <->
      daysPerWeek fi = spec_daysPerWeek (Number (opDaysWeek fi))) /\
  (forall street zip opHours,
      daysPerWeek (mkFacility street zip opHours VUndef) = lit 0 /\
      daysPerWeek (mkFacility street zip opHours (VStr "")) = lit 0 /\
      daysPerWeek (mkFacility street zip opHours (VStr "abc")) = lit 0).
Proof.
  split; [| split].
  - intros fi. unfold daysPerWeek, or_else.
    destruct (Number (opDaysWeek fi)) as [q | | |]; cbn; try reflexivity.
    destruct (Qc_eq_dec q 0) as [-> | _]; reflexivity.
  - intros fi. unfold daysPerWeek, or_else, spec_daysPerWeek.
    destruct (Number (opDaysWeek fi)) as [q | | |]; cbn [truthy gtb lit].
    + destruct (Qc_eq_dec q 0) as [-> | Hq].
      * split; [intros _ | intros _; apply Qc_le_refl].
        now destruct (Q2Qc 0 ?= Q2Qc 0)%Qc.
      * destruct (Qc_compare_spec q (Q2Qc 0)) as [E | L | G].
        -- contradiction.
        -- split; [intros H; exfalso | intros H; unfold lit in H; congruence].
           eapply Qc_lt_irrefl, Qc_le_lt_trans; eassumption.
        -- split; [reflexivity | intros _; now apply Qc_lt_le].
    + split; reflexivity.
    + split; [contradiction | discriminate].
    + split; reflexivity.
  - intros. repeat split; num_eq.
Qed.

Lemma daysPerWeek_coercion_witness :
  daysPerWeek initial_facilityInfo
  = spec_daysPerWeek (Number (opDaysWeek initial_facilityInfo)).
Proof.
  apply (proj1 (proj2 daysPerWeek_coercion) initial_facilityInfo).
  vm_compute. discriminate.
Defined.

(** C8 as stated fails: with "-3" typed as days per week the engine works
    with -3 days, where max(0, -3) is 0. *)
Lemma negative_days_pass_through :
  opDaysWeek (handleFacilityInfoChange initial_facilityInfo "opDaysWeek" "-3")
  = VStr "-3" /\
  daysPerWeek (handleFacilityInfoChange initial_facilityInfo "opDaysWeek" "-3")
  = lit (-3) /\
  spec_daysPerWeek (Number (VStr "-3")) = lit 0 /\
  (lit 0 >? daysPerWeek
              (handleFacilityInfoChange initial_facilityInfo "opDaysWeek" "-3"))%num
  = true.
Proof. repeat split; num_eq. Qed.

(* ================================================================== *)
(** * Peak sun hours from the zip code *)
(* ================================================================== *)

Lemma prefix_cons (a b : ascii) (s1 s2 : string) :
  String.prefix (String a s1) (String b s2)
  = if ascii_dec a b then String.prefix s1 s2 else false.
Proof. reflexivity. Qed.

Lemma prefix_98_99 (zip : string) :
  String.prefix "98" zip || String.prefix "99" zip = true ->
  String.prefix "9" zip = true.
Proof.
  destruct zip as [| c rest]; [intros H; discriminate H |].
  rewrite !prefix_cons.
  destruct (ascii_dec "9" c) as [_ | _]; [| intros H; discriminate H].
  intros _. now destruct rest.
Qed.

Lemma prefix_9_not_8 (zip tail : string) :
  String.prefix "9" zip = true -> String.prefix (String "8" tail) zip = false.
Proof.
  destruct zip as [| c rest]; [reflexivity |].
  rewrite !prefix_cons.
  destruct (ascii_dec "9" c) as [<- | _]; [| intros H; discriminate H].
  intros _. reflexivity.
Qed.

(** C10, as the code has it.  For every zip code of at least five
    characters whose first character is "9", those starting with "98" or
    "99" included, [fetchSolarData] sets 5.5 peak sun hours (the West
    Coast); a shorter string gets the default 4.5; and no string at all
    gets 3.8, the Pacific Northwest branch being unreachable. *)
Theorem west_coast_shadows_northwest :
  (forall zip,
      (5 <= String.length zip)%nat -> String.prefix "9" zip = true ->
      fetchSolarData zip = (lit 5.5, Some "the West Coast")) /\
  (forall zip,
      (String.length zip < 5)%nat -> fetchSolarData zip = (lit 4.5, None)) /\
  (forall zip,
      fst (fetchSolarData zip) <> lit 3.8 /\
      snd (fetchSolarData zip) <> Some "the Pacific Northwest") /\
  fst (fetchSolarData "98101") = lit 5.5 /\
  fst (fetchSolarData "99501") = lit 5.5.
Proof.
  split; [| split; [| split; [| split]]].
  - intros zip Hlen H9. unfold fetchSolarData.
    apply Nat.ltb_ge in Hlen. rewrite Hlen.
    rewrite !(prefix_9_not_8 zip _ H9), H9. reflexivity.
  - intros zip Hlen. unfold fetchSolarData.
    apply Nat.ltb_lt in Hlen. now rewrite Hlen.
  - intros zip. unfold fetchSolarData.
    destruct (String.length zip <? 5)%nat;
      [split; [apply lit_neq |]; discriminate |].
    destruct (String.prefix "85" zip || String.prefix "86" zip);
      [split; [apply lit_neq |]; discriminate |].
    destruct (String.prefix "9" zip) eqn:H9;
      [split; [apply lit_neq |]; discriminate |].
    destruct (String.prefix "98" zip || String.prefix "99" zip) eqn:H98.
    { apply prefix_98_99 in H98. congruence. }
    destruct (String.prefix "3" zip);
      split; try apply lit_neq; discriminate.
  - reflexivity.
  - reflexivity.
Qed.

Lemma west_coast_shadows_northwest_witness :
  (5 <= String.length "98101")%nat /\
  String.prefix "9" "98101" = true /\
  fetchSolarData "98101" = (lit 5.5, Some "the West Coast").
Proof.
  split; [vm_compute; reflexivity |]. split; [reflexivity |].
  apply (proj1 west_coast_shadows_northwest "98101");
    [vm_compute; reflexivity | reflexivity].
Defined.

(** C10 as stated fails: a string of fewer than five characters gets the
    default 4.5 whatever its first character. *)
Lemma short_zip_gets_default :
  String.prefix "9" "98" = true /\
  fetchSolarData "98" = (lit 4.5, None) /\
  fst (fetchSolarData "98") <> lit 5.5.
Proof.
  split; [reflexivity |]. split; [reflexivity |].
  apply (lit_neq 4.5 5.5). vm_compute. discriminate.
Qed.

(* ================================================================== *)
(** * The quantity that is not a number *)
(* ================================================================== *)

(** C2.  The quantity is used as [parseInt] returns it: submitting the
    form with the quantity cleared, or holding a text that is not a number,
    stores a line whose [qty] and [totalDailyKWh] are [NaN], while [power]
    and [hours] get their 0; the daily, monthly and annual totals of a list
    holding such a line are [NaN]. *)
Theorem blank_qty_stores_NaN (now : Z) :
  handleSubmit blank_qty_form now
  = inr (mkItem now "Fan" NaN (lit 0) (lit 0) NaN) /\
  handleSubmit text_qty_form now
  = inr (mkItem now "Fan" NaN (lit 100) (lit 8) NaN) /\
  (forall psh info,
      let r := calculateTotals initial_facilityInfo
                 (addEquipment [fan_7kWh] (mkItem now "Fan" NaN (lit 0) (lit 0) NaN))
                 psh info in
      daily r = NaN /\ monthly r = NaN /\ annual r = NaN).
Proof.
  split; [reflexivity |]. split; [reflexivity |].
  intros psh info. cbn. repeat split; num_eq.
Qed.

(* ================================================================== *)
(** * The equipment list: adding, removing and editing lines *)
(* ================================================================== *)


Lemma removeEquipment_absent l i :
  (forall it, In it l -> id it <> i) -> removeEquipment l i = l.
Proof.
  unfold removeEquipment. induction l as [| a rest IH]; intros H; cbn [filter].
  - reflexivity.
  - assert (Ha : id a <> i) by (apply H; now left).
    apply Z.eqb_neq in Ha. rewrite Ha. cbn [negb]. f_equal.
    apply IH. intros it Hin. apply H. now right.
Qed.

Lemma removeEquipment_app l l' i :
  removeEquipment (l ++ l') i
  = (removeEquipment l i ++ removeEquipment l' i)%list.
Proof. unfold removeEquipment. apply filter_app. Qed.

(** X2.  Removing by [id] undoes the addition of a line whose [id] no
    other line of the list carries; and a line added with the [id] of an
    earlier one goes away together with it. *)
Theorem remove_after_add :
  (forall l item,
      (forall it, In it l -> id it <> id item) ->
      removeEquipment (addEquipment l item) (id item) = l) /\
  (forall l a b,
      id b = id a ->
      removeEquipment (addEquipment (addEquipment l a) b) (id a)
      = removeEquipment l (id a)).
Proof.
  split.
  - intros l item H. unfold addEquipment. rewrite removeEquipment_app.
    rewrite (removeEquipment_absent l _ H).
    unfold removeEquipment. cbn [filter]. rewrite Z.eqb_refl. cbn [negb].
    apply app_nil_r.
  - intros l a b Hid. unfold addEquipment. rewrite !removeEquipment_app.
    unfold removeEquipment at 2 3. cbn [filter].
    rewrite Hid, Z.eqb_refl. cbn [negb]. now rewrite !app_nil_r.
Qed.

Lemma remove_after_add_witness :
  removeEquipment (addEquipment [fan_7kWh]
                     (mkItem 2 "Pump" (lit 1) (lit 0) (lit 0) (lit 3))) 2
  = [fan_7kWh].
Proof.
  apply (proj1 remove_after_add [fan_7kWh]
           (mkItem 2 "Pump" (lit 1) (lit 0) (lit 0) (lit 3))).
  intros it [<- | []]. cbn. lia.
Defined.

Lemma edit_item_id_name field numValue item :
  id (edit_item field numValue item) = id item /\
  name (edit_item field numValue item) = name item.
Proof.
  unfold edit_item.
  destruct (field =? "qty")%string; [now split |].
  destruct (field =? "power")%string; [now split |].
  destruct (field =? "hours")%string; [now split |].
  destruct (field =? "dailyKWhPerUnit")%string; now split.
Qed.

(** X3.  An edit of the table keeps the lines in place: the list has the
    same length, the same [id]s and the same names in the same order,
    whatever the field and the text are. *)
Theorem handleEdit_keeps_lines l id' field value :
  List.length (handleEdit l id' field value) = List.length l /\
  map id (handleEdit l id' field value) = map id l /\
  map name (handleEdit l id' field value) = map name l.
Proof.
  unfold handleEdit. split; [apply length_map |].
  rewrite !map_map. split; apply map_ext; intros item;
    destruct (id item =? id')%Z; try reflexivity;
    apply (edit_item_id_name field (edit_value field value) item).
Qed.

(** X4.  An edit changes nothing when no line carries the [id], and
    nothing when the field is none of "qty", "power", "hours" and
    "dailyKWhPerUnit". *)
Theorem handleEdit_without_effect :
  (forall l id' field value,
      (forall item, In item l -> id item <> id') ->
      handleEdit l id' field value = l) /\
  (forall l id' field value,
      field <> "qty" -> field <> "power" -> field <> "hours" ->
      field <> "dailyKWhPerUnit" ->
      handleEdit l id' field value = l).
Proof.
  split.
  - intros l id' field value H. unfold handleEdit.
    rewrite <- (map_id l) at 2. apply map_ext_in. intros item Hin.
    specialize (H item Hin). apply Z.eqb_neq in H. now rewrite H.
  - intros l id' field value Hq Hp Hh Hk. unfold handleEdit.
    rewrite <- (map_id l) at 2. apply map_ext. intros item.
    unfold edit_item.
    apply String.eqb_neq in Hq, Hp, Hh, Hk. rewrite Hq, Hp, Hh, Hk.
    now destruct (id item =? id')%Z.
Qed.

Lemma handleEdit_without_effect_witness :
  handleEdit [fan_7kWh] 5 "qty" "3" = [fan_7kWh] /\
  handleEdit [fan_7kWh] 1 "name" "Pump" = [fan_7kWh].
Proof.
  split.
  - apply (proj1 handleEdit_without_effect).
    intros item [<- | []]. cbn. lia.
  - apply (proj2 handleEdit_without_effect); discriminate.
Defined.

Section EditCells.

Local Open Scope Qc_scope.

Lemma handleEdit_nth l id' field value i item :
  nth_error l i = Some item -> id item = id' ->
  nth_error (handleEdit l id' field value) i
  = Some (edit_item field (edit_value field value) item).
Proof.
  intros Hnth Hid. rewrite nth_error_handleEdit, Hnth. cbn [option_map].
  apply Z.eqb_eq in Hid. now rewrite Hid.
Qed.

Lemma handleEdit_nth_inv l id' field value i item' :
  nth_error (handleEdit l id' field value) i = Some item' -> id item' = id' ->
  exists item,
    nth_error l i = Some item /\ id item = id' /\
    item' = edit_item field (edit_value field value) item.
Proof.
  rewrite nth_error_handleEdit.
  destruct (nth_error l i) as [item |]; [| discriminate].
  cbn [option_map]. intros E Hid. injection E as E.
  destruct (id item =? id')%Z eqn:Eid.
  - apply Z.eqb_eq in Eid. now exists item.
  - apply Z.eqb_neq in Eid. subst item'. contradiction.
Qed.

Lemma or_else_not_nan (a : num) : is_nan (or_else a (lit 0)) = false.
Proof. unfold or_else. destruct a; reflexivity || (cbn; now destruct (Qc_eq_dec q 0)). Qed.

Lemma edit_value_not_nan field value : is_nan (edit_value field value) = false.
Proof.
  unfold edit_value.
  destruct ((field =? "hours")%string
            && gtb (or_else (parseFloat value) (lit 0)) (lit 24));
    [reflexivity | apply or_else_not_nan].
Qed.

Lemma edit_value_hours_at_most_24 value :
  gtb (edit_value "hours" value) (lit 24) = false.
Proof.
  unfold edit_value. cbn [String.eqb Ascii.eqb Bool.eqb andb].
  destruct (gtb (or_else (parseFloat value) (lit 0)) (lit 24)) eqn:G;
    [reflexivity | exact G].
Qed.

End EditCells.

(** X5.  After an edit of the hours in the table, the hours of every
    line with the edited [id] are a number that is not above 24, whatever
    the text was.  There is no lower bound: the text "-5" stores -5. *)
Theorem edited_hours_at_most_24 :
  (forall l id' value i item',
      nth_error (handleEdit l id' "hours" value) i = Some item' ->
      id item' = id' ->
      (hours item' >? lit 24)%num = false /\ is_nan (hours item') = false) /\
  map hours (handleEdit [fan_7kWh] 1 "hours" "-5") = [lit (-5)].
Proof.
  split; [| reflexivity].
  intros l id' value i item' Hnth Hid.
  destruct (handleEdit_nth_inv _ _ _ _ _ _ Hnth Hid) as (item & _ & _ & ->).
  change (hours (edit_item "hours" (edit_value "hours" value) item))
    with (edit_value "hours" value).
  split; [apply edit_value_hours_at_most_24 | apply edit_value_not_nan].
Qed.

Lemma edited_hours_at_most_24_witness :
  (hours (nth 0 (handleEdit [fan_7kWh] 1 "hours" "30") fan_7kWh) >? lit 24)%num
  = false.
Proof.
  apply (proj1 edited_hours_at_most_24 [fan_7kWh] 1 "30" 0%nat);
    reflexivity.
Defined.



Section EditSequences.

Local Open Scope Qc_scope.

Lemma edit_value_of_NaN field value :
  parseFloat value = NaN -> edit_value field value = lit 0.
Proof.
  intros E. unfold edit_value. rewrite E.
  now destruct (field =? "hours")%string.
Qed.

Lemma mul_0_Fin (x : Qc) : mul (lit 0) (Fin x) = lit 0.
Proof. unfold lit. cbn [mul]. f_equal. ring. Qed.

End EditSequences.

(** X7.  A quantity that is not positive loses the load of the line: once
    the quantity of a line has been edited to a number that is not above 0
    (a blank or non-numeric text counts as 0), a further edit of the
    quantity to any finite number leaves [totalDailyKWh] at 0. *)
Theorem qty_not_positive_loses_load :
  (forall l id' v1 v2 i item,
      nth_error l i = Some item -> id item = id' ->
      (edit_value "qty" v1 >? lit 0)%num = false ->
      finite (edit_value "qty" v2) = true ->
      exists item',
        nth_error (handleEdit (handleEdit l id' "qty" v1) id' "qty" v2) i
        = Some item' /\
        qty item' = edit_value "qty" v2 /\
        totalDailyKWh item' = lit 0) /\
  (forall value,
      parseFloat value = NaN ->
      (edit_value "qty" value >? lit 0)%num = false).
Proof.
  split.
  - intros l id' v1 v2 i item Hnth Hid G1 F2.
    pose proof (handleEdit_nth l id' "qty" v1 i item Hnth Hid) as H1.
    assert (Hid1 : id (edit_item "qty" (edit_value "qty" v1) item) = id')
      by (now rewrite (proj1 (edit_item_id_name _ _ _))).
    rewrite (handleEdit_nth _ id' "qty" v2 i _ H1 Hid1).
    eexists. split; [reflexivity |].
    rewrite !edit_item_qty. cbn [qty totalDailyKWh]. split; [reflexivity |].
    unfold perUnitKwh at 1. cbn [qty]. rewrite G1.
    destruct (finite_inv _ F2) as (x & ->). apply mul_0_Fin.
  - intros value E. now rewrite (edit_value_of_NaN "qty" value E).
Qed.

Lemma qty_not_positive_loses_load_witness :
  exists item',
    nth_error (handleEdit (handleEdit [fan_7kWh] 1 "qty" "") 1 "qty" "3") 0
    = Some item' /\
    totalDailyKWh item' = lit 0.
Proof.
  destruct (proj1 qty_not_positive_loses_load [fan_7kWh] 1 "" "3" 0%nat
              fan_7kWh eq_refl eq_refl eq_refl eq_refl)
    as (item' & Hnth & _ & Ht).
  exists item'. split; [exact Hnth | exact Ht].
Defined.



(* ================================================================== *)
(** * What the equipment list can hold *)
(* ================================================================== *)

Section Lines.

Local Open Scope Qc_scope.

Lemma mul_positive (a b : num) :
  gtb a (lit 0) = true -> gtb b (lit 0) = true -> gtb (mul a b) (lit 0) = true.
Proof.
  destruct a as [x | | |], b as [y | | |]; try discriminate; intros Ha Hb;
    try reflexivity.
  - apply gtb_Fin in Ha, Hb. apply gtb_Fin. qc2q. nra.
  - apply gtb_Fin in Ha. cbn [mul]. now rewrite (cmp_gt x 0 Ha).
  - apply gtb_Fin in Hb. cbn [mul]. now rewrite (cmp_gt y 0 Hb).
Qed.

Lemma handleSubmit_inv formData now item :
  handleSubmit formData now = inr item ->
  (Form.name formData =? "")%string = false /\
  id item = now /\ name item = Form.name formData /\
  qty item = parseInt (Form.qty formData) /\
  power item = or_else (parseInt (Form.power formData)) (lit 0) /\
  hours item = or_else (parseFloat (Form.hours formData)) (lit 0) /\
  ((gtb (parseFloat (Form.kwh formData)) (lit 0) = true /\
    totalDailyKWh item
    = mul (parseFloat (Form.kwh formData)) (parseInt (Form.qty formData))) \/
   (gtb (parseFloat (Form.kwh formData)) (lit 0) = false /\
    gtb (parseInt (Form.power formData)) (lit 0) = true /\
    gtb (parseFloat (Form.hours formData)) (lit 0) = true /\
    totalDailyKWh item
    = div (mul (mul (parseInt (Form.qty formData))
                    (parseInt (Form.power formData)))
               (parseFloat (Form.hours formData))) (lit 1000))).
Proof.
  unfold handleSubmit.
  destruct (Form.name formData =? "")%string; [discriminate |].
  destruct (gtb (parseFloat (Form.kwh formData)) (lit 0)) eqn:Gk.
  - intros E. injection E as <-. cbn. repeat split. now left.
  - destruct (gtb (parseInt (Form.power formData)) (lit 0)) eqn:Gp;
      [| discriminate].
    destruct (gtb (parseFloat (Form.hours formData)) (lit 0)) eqn:Gh;
      [| discriminate].
    cbn [andb]. intros E. injection E as <-. cbn. repeat split.
    right. now repeat split.
Qed.

End Lines.

Section Runs.

Lemma line_ok_submitted formData now item :
  handleSubmit formData now = inr item -> line_ok item = true.
Proof.
  intros H.
  destruct (handleSubmit_inv _ _ _ H) as (Hn & _ & Hname & _ & Hp & Hh & _).
  unfold line_ok. rewrite Hname, Hn, Hp, Hh, !or_else_not_nan. reflexivity.
Qed.

Lemma line_ok_edit_item field value item :
  line_ok item = true ->
  line_ok (edit_item field (edit_value field value) item) = true.
Proof.
  unfold line_ok. intros H.
  apply andb_prop in H as [H Hh]. apply andb_prop in H as [Hn Hp].
  rewrite (proj2 (edit_item_id_name _ _ _)), Hn. cbn [andb].
  pose proof (edit_value_not_nan field value) as Hv.
  unfold edit_item.
  destruct (field =? "qty")%string; [cbn; now rewrite Hp, Hh |].
  destruct (field =? "power")%string; [cbn; now rewrite Hv, Hh |].
  destruct (field =? "hours")%string; [cbn; now rewrite Hv, Hp |].
  destruct (field =? "dailyKWhPerUnit")%string; [reflexivity |].
  now rewrite Hp, Hh.
Qed.

Lemma forallb_step (P : EquipmentItem -> bool) (e : event) l :
  (forall formData now item,
      e = Submit formData now ->
      handleSubmit formData now = inr item -> P item = true) ->
  (forall id' field value item,
      e = Edit id' field value -> P item = true ->
      P (edit_item field (edit_value field value) item) = true) ->
  forallb P l = true -> forallb P (step l e) = true.
Proof.
  intros Hs He Hl. destruct e as [formData now | id' field value | id'];
    cbn [step].
  - destruct (handleSubmit formData now) as [msg | item] eqn:E; [exact Hl |].
    unfold addEquipment. rewrite forallb_app, Hl. cbn.
    now rewrite (Hs formData now item eq_refl E).
  - unfold handleEdit. rewrite forallb_forall in *. intros x Hin.
    apply in_map_iff in Hin as (item & <- & Hin).
    destruct (id item =? id')%Z; [| now apply Hl].
    apply (He id' field value item eq_refl). now apply Hl.
  - unfold removeEquipment. rewrite forallb_forall in *. intros x Hin.
    apply filter_In in Hin as [Hin _]. now apply Hl.
Qed.

End Runs.

(** X11.  Whatever the user submits, edits and removes, starting from
    the empty list, every line of the list has a non-empty name and a power
    and hours that are numbers, never [NaN]. *)
Theorem every_line_ok (events : list event) :
  forallb line_ok (run events) = true.
Proof.
  unfold run.
  assert (H : forall l, forallb line_ok l = true ->
                        forallb line_ok (fold_left step events l) = true).
  { induction events as [| e rest IH]; intros l Hl; cbn [fold_left];
      [exact Hl |].
    apply IH. apply forallb_step; [| | exact Hl].
    - intros formData now item _. apply line_ok_submitted.
    - intros id' field value item _. apply line_ok_edit_item. }
  now apply H.
Qed.

(* ================================================================== *)
(** * The equipment form *)
(* ================================================================== *)

Section Digits.

Local Open Scope Z_scope.

Lemma digit_cases (d : Z) :
  0 <= d < 10 ->
  d = 0 \/ d = 1 \/ d = 2 \/ d = 3 \/ d = 4 \/ d = 5 \/ d = 6 \/ d = 7 \/
  d = 8 \/ d = 9.
Proof. lia. Qed.

Lemma digit_char_spec (d : Z) :
  0 <= d < 10 ->
  is_digit (digit_char d) = true /\ Z.of_nat (code (digit_char d)) - 48 = d.
Proof.
  intros H. destruct (digit_cases d H) as
    [-> | [-> | [-> | [-> | [-> | [-> | [-> | [-> | [-> | ->]]]]]]]]];
    split; reflexivity.
Qed.

Lemma digit_not_space_nor_sign (c : ascii) :
  is_digit c = true ->
  is_space c = false /\ take_sign [c] = (false, [c]) /\
  forall rest, take_sign (c :: rest) = (false, c :: rest).
Proof.
  destruct c as [[] [] [] [] [] [] [] []]; try discriminate;
    intros _; repeat split.
Qed.

Lemma digits_of_not_nil fuel n acc : digits_of fuel n acc <> [].
Proof.
  revert n acc. induction fuel as [| fuel IH]; intros n acc; cbn [digits_of].
  - discriminate.
  - destruct (n <? 10); [discriminate | apply IH].
Qed.

Lemma digits_of_all_digits fuel n acc :
  0 <= n -> forallb is_digit acc = true ->
  forallb is_digit (digits_of fuel n acc) = true.
Proof.
  revert n acc. induction fuel as [| fuel IH]; intros n acc Hn Hacc;
    cbn [digits_of];
    assert (Hd : is_digit (digit_char (n mod 10)) = true)
      by (apply digit_char_spec; apply Z.mod_pos_bound; lia).
  - cbn [forallb]. now rewrite Hd.
  - destruct (n <? 10).
    + cbn [forallb]. now rewrite Hd.
    + apply IH; [apply Z.div_pos; lia |]. cbn [forallb]. now rewrite Hd.
Qed.

Lemma digits_of_value fuel n acc :
  0 <= n < 2 ^ (Z.of_nat fuel + 1) ->
  fold_left (fun a c => 10 * a + (Z.of_nat (code c) - 48))
            (digits_of fuel n acc) 0
  = fold_left (fun a c => 10 * a + (Z.of_nat (code c) - 48)) acc n.
Proof.
  revert n acc. induction fuel as [| fuel IH]; intros n acc Hn;
    cbn [digits_of].
  - cbn [fold_left]. change (2 ^ (Z.of_nat 0 + 1)) with 2 in Hn.
    rewrite (proj2 (digit_char_spec (n mod 10) (Z.mod_pos_bound n 10 eq_refl))).
    rewrite Z.mod_small by lia. f_equal.
  - destruct (n <? 10) eqn:E.
    + apply Z.ltb_lt in E. cbn [fold_left].
      rewrite (proj2 (digit_char_spec (n mod 10)
                        (Z.mod_pos_bound n 10 eq_refl))).
      rewrite Z.mod_small by lia. f_equal.
    + apply Z.ltb_ge in E. rewrite IH.
      * cbn [fold_left].
        rewrite (proj2 (digit_char_spec (n mod 10)
                          (Z.mod_pos_bound n 10 eq_refl))).
        f_equal. pose proof (Z.div_mod n 10). lia.
      * split; [apply Z.div_pos; lia |].
        rewrite Nat2Z.inj_succ in Hn.
        replace (Z.succ (Z.of_nat fuel) + 1) with (Z.of_nat fuel + 1 + 1)
          in Hn by lia.
        rewrite Z.pow_add_r in Hn by lia. change (2 ^ 1) with 2 in Hn.
        apply Z.div_lt_upper_bound; lia.
Qed.

Lemma span_digits_all (l : list ascii) :
  forallb is_digit l = true -> span_digits l = (l, []).
Proof.
  induction l as [| c rest IH]; cbn [forallb span_digits]; [reflexivity |].
  intros H. apply andb_prop in H as [Hc Hrest].
  now rewrite Hc, (IH Hrest).
Qed.

Lemma log2_fuel (n : Z) :
  0 <= n -> 0 <= n < 2 ^ (Z.of_nat (Z.to_nat (Z.log2 n)) + 1).
Proof.
  intros Hn. split; [exact Hn |].
  rewrite Z2Nat.id by apply Z.log2_nonneg.
  destruct (Z.eq_dec n 0) as [-> | Hz]; [reflexivity |].
  replace (Z.log2 n + 1) with (Z.succ (Z.log2 n)) by lia.
  apply Z.log2_spec. lia.
Qed.

Lemma of_Z_opp (n : Z) : mul (lit (-1)) (of_Z n) = of_Z (- n).
Proof.
  unfold lit, of_Z. cbn [mul]. f_equal. apply Qc_is_canon. qc2q.
  rewrite inject_Z_opp. ring.
Qed.

End Digits.

Lemma parseInt_Z_toString (z : Z) : parseInt (Z_toString z) = of_Z z.
Proof.
  unfold parseInt, Z_toString.
  rewrite list_ascii_of_string_of_list_ascii.
  pose proof (Z.abs_nonneg z) as Hn.
  set (n := Z.abs z) in *.
  set (ds := digits_of (Z.to_nat (Z.log2 n)) n []).
  assert (Hds : forallb is_digit ds = true)
    by (now apply digits_of_all_digits).
  assert (Hne : ds <> []) by apply digits_of_not_nil.
  assert (Hval : digits_val ds = n).
  { unfold digits_val, ds. rewrite digits_of_value by now apply log2_fuel.
    reflexivity. }
  destruct ds as [| c rest] eqn:Eds; [contradiction |].
  assert (Hc : is_digit c = true)
    by (cbn [forallb] in Hds; now apply andb_prop in Hds as [Hc _]).
  destruct (digit_not_space_nor_sign c Hc) as (Hsp & _ & Hsign).
  destruct (z <? 0)%Z eqn:Ez.
  - cbn [trim_start is_space]. change (is_space "-"%char) with false.
    cbn [take_sign]. rewrite (span_digits_all _ Hds), Hval.
    unfold signed. rewrite of_Z_opp. f_equal.
    apply Z.ltb_lt in Ez. unfold n. lia.
  - cbn [trim_start]. rewrite Hsp, Hsign, (span_digits_all _ Hds), Hval.
    unfold signed. f_equal. apply Z.ltb_ge in Ez. unfold n. lia.
Qed.

Lemma standard_equipment_entry eq :
  In eq STANDARD_EQUIPMENT ->
  gtb (of_Z (Std.power eq)) (lit 0) = true /\
  (Std.name eq =? "")%string = false.
Proof.
  assert (H : Forall (fun eq => gtb (of_Z (Std.power eq)) (lit 0) = true
                                /\ (Std.name eq =? "")%string = false)
                     STANDARD_EQUIPMENT)
    by (repeat constructor).
  rewrite Forall_forall in H. apply H.
Qed.

(** X13.  Printing an integer and reading it back gives the integer:
    [parseInt] of the [toString()] of an integer below 10^21 in absolute
    value (where [toString()] writes plain digits) is that integer.  So for
    every entry of [STANDARD_EQUIPMENT], the power that selecting it puts in
    the form is read by [parseInt] as the power of the entry, and the name
    in the form is the name of the entry. *)
Theorem template_power_reads_back :
  (forall z : Z, (Z.abs z < 10 ^ 21)%Z -> parseInt (Z_toString z) = of_Z z) /\
  (forall prev eq,
      In eq STANDARD_EQUIPMENT ->
      parseInt (Form.power (handleSelectChange prev (Some eq)))
      = of_Z (Std.power eq) /\
      Form.name (handleSelectChange prev (Some eq)) = Std.name eq).
Proof.
  split; [intros z _; apply parseInt_Z_toString |].
  intros prev eq _. cbn [handleSelectChange Form.power Form.name].
  split; [apply parseInt_Z_toString | reflexivity].
Qed.

Lemma template_power_reads_back_witness :
  parseInt (Z_toString 5000) = of_Z 5000 /\
  parseInt (Form.power (handleSelectChange INITIAL_FORM_STATE
                          (Some (Std.mk "AC Unit" 5000))))
  = of_Z 5000.
Proof.
  split.
  - apply (proj1 template_power_reads_back 5000). reflexivity.
  - apply (proj2 template_power_reads_back INITIAL_FORM_STATE
             (Std.mk "AC Unit" 5000)).
    left. reflexivity.
Defined.

Section FormInputs.

Lemma type_into_exclusive formData kv :
  exclusive formData = true -> exclusive (type_into formData kv) = true.
Proof.
  destruct kv as [key value]. destruct formData as [n q p h k].
  unfold type_into, input_disabled, power_hours_disabled, kwh_disabled,
    handleChange, set_form_key, exclusive.
  cbn [fst snd Form.name Form.qty Form.power Form.hours Form.kwh].
  destruct (String.eqb_spec key "power") as [-> | Hp].
  { cbn [String.eqb Ascii.eqb Bool.eqb orb andb].
    destruct (k =? "")%string eqn:Ek; cbn [negb]; intros H;
      cbn [Form.power Form.hours Form.kwh]; rewrite ?Ek; [reflexivity | exact H]. }
  destruct (String.eqb_spec key "hours") as [-> | Hh].
  { cbn [String.eqb Ascii.eqb Bool.eqb orb andb].
    destruct (k =? "")%string eqn:Ek; cbn [negb]; intros H;
      [| cbn [Form.power Form.hours Form.kwh]; rewrite ?Ek; exact H].
    destruct (gtb (StringToNumber value) (lit 24));
      cbn [Form.power Form.hours Form.kwh]; now rewrite Ek. }
  cbn [orb andb].
  destruct (String.eqb_spec key "kwh") as [-> | Hk].
  { cbn [String.eqb Ascii.eqb Bool.eqb].
    destruct (p =? "")%string eqn:Ep; destruct (h =? "")%string eqn:Eh;
      cbn [negb orb]; intros H;
      cbn [Form.power Form.hours Form.kwh]; rewrite ?Ep, ?Eh;
      try exact H.
    apply orb_true_r. }
  destruct (String.eqb_spec key "name") as [-> | Hn];
    [cbn [String.eqb Ascii.eqb Bool.eqb Form.power Form.hours Form.kwh];
     now intros H |].
  destruct (String.eqb_spec key "qty") as [-> | Hq];
    [cbn [String.eqb Ascii.eqb Bool.eqb Form.power Form.hours Form.kwh];
     now intros H |].
  cbn [Form.power Form.hours Form.kwh]. now intros H.
Qed.

Lemma gtb_0_or_else (a : num) : gtb a (lit 0) = true -> or_else a (lit 0) = a.
Proof.
  unfold or_else. destruct a as [x | | |]; try discriminate; try reflexivity.
  intros G. apply gtb_Fin in G. cbn [truthy].
  destruct (Qc_eq_dec x 0) as [-> | _]; [| reflexivity].
  now apply Qc_lt_irrefl in G.
Qed.

Lemma parse_empty : parseInt "" = NaN /\ parseFloat "" = NaN.
Proof. split; reflexivity. Qed.

End FormInputs.

(** X14.  Typing keeps one way of entering the load: whatever texts are
    typed in the inputs that are not disabled, starting from a form that
    holds either no daily kWh or no power and no hours (the initial form is
    one), the form still does.  A line submitted from such a form either
    has power 0 and hours 0, or its total is qty * power * hours / 1000. *)
Theorem typing_keeps_one_entry_mode :
  (forall inputs formData,
      exclusive formData = true ->
      exclusive (fold_left type_into inputs formData) = true) /\
  (forall inputs, exclusive (typed inputs) = true) /\
  (forall formData now item,
      exclusive formData = true ->
      handleSubmit formData now = inr item ->
      (power item = lit 0 /\ hours item = lit 0) \/
      totalDailyKWh item
      = (qty item * power item * hours item / lit 1000)%num).
Proof.
  assert (H : forall inputs formData,
             exclusive formData = true ->
             exclusive (fold_left type_into inputs formData) = true).
  { induction inputs as [| kv rest IH]; intros formData Hx; cbn [fold_left];
      [exact Hx |].
    apply IH. now apply type_into_exclusive. }
  split; [exact H |]. split; [intros inputs; now apply H |].
  intros formData now item Hx Hs.
  destruct (handleSubmit_inv _ _ _ Hs) as (_ & _ & _ & Hq & Hp & Hh & Ht).
  destruct Ht as [(Gk & _) | (_ & Gp & Gh & Et)].
  - left. unfold exclusive in Hx.
    destruct (Form.kwh formData =? "")%string eqn:Ek.
    + apply String.eqb_eq in Ek. rewrite Ek in Gk. discriminate.
    + cbn [orb] in Hx. apply andb_prop in Hx as [Ep Eh].
      apply String.eqb_eq in Ep, Eh. rewrite Hp, Hh, Ep, Eh.
      split; reflexivity.
  - right. rewrite Et, Hq, Hp, Hh.
    now rewrite (gtb_0_or_else _ Gp), (gtb_0_or_else _ Gh).
Qed.

Lemma typing_keeps_one_entry_mode_witness :
  exclusive (fold_left type_into [("kwh", "5"); ("power", "100")]
               INITIAL_FORM_STATE) = true.
Proof.
  apply (proj1 typing_keeps_one_entry_mode). reflexivity.
Defined.

Section Templates.

Lemma Z_toString_not_empty (z : Z) : (Z_toString z =? "")%string = false.
Proof.
  unfold Z_toString.
  pose proof (digits_of_not_nil (Z.to_nat (Z.log2 (Z.abs z))) (Z.abs z) [])
    as Hne.
  destruct (digits_of _ _ _) as [| c rest]; [contradiction |].
  now destruct (z <? 0)%Z.
Qed.

End Templates.

(** X15.  Selecting a template while the form holds a daily kWh locks the
    load inputs: power, hours and kWh are then all three disabled, and the
    form holds both a power and a daily kWh.  Selecting the empty option
    enables the kWh input again. *)
Theorem template_over_kwh_locks_inputs prev eq :
  Form.kwh prev <> "" ->
  let formData := handleSelectChange prev (Some eq) in
  input_disabled formData "power" = true /\
  input_disabled formData "hours" = true /\
  input_disabled formData "kwh" = true /\
  exclusive formData = false /\
  input_disabled (handleSelectChange formData None) "kwh" = false.
Proof.
  intros Hk. apply String.eqb_neq in Hk.
  unfold input_disabled, power_hours_disabled, kwh_disabled, exclusive.
  cbn [handleSelectChange Form.kwh Form.power Form.hours String.eqb
         Ascii.eqb Bool.eqb orb andb negb].
  rewrite Hk, (Z_toString_not_empty (Std.power eq)). now cbn.
Qed.

Lemma template_over_kwh_locks_inputs_witness :
  input_disabled
    (handleSelectChange (Form.mk "" "1" "" "" "5")
                        (Some (Std.mk "AC Unit" 5000))) "kwh" = true.
Proof.
  apply (template_over_kwh_locks_inputs (Form.mk "" "1" "" "" "5")
           (Std.mk "AC Unit" 5000)).
  discriminate.
Defined.

Section FormHours.

Lemma handleChange_hours_capped prev value :
  gtb (StringToNumber (Form.hours (handleChange prev "hours" value))) (lit 24)
  = false.
Proof.
  unfold handleChange, set_form_key.
  cbn [String.eqb Ascii.eqb Bool.eqb andb].
  destruct (gtb (StringToNumber value) (lit 24)) eqn:G;
    cbn [Form.hours]; [reflexivity | exact G].
Qed.

Lemma type_into_hours formData kv :
  Form.hours (type_into formData kv) = Form.hours formData \/
  (fst kv = "hours" /\
   Form.hours (type_into formData kv)
   = Form.hours (handleChange formData "hours" (snd kv))).
Proof.
  destruct kv as [key value]. unfold type_into. cbn [fst snd].
  destruct (input_disabled formData key); [now left |].
  destruct (String.eqb_spec key "hours") as [-> | Hh]; [now right |].
  left. unfold handleChange, set_form_key.
  apply String.eqb_neq in Hh. rewrite Hh. cbn [andb].
  destruct (key =? "name")%string; [reflexivity |].
  destruct (key =? "qty")%string; [reflexivity |].
  destruct (key =? "power")%string; [reflexivity |].
  destruct (key =? "kwh")%string; reflexivity.
Qed.

End FormHours.

(** X16.  The hours of the form never read above 24: [Number] of the
    hours text is not above 24 in the initial form, stays so whatever is
    typed in whatever input, and stays so when a template or the empty
    option is selected. *)
Theorem form_hours_at_most_24 :
  (forall inputs formData,
      (StringToNumber (Form.hours formData) >? lit 24)%num = false ->
      (StringToNumber (Form.hours (fold_left type_into inputs formData))
       >? lit 24)%num = false) /\
  (forall inputs,
      (StringToNumber (Form.hours (typed inputs)) >? lit 24)%num = false) /\
  (forall formData selected,
      (StringToNumber (Form.hours formData) >? lit 24)%num = false ->
      (StringToNumber (Form.hours (handleSelectChange formData selected))
       >? lit 24)%num = false).
Proof.
  assert (H : forall inputs formData,
      gtb (StringToNumber (Form.hours formData)) (lit 24) = false ->
      gtb (StringToNumber (Form.hours (fold_left type_into inputs formData)))
          (lit 24) = false).
  { induction inputs as [| kv rest IH]; intros formData Hc; cbn [fold_left];
      [exact Hc |].
    apply IH. destruct (type_into_hours formData kv) as [-> | [_ ->]];
      [exact Hc | apply handleChange_hours_capped]. }
  split; [exact H |]. split; [intros inputs; now apply H |].
  intros formData [eq |] Hc; cbn [handleSelectChange Form.hours];
    [exact Hc | reflexivity].
Qed.

Lemma form_hours_at_most_24_witness :
  (StringToNumber
     (Form.hours (fold_left type_into [("hours", "30")] INITIAL_FORM_STATE))
   >? lit 24)%num = false.
Proof.
  apply (proj1 form_hours_at_most_24). reflexivity.
Defined.

(** X17.  The template workflow: selecting an entry of
    [STANDARD_EQUIPMENT] in the initial form, typing hours that read above
    0 and submitting hands over one line with the name and the power of the
    entry, quantity 1 and a total of 1 * power * hours / 1000. *)
Theorem template_then_hours_submits eq value now :
  In eq STANDARD_EQUIPMENT ->
  let formData :=
    type_into (handleSelectChange INITIAL_FORM_STATE (Some eq))
              ("hours", value) in
  (parseFloat (Form.hours formData) >? lit 0)%num = true ->
  exists item,
    handleSubmit formData now = inr item /\
    name item = Std.name eq /\ qty item = lit 1 /\
    power item = of_Z (Std.power eq) /\
    hours item = parseFloat (Form.hours formData) /\
    totalDailyKWh item
    = (lit 1 * of_Z (Std.power eq) * parseFloat (Form.hours formData)
       / lit 1000)%num.
Proof.
  intros Hin formData Gh.
  assert (Hfd : formData
                = Form.mk (Std.name eq) "1" (Z_toString (Std.power eq))
                          (Form.hours formData) "").
  { unfold formData, type_into, input_disabled, power_hours_disabled,
      handleChange, set_form_key.
    cbn [fst snd handleSelectChange INITIAL_FORM_STATE Form.kwh Form.qty
           Form.name Form.power Form.hours String.eqb Ascii.eqb Bool.eqb
           orb andb negb].
    reflexivity. }
  pose proof (parseInt_Z_toString (Std.power eq)) as Hp.
  destruct (standard_equipment_entry eq Hin) as [Gp Hn].
  rewrite Hfd. unfold handleSubmit.
  cbn [Form.name Form.qty Form.power Form.hours Form.kwh].
  rewrite Hn, Hp, Gp, Gh.
  change (gtb (parseFloat "") (lit 0)) with false. cbn [andb].
  eexists. split; [reflexivity |].
  cbn [name qty power hours totalDailyKWh].
  rewrite (gtb_0_or_else _ Gp), (gtb_0_or_else _ Gh).
  repeat split.
Qed.

Lemma template_then_hours_submits_witness :
  exists item,
    handleSubmit (type_into (handleSelectChange INITIAL_FORM_STATE
                               (Some (Std.mk "AC Unit" 5000)))
                            ("hours", "8")) 1 = inr item /\
    power item = of_Z 5000.
Proof.
  destruct (template_then_hours_submits (Std.mk "AC Unit" 5000) "8" 1
              (or_introl eq_refl) eq_refl)
    as (item & Hs & _ & _ & Hp & _).
  exists item. split; [exact Hs | exact Hp].
Defined.

(* ================================================================== *)
(** * The facility information *)
(* ================================================================== *)

Section Trimming.

Lemma trim_start_head (s : list ascii) c rest :
  trim_start s = c :: rest -> is_space c = false.
Proof.
  induction s as [| a s IH]; cbn [trim_start]; [discriminate |].
  destruct (is_space a) eqn:E; [exact IH |].
  intros H. injection H as <- _. exact E.
Qed.

Lemma trim_start_nil (s : list ascii) :
  trim_start s = [] <-> forallb is_space s = true.
Proof.
  induction s as [| a s IH]; cbn [trim_start forallb]; [now split |].
  destruct (is_space a); cbn [andb]; [exact IH |].
  split; discriminate.
Qed.

Lemma forallb_rev (f : ascii -> bool) (s : list ascii) :
  forallb f (rev s) = forallb f s.
Proof.
  induction s as [| a s IH]; [reflexivity |].
  cbn [rev forallb]. rewrite forallb_app, IH. cbn [forallb].
  rewrite andb_true_r. apply andb_comm.
Qed.

Lemma trim_nil (s : list ascii) :
  trim s = [] <-> forallb is_space s = true.
Proof.
  unfold trim. rewrite <- trim_start_nil. split.
  - intros H. apply (f_equal (@rev ascii)) in H. rewrite rev_involutive in H.
    cbn [rev] in H. apply trim_start_nil in H. rewrite forallb_rev in H.
    destruct (trim_start s) as [| c rest] eqn:E; [reflexivity |].
    apply trim_start_head in E. cbn [forallb] in H. now rewrite E in H.
  - intros ->. reflexivity.
Qed.

Lemma forallb_existsb_negb (s : list ascii) :
  negb (forallb is_space s) = existsb (fun c => negb (is_space c)) s.
Proof.
  induction s as [| a s IH]; [reflexivity |].
  cbn [forallb existsb]. rewrite negb_andb, IH. reflexivity.
Qed.

Lemma String_trim_empty (s : string) :
  (String_trim s =? "")%string
  = forallb is_space (list_ascii_of_string s).
Proof.
  unfold String_trim.
  destruct (forallb is_space (list_ascii_of_string s)) eqn:E.
  - apply trim_nil in E. now rewrite E.
  - destruct (trim (list_ascii_of_string s)) as [| c rest] eqn:Et.
    + apply trim_nil in Et. congruence.
    + reflexivity.
Qed.

End Trimming.

(** X18.  The results are unlocked exactly when the street address and
    the zip code each hold a character that is not white space; nothing
    else is looked at, in particular not the length of the zip code.  The
    facility of a fresh page is not valid. *)
Theorem facility_valid_iff_not_blank :
  (forall fi,
      isFacilityInfoValid fi
      = existsb (fun c => negb (is_space c))
                (list_ascii_of_string (streetAddress fi))
        && existsb (fun c => negb (is_space c))
                   (list_ascii_of_string (zipCode fi))) /\
  isFacilityInfoValid initial_facilityInfo = false.
Proof.
  split; [| reflexivity].
  intros fi. unfold isFacilityInfoValid.
  now rewrite !String_trim_empty, !forallb_existsb_negb.
Qed.

Section WholeNumbers.

Local Open Scope Z_scope.

Lemma digit_char_facts (c : ascii) :
  is_digit c = true ->
  Ascii.eqb "I" c = false /\
  ((code c =? 120) || (code c =? 88))%nat = false /\
  ((code c =? 111) || (code c =? 79))%nat = false /\
  ((code c =? 98) || (code c =? 66))%nat = false /\
  0 <= Z.of_nat (code c) - 48.
Proof.
  destruct c as [[] [] [] [] [] [] [] []]; try discriminate;
    intros _; repeat split; cbn; lia.
Qed.

Lemma trim_start_no_space c rest :
  is_space c = false -> trim_start (c :: rest) = c :: rest.
Proof. intros H. cbn [trim_start]. now rewrite H. Qed.

Lemma trim_digits (l : list ascii) :
  forallb is_digit l = true -> trim l = l.
Proof.
  intros H. unfold trim.
  assert (T : forall m, forallb is_digit m = true -> trim_start m = m).
  { intros [| c rest] Hm; [reflexivity |]. cbn [forallb] in Hm.
    apply andb_prop in Hm as [Hc _].
    apply trim_start_no_space. now apply digit_not_space_nor_sign. }
  rewrite (T l H), (T (rev l)) by (now rewrite forallb_rev).
  apply rev_involutive.
Qed.

Lemma non_decimal_digits (l : list ascii) :
  forallb is_digit l = true -> non_decimal l = None.
Proof.
  destruct l as [| c [| p [| d ds]]]; intros H.
  - reflexivity.
  - destruct c as [[] [] [] [] [] [] [] []]; reflexivity.
  - destruct c as [[] [] [] [] [] [] [] []]; reflexivity.
  - cbn [forallb] in H. apply andb_prop in H as [_ H].
    apply andb_prop in H as [Hp _].
    destruct (digit_char_facts p Hp) as (_ & Hx & Ho & Hb & _).
    destruct c as [[] [] [] [] [] [] [] []]; try reflexivity.
    cbn [non_decimal]. now rewrite Hx, Ho, Hb.
Qed.

Lemma digits_val_nonneg (l : list ascii) :
  forallb is_digit l = true -> 0 <= digits_val l.
Proof.
  unfold digits_val.
  assert (H : forall a, 0 <= a -> forallb is_digit l = true ->
     0 <= fold_left (fun acc c => 10 * acc + (Z.of_nat (code c) - 48)) l a).
  { induction l as [| c rest IH]; intros a Ha Hl; cbn [fold_left];
      [exact Ha |].
    cbn [forallb] in Hl. apply andb_prop in Hl as [Hc Hrest].
    apply IH; [| exact Hrest].
    destruct (digit_char_facts c Hc) as (_ & _ & _ & _ & Hd). lia. }
  now apply H.
Qed.

Lemma decimal_value_whole (l : list ascii) :
  decimal_value l [] 0 = of_Z (digits_val l).
Proof.
  unfold decimal_value, of_Z. rewrite app_nil_r. cbn [List.length].
  f_equal. apply Qc_is_canon. qc2q. cbn. ring.
Qed.

Lemma conversions_of_digits (s : string) :
  s <> ""%string -> forallb is_digit (list_ascii_of_string s) = true ->
  parseInt s = of_Z (digits_val (list_ascii_of_string s)) /\
  StringToNumber s = of_Z (digits_val (list_ascii_of_string s)).
Proof.
  intros Hs Hd.
  destruct (list_ascii_of_string s) as [| c rest] eqn:El.
  { destruct s; [contradiction | discriminate]. }
  pose proof Hd as Hd'. cbn [forallb] in Hd'.
  apply andb_prop in Hd' as [Hc _].
  destruct (digit_not_space_nor_sign c Hc) as (Hsp & _ & Hsign).
  destruct (digit_char_facts c Hc) as (HI & _).
  split.
  - unfold parseInt. rewrite El, (trim_start_no_space c rest Hsp), Hsign.
    now rewrite (span_digits_all _ Hd).
  - unfold StringToNumber. rewrite El, (trim_digits _ Hd).
    rewrite (non_decimal_digits _ Hd).
    unfold decimal_prefix. rewrite Hsign.
    cbn [strip_prefix Infinity_chars list_ascii_of_string]. rewrite HI.
    rewrite (span_digits_all _ Hd). cbn [take_exponent signed].
    now rewrite decimal_value_whole.
Qed.

End WholeNumbers.

(** X19.  Whole numbers of days are capped: for every non-empty text of
    decimal digits typed as days per week, the days per week that
    [calculateTotals] works with afterwards are a number from 0 to 7. *)
Theorem whole_days_at_most_7 prev value :
  value <> "" -> forallb is_digit (list_ascii_of_string value) = true ->
  let fi := handleFacilityInfoChange prev "opDaysWeek" value in
  nonneg (daysPerWeek fi) = true /\ (daysPerWeek fi >? lit 7)%num = false.
Proof.
  intros Hs Hd.
  destruct (conversions_of_digits value Hs Hd) as [Hi Hn].
  pose proof (digits_val_nonneg _ Hd) as Hpos.
  set (n := digits_val (list_ascii_of_string value)) in *.
  cbn zeta. unfold handleFacilityInfoChange.
  cbn [String.eqb Ascii.eqb Bool.eqb].
  apply String.eqb_neq in Hs. rewrite Hs, Hi.
  destruct (gtb (of_Z n) (lit 7)) eqn:G.
  - split; num_eq.
  - unfold daysPerWeek, set_key.
    cbn [String.eqb Ascii.eqb Bool.eqb opDaysWeek Number]. rewrite Hn.
    assert (Hnn : nonneg (of_Z n) = true) by now apply of_Z_nonneg.
    unfold or_else. destruct (truthy (of_Z n)); [now split |].
    split; num_eq.
Qed.

Lemma whole_days_at_most_7_witness :
  (daysPerWeek (handleFacilityInfoChange initial_facilityInfo
                  "opDaysWeek" "12") >? lit 7)%num = false.
Proof.
  apply (whole_days_at_most_7 initial_facilityInfo "12");
    [discriminate | reflexivity].
Defined.

(* ================================================================== *)
(** * The lookup and the sizing together *)
(* ================================================================== *)

Section Lookup.

Lemma prefix_empty (s : string) : String.prefix "" s = true.
Proof. now destruct s. Qed.

Lemma fetchSolarData_values (zip : string) :
  In (fst (fetchSolarData zip)) [lit 4.5; lit 5.0; lit 5.5; lit 6.5].
Proof.
  unfold fetchSolarData.
  destruct (String.length zip <? 5)%nat; [now left |].
  destruct (String.prefix "85" zip || String.prefix "86" zip);
    [cbn; tauto |].
  destruct (String.prefix "9" zip) eqn:H9; [cbn; tauto |].
  destruct (String.prefix "98" zip || String.prefix "99" zip) eqn:H98.
  { apply prefix_98_99 in H98. congruence. }
  destruct (String.prefix "3" zip); cbn; tauto.
Qed.

End Lookup.

(** X20.  The lookup looks at the length and at the first two characters
    only: two zip codes of at least five characters that start with the
    same two characters get the same peak sun hours and the same place.
    The peak sun hours are always one of 4.5, 5, 5.5 and 6.5. *)
Theorem lookup_reads_two_characters :
  (forall c1 c2 rest rest',
      (3 <= String.length rest)%nat -> (3 <= String.length rest')%nat ->
      fetchSolarData (String c1 (String c2 rest))
      = fetchSolarData (String c1 (String c2 rest'))) /\
  (forall zip,
      In (fst (fetchSolarData zip)) [lit 4.5; lit 5.0; lit 5.5; lit 6.5]).
Proof.
  split; [| apply fetchSolarData_values].
  intros c1 c2 rest rest' Hr Hr'. unfold fetchSolarData.
  assert (L : forall r, (3 <= String.length r)%nat ->
                (String.length (String c1 (String c2 r)) <? 5)%nat = false).
  { intros r H. apply Nat.ltb_ge. cbn [String.length]. lia. }
  rewrite (L rest Hr), (L rest' Hr').
  rewrite !prefix_cons, !prefix_empty. reflexivity.
Qed.

Lemma lookup_reads_two_characters_witness :
  fetchSolarData "85001" = fetchSolarData "85999".
Proof.
  apply (proj1 lookup_reads_two_characters "8"%char "5"%char "001" "999");
    cbn; lia.
Defined.

Section LookupSizing.

Local Open Scope Qc_scope.

Lemma fetchSolarData_positive (zip : string) :
  exists p, fst (fetchSolarData zip) = Fin p /\ Q2Qc 4.5 <= p <= Q2Qc 6.5.
Proof.
  pose proof (fetchSolarData_values zip) as H. cbn [In] in H.
  destruct H as [<- | [<- | [<- | [<- | []]]]]; eexists;
    (split; [reflexivity |]); split; qc2q; vm_compute; discriminate.
Qed.

End LookupSizing.

(** X21.  With the peak sun hours of the lookup the array is sized from
    the energy alone: for every zip code, [pvSize] is 0 when
    [dailyEnergyNeeded] is not above 0 and dailyEnergyNeeded / (psh * 0.85)
    otherwise, the divisor being a finite number from 4.5 * 0.85 to
    6.5 * 0.85. *)
Theorem pv_with_looked_up_sun_hours fi l zip info :
  let psh := fst (fetchSolarData zip) in
  (psh >? lit 0)%num = true /\
  (exists d, (psh * systemEfficiency)%num = Fin d /\
             (Q2Qc (4.5 * 0.85) <= d <= Q2Qc (6.5 * 0.85))%Qc) /\
  pvSize (calculateTotals fi l psh info)
  = if (dailyEnergyNeeded fi l >? lit 0)%num
    then (dailyEnergyNeeded fi l / (psh * systemEfficiency))%num
    else lit 0.
Proof.
  cbn zeta. destruct (fetchSolarData_positive zip) as (p & Ep & Hlo & Hhi).
  rewrite Ep.
  assert (G : gtb (Fin p) (lit 0) = true).
  { apply gtb_Fin. qc2q. assert (0 < 4.5)%Q by reflexivity. lra. }
  split; [exact G |]. split.
  - exists (p * Q2Qc 0.85)%Qc. split; [reflexivity |].
    split; qc2q.
    + assert (E : (4.5 * 0.85 == 4.5 * 0.85)%Q) by reflexivity.
      assert (0 <= 0.85)%Q by discriminate. nra.
    + assert (0 <= 0.85)%Q by discriminate. nra.
  - cbn [pvSize calculateTotals]. unfold solarPVSize. rewrite G.
    now rewrite andb_true_r.
Qed.

(* ================================================================== *)
(** * More on the totals *)
(* ================================================================== *)

Section MoreTotals.

Local Open Scope Qc_scope.

Lemma Qc_eq_Q (a b : Qc) : a = b -> (a == b)%Q.
Proof. intros ->. reflexivity. Qed.

Lemma totalDailyLoad_map (l : list EquipmentItem) :
  totalDailyLoad l
  = fold_left add (map totalDailyKWh l) (lit 0).
Proof.
  unfold totalDailyLoad. generalize (lit 0).
  induction l as [| item rest IH]; intros start; cbn [fold_left map];
    [reflexivity | apply IH].
Qed.

Lemma round_within_half (y : Qc) :
  (y - (1 # 2) < inject_Z (Qfloor (y + (1 # 2))%Q)
   /\ inject_Z (Qfloor (y + (1 # 2))%Q) <= y + (1 # 2))%Q.
Proof.
  pose proof (Qfloor_le (y + (1 # 2))%Q) as Hle.
  pose proof (Qlt_floor (y + (1 # 2))%Q) as Hlt.
  rewrite inject_Z_plus in Hlt. change (inject_Z 1) with 1%Q in Hlt.
  split; lra.
Qed.

End MoreTotals.

(** X24.  [calculateTotals] reads the days per week, the
    [totalDailyKWh] of the lines and the peak sun hours, and nothing else:
    two facilities with the same [opDaysWeek] and two lists with the same
    totals in the same order give the same result, whatever their
    addresses, zip codes, hours per day, names, quantities, powers and
    hours are. *)
Theorem calculateTotals_reads_only fi fi' l l' psh info :
  opDaysWeek fi = opDaysWeek fi' ->
  map totalDailyKWh l = map totalDailyKWh l' ->
  calculateTotals fi l psh info = calculateTotals fi' l' psh info.
Proof.
  intros Hw Hl.
  assert (Ed : totalDailyLoad l = totalDailyLoad l')
    by (now rewrite !totalDailyLoad_map, Hl).
  assert (Ew : daysPerWeek fi = daysPerWeek fi')
    by (unfold daysPerWeek; now rewrite Hw).
  unfold calculateTotals, batteryStorageSize, rawBatterySize, solarPVSize,
    dailyEnergyNeeded, totalAnnualLoad, totalMonthlyLoad, daysPerMonth,
    daysPerYear.
  now rewrite Ed, Ew.
Qed.

Lemma calculateTotals_reads_only_witness :
  calculateTotals initial_facilityInfo [fan_7kWh] (lit 4.5) ""
  = calculateTotals (mkFacility "1 Main St" "94043" (VStr "8") (VNum (lit 5)))
      [mkItem 9 "Heater" (lit 7) (lit 125) (lit 8) (lit 7)] (lit 4.5) "".
Proof.
  apply calculateTotals_reads_only; reflexivity.
Defined.

Section WeeklyAverage.

Local Open Scope Qc_scope.


End WeeklyAverage.



(* ================================================================== *)
(** * [Number] and [parseFloat] on the same text *)
(* ================================================================== *)

Section TrailingSpace.

Lemma space_char_facts (c : ascii) :
  is_space c = true ->
  is_digit c = false /\
  (forall rest, take_sign (c :: rest) = (false, c :: rest)) /\
  ((code c =? 101) || (code c =? 69))%nat = false /\
  Ascii.eqb "."%char c = false.
Proof.
  destruct c as [[] [] [] [] [] [] [] []]; try discriminate;
    intros _; repeat split.
Qed.

Lemma span_digits_app (s ws : list ascii) :
  ends_ok ws ->
  span_digits (s ++ ws)
  = (fst (span_digits s), (snd (span_digits s) ++ ws)%list).
Proof.
  intros Hws. induction s as [| a s IH]; cbn [app span_digits fst snd].
  - destruct ws as [| c r]; [reflexivity |]. cbn [span_digits].
    now rewrite (proj1 (space_char_facts c Hws)).
  - destruct (is_digit a); [| reflexivity].
    rewrite IH. now destruct (span_digits s).
Qed.

Lemma take_sign_app (s ws : list ascii) :
  ends_ok ws ->
  take_sign (s ++ ws) = (fst (take_sign s), (snd (take_sign s) ++ ws)%list).
Proof.
  intros Hws. destruct s as [| a s]; cbn [app].
  - destruct ws as [| c r]; [reflexivity |].
    now rewrite (proj1 (proj2 (space_char_facts c Hws))).
  - destruct a as [[] [] [] [] [] [] [] []]; reflexivity.
Qed.

Lemma strip_prefix_app (p s ws : list ascii) :
  forallb (fun c => negb (is_space c)) p = true -> ends_ok ws ->
  strip_prefix p (s ++ ws)
  = option_map (fun tl => (tl ++ ws)%list) (strip_prefix p s).
Proof.
  intros Hp Hws. revert s.
  induction p as [| a p IH]; intros s; [reflexivity |].
  cbn [forallb] in Hp. apply andb_prop in Hp as [Ha Hp].
  destruct s as [| b s]; cbn [app strip_prefix].
  - destruct ws as [| c r]; [reflexivity |]. cbn [strip_prefix].
    destruct (Ascii.eqb_spec a c) as [-> | _]; [| reflexivity].
    cbn in Hws. rewrite Hws in Ha. discriminate.
  - destruct (Ascii.eqb a b); [apply (IH Hp) | reflexivity].
Qed.

Lemma take_exponent_app (s ws : list ascii) :
  ends_ok ws ->
  take_exponent (s ++ ws)
  = (fst (take_exponent s), (snd (take_exponent s) ++ ws)%list).
Proof.
  intros Hws. destruct s as [| c rest]; cbn [app].
  - destruct ws as [| c r]; [reflexivity |]. cbn [take_exponent].
    now rewrite (proj1 (proj2 (proj2 (space_char_facts c Hws)))).
  - cbn [take_exponent].
    destruct ((code c =? 101)%nat || (code c =? 69)%nat); [| reflexivity].
    rewrite (take_sign_app rest ws Hws).
    destruct (take_sign rest) as [neg s1]. cbn [fst snd].
    rewrite (span_digits_app s1 ws Hws).
    destruct (span_digits s1) as [ds tl]. cbn [fst snd].
    destruct ds; reflexivity.
Qed.

Lemma decimal_prefix_app (s ws : list ascii) :
  ends_ok ws ->
  decimal_prefix (s ++ ws)
  = option_map (fun nr => (fst nr, (snd nr ++ ws)%list)) (decimal_prefix s).
Proof.
  intros Hws. unfold decimal_prefix.
  rewrite (take_sign_app s ws Hws).
  destruct (take_sign s) as [neg s1]. cbn [fst snd].
  rewrite (strip_prefix_app Infinity_chars s1 ws eq_refl Hws).
  destruct (strip_prefix Infinity_chars s1) as [tl |]; [reflexivity |].
  cbn [option_map].
  rewrite (span_digits_app s1 ws Hws).
  destruct (span_digits s1) as [int s2]. cbn [fst snd].
  assert (Hfrac :
    (match (s2 ++ ws)%list with
     | "."%char :: s2' =>
         let (fr, tl) := span_digits s2' in
         match int, fr with
         | [], [] => ([], (s2 ++ ws)%list)
         | _, _ => (fr, tl)
         end
     | _ => ([], (s2 ++ ws)%list)
     end)
    = (fst (match s2 with
            | "."%char :: s2' =>
                let (fr, tl) := span_digits s2' in
                match int, fr with
                | [], [] => ([], s2)
                | _, _ => (fr, tl)
                end
            | _ => ([], s2)
            end),
       (snd (match s2 with
             | "."%char :: s2' =>
                 let (fr, tl) := span_digits s2' in
                 match int, fr with
                 | [], [] => ([], s2)
                 | _, _ => (fr, tl)
                 end
             | _ => ([], s2)
             end) ++ ws)%list)).
  { destruct s2 as [| c s2']; cbn [app].
    - destruct ws as [| c r]; [reflexivity |].
      pose proof (proj2 (proj2 (proj2 (space_char_facts c Hws)))) as Hdot.
      destruct c as [[] [] [] [] [] [] [] []]; try reflexivity;
        discriminate Hdot.
    - destruct c as [[] [] [] [] [] [] [] []]; try reflexivity.
      rewrite (span_digits_app s2' ws Hws).
      destruct (span_digits s2') as [fr tl]. cbn [fst snd].
      destruct int, fr; reflexivity. }
  rewrite Hfrac. clear Hfrac.
  destruct (match s2 with
            | "."%char :: s2' =>
                let (fr, tl) := span_digits s2' in
                match int, fr with
                | [], [] => ([], s2)
                | _, _ => (fr, tl)
                end
            | _ => ([], s2)
            end) as [frac s3]. cbn [fst snd].
  assert (Hexp : take_exponent (s3 ++ ws)
                 = (fst (take_exponent s3),
                    (snd (take_exponent s3) ++ ws)%list))
    by (now apply take_exponent_app).
  destruct int as [| i0 int], frac as [| f0 frac]; try reflexivity;
    rewrite Hexp; destruct (take_exponent s3); reflexivity.
Qed.

Lemma trim_start_split (l : list ascii) :
  exists sp, l = (sp ++ trim_start l)%list /\ forallb is_space sp = true.
Proof.
  induction l as [| a l IH]; [now exists [] |].
  cbn [trim_start]. destruct (is_space a) eqn:E.
  - destruct IH as (sp & Hl & Hsp). exists (a :: sp). cbn [app forallb].
    rewrite E, Hsp. split; [now f_equal | reflexivity].
  - now exists [].
Qed.

Lemma trim_start_trim (l : list ascii) :
  exists ws, trim_start l = (trim l ++ ws)%list /\ ends_ok ws.
Proof.
  unfold trim. destruct (trim_start_split (rev (trim_start l)))
    as (sp & Hl & Hsp).
  exists (rev sp). split.
  - rewrite <- rev_app_distr, <- Hl. now rewrite rev_involutive.
  - destruct (rev sp) as [| c r] eqn:E; [exact I |]. cbn.
    assert (Hin : In c (rev sp)) by (rewrite E; now left).
    apply in_rev in Hin. rewrite forallb_forall in Hsp. now apply Hsp.
Qed.

(** [parseFloat] reads the trimmed text that [Number] reads, and takes the
    longest literal at its start. *)
Lemma parseFloat_trimmed (s : string) :
  parseFloat s
  = match decimal_prefix (trim (list_ascii_of_string s)) with
    | Some (n, _) => n
    | None => NaN
    end.
Proof.
  unfold parseFloat.
  destruct (trim_start_trim (list_ascii_of_string s)) as (ws & -> & Hws).
  rewrite (decimal_prefix_app _ ws Hws).
  destruct (decimal_prefix (trim (list_ascii_of_string s))) as [[n r] |];
    reflexivity.
Qed.

Lemma radix_letter (p : ascii) (n : nat) :
  (code p =? n)%nat = true -> p = ascii_of_nat n.
Proof.
  intros H. apply Nat.eqb_eq in H. rewrite <- H. unfold code.
  symmetry. apply ascii_nat_embedding.
Qed.

Lemma non_decimal_parseFloat (t : list ascii) n :
  non_decimal t = Some n ->
  exists r, decimal_prefix t = Some (lit 0, r).
Proof.
  destruct t as [| c [| p [| d ds]]];
    try (destruct c as [[] [] [] [] [] [] [] []]; discriminate);
    try discriminate.
  destruct c as [[] [] [] [] [] [] [] []]; try discriminate.
  cbn [non_decimal].
  destruct ((code p =? 120)%nat || (code p =? 88)%nat) eqn:Hx.
  { intros _. apply orb_prop in Hx as [H | H]; apply radix_letter in H;
      subst p; eexists; vm_compute; reflexivity. }
  destruct ((code p =? 111)%nat || (code p =? 79)%nat) eqn:Ho.
  { intros _. apply orb_prop in Ho as [H | H]; apply radix_letter in H;
      subst p; eexists; vm_compute; reflexivity. }
  destruct ((code p =? 98)%nat || (code p =? 66)%nat) eqn:Hb;
    [| discriminate].
  intros _. apply orb_prop in Hb as [H | H]; apply radix_letter in H;
    subst p; eexists; vm_compute; reflexivity.
Qed.

End TrailingSpace.

(** On a text that [Number] reads as a number, [parseFloat] reads the
    same number, except that it reads [NaN] on a blank text and 0 on a
    hexadecimal, octal or binary literal. *)
Lemma parseFloat_of_numeric_text (s : string) :
  is_nan (StringToNumber s) = false ->
  parseFloat s = StringToNumber s \/ parseFloat s = NaN \/
  parseFloat s = lit 0.
Proof.
  rewrite parseFloat_trimmed. unfold StringToNumber.
  destruct (trim (list_ascii_of_string s)) as [| c t] eqn:Et.
  { intros _. right. left. reflexivity. }
  destruct (non_decimal (c :: t)) as [n |] eqn:En.
  { intros _. destruct (non_decimal_parseFloat _ _ En) as (r & ->).
    right. right. reflexivity. }
  destruct (decimal_prefix (c :: t)) as [[n [| r0 r]] |];
    [now left | discriminate | discriminate].
Qed.

Section SubmittedHours.

Lemma parseFloat_at_most s (bound : Q) :
  (0 <= bound)%Q ->
  is_nan (StringToNumber s) = false ->
  gtb (StringToNumber s) (lit bound) = false ->
  gtb (parseFloat s) (lit bound) = false.
Proof.
  intros Hb Hn Hg.
  destruct (parseFloat_of_numeric_text s Hn) as [-> | [-> | ->]];
    [exact Hg | reflexivity |].
  apply gtb_Fin_false. qc2q. exact Hb.
Qed.

Lemma or_else_at_most (a : num) (bound : Q) :
  (0 <= bound)%Q ->
  gtb a (lit bound) = false -> gtb (or_else a (lit 0)) (lit bound) = false.
Proof.
  intros Hb Hg. unfold or_else. destruct (truthy a); [exact Hg |].
  apply gtb_Fin_false. qc2q. exact Hb.
Qed.

End SubmittedHours.

(** X26.  The cap of the form reaches the list: when every text typed in
    the hours input is one that [Number] reads as a number (as the value of
    a number input is), a line submitted from the form has hours that are
    not above 24. *)
Theorem typed_hours_submitted_at_most_24 inputs now item :
  (forall value, In ("hours", value) inputs ->
                 is_nan (StringToNumber value) = false) ->
  handleSubmit (typed inputs) now = inr item ->
  (hours item >? lit 24)%num = false.
Proof.
  intros Hnum Hs.
  assert (H : forall inputs formData,
      (forall value, In ("hours", value) inputs ->
                     is_nan (StringToNumber value) = false) ->
      gtb (parseFloat (Form.hours formData)) (lit 24) = false ->
      gtb (parseFloat (Form.hours (fold_left type_into inputs formData)))
          (lit 24) = false).
  { clear. induction inputs as [| kv rest IH]; intros formData Hn Hc;
      cbn [fold_left]; [exact Hc |].
    apply IH; [intros v Hv; apply Hn; now right |].
    destruct (type_into_hours formData kv) as [-> | [Hk ->]]; [exact Hc |].
    destruct kv as [key value]. cbn [fst snd] in *. subst key.
    specialize (Hn value (or_introl eq_refl)).
    unfold handleChange, set_form_key.
    cbn [String.eqb Ascii.eqb Bool.eqb andb].
    destruct (gtb (StringToNumber value) (lit 24)) eqn:G; cbn [Form.hours].
    - reflexivity.
    - apply parseFloat_at_most; [discriminate | exact Hn | exact G]. }
  specialize (H inputs INITIAL_FORM_STATE Hnum eq_refl).
  destruct (handleSubmit_inv _ _ _ Hs) as (_ & _ & _ & _ & _ & Hh & _).
  rewrite Hh. apply or_else_at_most; [discriminate | exact H].
Qed.

Lemma typed_hours_submitted_at_most_24_witness :
  forallb (fun item => negb (hours item >? lit 24)%num)
    (step [] (Submit (typed [("name", "Fan"); ("power", "100");
                             ("hours", "30")]) 1)) = true.
Proof.
  assert (Hs : handleSubmit (typed [("name", "Fan"); ("power", "100");
                                    ("hours", "30")]) 1
               = inr (mkItem 1 "Fan" (lit 1) (lit 100) (lit 24)
                        (lit 1 * lit 100 * lit 24 / lit 1000)%num))
    by reflexivity.
  assert (Hn : forall value,
             In ("hours", value)
                [("name", "Fan"); ("power", "100"); ("hours", "30")] ->
             is_nan (StringToNumber value) = false).
  { intros value [E | [E | [E | []]]]; try discriminate E.
    injection E as <-. reflexivity. }
  pose proof (typed_hours_submitted_at_most_24 _ 1 _ Hn Hs) as H.
  cbn [step]. rewrite Hs. cbn [addEquipment app forallb hours] in *.
  now rewrite H.
Defined.
(* ================================================================== *)
(** * Rounding to the nearest double *)
(* ================================================================== *)

Section PowersOfTwo.

Local Open Scope Q_scope.

Lemma two_neq_0 : ~ 2 == 0.
Proof. intro H; discriminate H. Qed.

Lemma pow2_pos e : 0 < 2 ^ e.
Proof. apply Qpower_0_lt; reflexivity. Qed.

Lemma pow2_plus a b : 2 ^ (a + b) == 2 ^ a * 2 ^ b.
Proof. apply Qpower_plus, two_neq_0. Qed.

Lemma pow2_le a b : (a <= b)%Z -> 2 ^ a <= 2 ^ b.
Proof. intro H; apply Qpower_le_compat_l; [exact H | discriminate]. Qed.

Lemma pow2_lt a b : (a < b)%Z -> 2 ^ a < 2 ^ b.
Proof. intro H; apply Qpower_lt_compat_l; [exact H | reflexivity]. Qed.

Lemma pow2_lt_inv a b : 2 ^ a < 2 ^ b -> (a < b)%Z.
Proof. intro H; apply (Qpower_lt_compat_l_inv 2); [exact H | reflexivity]. Qed.

Lemma pow2_Z n : (0 <= n)%Z -> inject_Z (2 ^ n) == 2 ^ n.
Proof. intro H; apply (Zpower_Qpower 2 n H). Qed.

(** The leading binary digit of a positive rational. *)
Lemma ilog2_spec q :
  0 < q -> 2 ^ Double.ilog2 q <= q /\ q < 2 ^ (Double.ilog2 q + 1).
Proof.
  destruct q as [p d]; intro Hq.
  assert (Hp : (0 < p)%Z).
  { unfold Qlt in Hq; cbn in Hq; lia. }
  pose (a := Z.log2 p). pose (b := Z.log2 (Z.pos d)).
  destruct (Z.log2_spec p Hp) as [Ha1 Ha2].
  destruct (Z.log2_spec (Z.pos d) eq_refl) as [Hb1 Hb2].
  fold a in Ha1, Ha2. fold b in Hb1, Hb2.
  assert (Ha0 : (0 <= a)%Z) by apply Z.log2_nonneg.
  assert (Hb0 : (0 <= b)%Z) by apply Z.log2_nonneg.
  rewrite Zle_Qle, pow2_Z in Ha1, Hb1 by assumption.
  rewrite Zlt_Qlt, pow2_Z in Ha2, Hb2 by lia.
  assert (Hd : 0 < inject_Z (Z.pos d)) by reflexivity.
  assert (Hup : p # d < 2 ^ (a - b + 1)).
  { rewrite (Qmake_Qdiv p d). apply Qlt_shift_div_r; [exact Hd |].
    apply Qlt_le_trans with (2 ^ (a - b + 1) * 2 ^ b).
    - rewrite <- pow2_plus. replace (a - b + 1 + b)%Z with (Z.succ a) by lia.
      exact Ha2.
    - apply Qmult_le_l; [apply pow2_pos | exact Hb1]. }
  assert (Hlo : 2 ^ (a - b - 1) < p # d).
  { rewrite (Qmake_Qdiv p d). apply Qlt_shift_div_l; [exact Hd |].
    apply Qlt_le_trans with (2 ^ (a - b - 1) * 2 ^ Z.succ b).
    - apply Qmult_lt_l; [apply pow2_pos | exact Hb2].
    - rewrite <- pow2_plus. replace (a - b - 1 + Z.succ b)%Z with a by lia.
      exact Ha1. }
  unfold Double.ilog2. cbn [Qnum Qden]. fold a b.
  destruct (Qle_bool (2 ^ (a - b)) (p # d)) eqn:E.
  - apply Qle_bool_iff in E. split; assumption.
  - assert (E' : p # d < 2 ^ (a - b)).
    { apply Qnot_le_lt. intro H. apply Qle_bool_iff in H. congruence. }
    split.
    + apply Qlt_le_weak. exact Hlo.
    + replace (a - b - 1 + 1)%Z with (a - b)%Z by lia. exact E'.
Qed.

Lemma ilog2_mono x y : 0 < x -> x <= y -> (Double.ilog2 x <= Double.ilog2 y)%Z.
Proof.
  intros Hx Hxy.
  assert (Hy : 0 < y) by (eapply Qlt_le_trans; eassumption).
  destruct (ilog2_spec x Hx) as [H1 _].
  destruct (ilog2_spec y Hy) as [_ H2].
  assert (H : 2 ^ Double.ilog2 x < 2 ^ (Double.ilog2 y + 1)).
  { eapply Qle_lt_trans; [exact H1 |]. eapply Qle_lt_trans; eassumption. }
  apply pow2_lt_inv in H. lia.
Qed.

Lemma ilog2_below q k : 0 < q -> q < 2 ^ k -> (Double.ilog2 q < k)%Z.
Proof.
  intros Hq H. destruct (ilog2_spec q Hq) as [H1 _].
  apply pow2_lt_inv. eapply Qle_lt_trans; eassumption.
Qed.

Lemma ilog2_above q k : 2 ^ k <= q -> (k <= Double.ilog2 q)%Z.
Proof.
  intros H.
  assert (Hq : 0 < q) by (eapply Qlt_le_trans; [apply pow2_pos | exact H]).
  destruct (ilog2_spec q Hq) as [_ H2].
  assert (H3 : 2 ^ k < 2 ^ (Double.ilog2 q + 1))
    by (eapply Qle_lt_trans; eassumption).
  apply pow2_lt_inv in H3. lia.
Qed.

End PowersOfTwo.

Section NearestInteger.

Local Open Scope Q_scope.

Lemma rne_cases q :
  Double.rne q = Qfloor q \/ Double.rne q = (Qfloor q + 1)%Z.
Proof.
  unfold Double.rne.
  destruct (q - inject_Z (Qfloor q) ?= 1 # 2); auto.
  destruct (Z.even (Qfloor q)); auto.
Qed.

Lemma rne_mono x y : x <= y -> (Double.rne x <= Double.rne y)%Z.
Proof.
  intro H. pose proof (Qfloor_resp_le _ _ H) as Hf.
  destruct (Z.eq_dec (Qfloor x) (Qfloor y)) as [E | E].
  - unfold Double.rne. rewrite <- E.
    destruct (Qcompare_spec (x - inject_Z (Qfloor x)) (1 # 2)) as [Hx | Hx | Hx];
      destruct (Qcompare_spec (y - inject_Z (Qfloor x)) (1 # 2)) as [Hy | Hy | Hy];
      try destruct (Z.even (Qfloor x)); cbv iota; try lia; exfalso; lra.
  - destruct (rne_cases x) as [-> | ->], (rne_cases y) as [-> | ->]; lia.
Qed.

Lemma rne_Z n : Double.rne (inject_Z n) = n.
Proof.
  unfold Double.rne. rewrite Qfloor_Z.
  replace (inject_Z n - inject_Z n ?= 1 # 2) with Lt; [reflexivity |].
  symmetry. apply Qlt_alt. unfold Qminus. rewrite Qplus_opp_r. reflexivity.
Qed.

Lemma rne_comp x y : x == y -> Double.rne x = Double.rne y.
Proof.
  intro H. apply Z.le_antisymm; apply rne_mono; rewrite H; apply Qle_refl.
Qed.

Lemma rne_ge n q : inject_Z n <= q -> (n <= Double.rne q)%Z.
Proof. intro H. rewrite <- (rne_Z n). apply rne_mono, H. Qed.

Lemma rne_le n q : q <= inject_Z n -> (Double.rne q <= n)%Z.
Proof. intro H. rewrite <- (rne_Z n). apply rne_mono, H. Qed.

(** The nearest integer is within one half. *)
Lemma rne_within_half q :
  inject_Z (Double.rne q) - (1 # 2) <= q /\ q <= inject_Z (Double.rne q) + (1 # 2).
Proof.
  pose proof (Qfloor_le q) as H1. pose proof (Qlt_floor q) as H2.
  rewrite inject_Z_plus in H2. change (inject_Z 1) with 1 in H2.
  unfold Double.rne.
  destruct (Qcompare_spec (q - inject_Z (Qfloor q)) (1 # 2)) as [H | H | H].
  - destruct (Z.even (Qfloor q)); [| rewrite inject_Z_plus; change (inject_Z 1) with 1];
      split; lra.
  - split; lra.
  - rewrite inject_Z_plus; change (inject_Z 1) with 1. split; lra.
Qed.

End NearestInteger.

Section Nearest.

Local Open Scope Q_scope.

Lemma exponent_ge q : (-1074 <= Double.exponent q)%Z.
Proof. unfold Double.exponent. lia. Qed.

Lemma exponent_mono x y :
  0 < x -> x <= y -> (Double.exponent x <= Double.exponent y)%Z.
Proof.
  intros Hx Hxy. pose proof (ilog2_mono x y Hx Hxy).
  unfold Double.exponent. lia.
Qed.

(** A positive number has fewer than 54 digits before its last place. *)
Lemma scaled_lt q : 0 < q -> q / 2 ^ Double.exponent q < 2 ^ 53.
Proof.
  intro Hq. destruct (ilog2_spec q Hq) as [_ H].
  apply Qlt_shift_div_r; [apply pow2_pos |].
  rewrite <- pow2_plus. eapply Qlt_le_trans; [exact H |].
  apply pow2_le. unfold Double.exponent. lia.
Qed.

(** Above the subnormal range it has 53 of them. *)
Lemma scaled_ge q :
  0 < q -> (-1074 < Double.exponent q)%Z -> 2 ^ 52 <= q / 2 ^ Double.exponent q.
Proof.
  intros Hq He. destruct (ilog2_spec q Hq) as [H _].
  apply Qle_shift_div_l; [apply pow2_pos |].
  rewrite <- pow2_plus. eapply Qle_trans; [| exact H].
  apply pow2_le. unfold Double.exponent in *. lia.
Qed.

Lemma scaled_pos q : 0 < q -> 0 < q / 2 ^ Double.exponent q.
Proof.
  intro Hq. apply Qlt_shift_div_l; [apply pow2_pos |]. lra.
Qed.

Lemma nearest_nonneg q : 0 < q -> 0 <= Double.nearest q.
Proof.
  intro Hq. unfold Double.nearest. cbv zeta.
  apply Qmult_le_0_compat; [| apply Qlt_le_weak, pow2_pos].
  change 0 with (inject_Z 0). rewrite <- Zle_Qle.
  apply rne_ge. apply Qlt_le_weak, scaled_pos, Hq.
Qed.

Lemma nearest_le_pow q :
  0 < q -> Double.nearest q <= 2 ^ (Double.exponent q + 53).
Proof.
  intro Hq. unfold Double.nearest. cbv zeta.
  rewrite pow2_plus, (Qmult_comm (2 ^ Double.exponent q)).
  apply Qmult_le_compat_r; [| apply Qlt_le_weak, pow2_pos].
  rewrite <- (pow2_Z 53) by lia. rewrite <- Zle_Qle.
  apply rne_le. rewrite pow2_Z by lia. apply Qlt_le_weak, scaled_lt, Hq.
Qed.

Lemma nearest_ge_pow q :
  0 < q -> (-1074 < Double.exponent q)%Z ->
  2 ^ (Double.exponent q + 52) <= Double.nearest q.
Proof.
  intros Hq He. unfold Double.nearest. cbv zeta.
  rewrite pow2_plus, (Qmult_comm (2 ^ Double.exponent q)).
  apply Qmult_le_compat_r; [| apply Qlt_le_weak, pow2_pos].
  rewrite <- (pow2_Z 52) by lia. rewrite <- Zle_Qle.
  apply rne_ge. rewrite pow2_Z by lia. apply scaled_ge; assumption.
Qed.

(** Rounding keeps the order. *)
Lemma nearest_mono x y :
  0 < x -> x <= y -> Double.nearest x <= Double.nearest y.
Proof.
  intros Hx Hxy.
  assert (Hy : 0 < y) by (eapply Qlt_le_trans; eassumption).
  pose proof (exponent_mono x y Hx Hxy) as He.
  destruct (Z.eq_dec (Double.exponent x) (Double.exponent y)) as [E | E].
  - unfold Double.nearest. cbv zeta. rewrite E.
    apply Qmult_le_compat_r; [| apply Qlt_le_weak, pow2_pos].
    rewrite <- Zle_Qle. apply rne_mono.
    apply Qmult_le_compat_r; [exact Hxy |].
    apply Qlt_le_weak, Qinv_lt_0_compat, pow2_pos.
  - pose proof (exponent_ge x).
    eapply Qle_trans; [apply nearest_le_pow, Hx |].
    eapply Qle_trans; [| apply nearest_ge_pow; [exact Hy | lia]].
    apply pow2_le. lia.
Qed.

Lemma nearest_comp x y :
  0 < x -> x == y -> Double.nearest x == Double.nearest y.
Proof.
  intros Hx E. assert (Hy : 0 < y) by (rewrite <- E; exact Hx).
  apply Qle_antisym; apply nearest_mono; try assumption; rewrite E; apply Qle_refl.
Qed.

(** A number whose last place is not below its exponent is kept. *)
Lemma nearest_exact q z :
  0 < q -> q == inject_Z z * 2 ^ Double.exponent q -> Double.nearest q == q.
Proof.
  intros Hq E. unfold Double.nearest. cbv zeta.
  assert (H : q / 2 ^ Double.exponent q == inject_Z z).
  { rewrite E at 1. apply Qdiv_mult_l. apply Qnot_eq_sym, Qlt_not_eq, pow2_pos. }
  rewrite (rne_comp _ _ H), rne_Z. symmetry. exact E.
Qed.

(** Whole numbers below [2^53] are doubles. *)
Lemma nearest_Z n :
  (0 < n < 2 ^ 53)%Z -> Double.nearest (inject_Z n) == inject_Z n.
Proof.
  intros [Hn1 Hn2].
  assert (Hq : 0 < inject_Z n).
  { change 0 with (inject_Z 0). rewrite <- Zlt_Qlt. exact Hn1. }
  assert (Hl : (0 <= Double.ilog2 (inject_Z n) < 53)%Z).
  { split.
    - apply ilog2_above. change (2 ^ 0) with (inject_Z 1).
      rewrite <- Zle_Qle. lia.
    - apply ilog2_below; [exact Hq |].
      rewrite <- (pow2_Z 53) by lia. rewrite <- Zlt_Qlt. exact Hn2. }
  assert (He : Double.exponent (inject_Z n) = (Double.ilog2 (inject_Z n) - 52)%Z).
  { unfold Double.exponent. lia. }
  apply (nearest_exact _ (n * 2 ^ (52 - Double.ilog2 (inject_Z n)))); [exact Hq |].
  rewrite He, inject_Z_mult, pow2_Z by lia.
  rewrite <- Qmult_assoc, <- pow2_plus.
  replace (52 - Double.ilog2 (inject_Z n) + (Double.ilog2 (inject_Z n) - 52))%Z
    with 0%Z by lia.
  change (2 ^ 0) with 1. rewrite Qmult_1_r. reflexivity.
Qed.

(** The rounding error is at most half a unit of the last place. *)
Lemma nearest_error q :
  0 < q ->
  Double.nearest q - 2 ^ (Double.exponent q - 1) <= q /\
  q <= Double.nearest q + 2 ^ (Double.exponent q - 1).
Proof.
  intro Hq. unfold Double.nearest. cbv zeta.
  set (e := Double.exponent q). set (t := q / 2 ^ e).
  assert (Hq' : q == t * 2 ^ e).
  { unfold t. field. apply Qnot_eq_sym, Qlt_not_eq, pow2_pos. }
  assert (Hh : 2 ^ (e - 1) == (1 # 2) * 2 ^ e).
  { unfold Zminus. rewrite pow2_plus. change (2 ^ (-1)) with (1 # 2). apply Qmult_comm. }
  destruct (rne_within_half t) as [H1 H2].
  pose proof (pow2_pos e) as Hp.
  rewrite Hh. split.
  - setoid_replace (inject_Z (Double.rne t) * 2 ^ e - (1 # 2) * 2 ^ e)
      with ((inject_Z (Double.rne t) - (1 # 2)) * 2 ^ e)
      by (generalize (2 ^ e); intro; ring).
    rewrite Hq'. apply Qmult_le_compat_r; [exact H1 | lra].
  - setoid_replace (inject_Z (Double.rne t) * 2 ^ e + (1 # 2) * 2 ^ e)
      with ((inject_Z (Double.rne t) + (1 # 2)) * 2 ^ e)
      by (generalize (2 ^ e); intro; ring).
    rewrite Hq'. apply Qmult_le_compat_r; [exact H2 | lra].
Qed.

End Nearest.

Section Rounding.

Lemma leb_Fin (x y : Qc) : Double.leb (Fin x) (Fin y) = true <-> (x <= y)%Qc.
Proof. unfold Double.leb. rewrite negb_true_iff. apply gtb_Fin_false. Qed.

Lemma leb_not_nan a b : Double.leb a b = true -> a <> NaN /\ b <> NaN.
Proof. destruct a, b; cbn; intro H; split; congruence. Qed.

Lemma leb_refl a : a <> NaN -> Double.leb a a = true.
Proof.
  destruct a as [x | | |]; intro H; try reflexivity; try congruence.
  apply leb_Fin, Qc_le_refl.
Qed.

Lemma leb_trans a b c :
  Double.leb a b = true -> Double.leb b c = true -> Double.leb a c = true.
Proof.
  destruct a as [x | | |], b as [y | | |], c as [z | | |];
    try (cbn; congruence); try reflexivity.
  rewrite !leb_Fin. apply Qc_le_trans.
Qed.

Lemma leb_PInf a : a <> NaN -> Double.leb a PInf = true.
Proof. destruct a; intro H; try reflexivity; congruence. Qed.

Lemma leb_NInf a : a <> NaN -> Double.leb NInf a = true.
Proof. destruct a; intro H; try reflexivity; congruence. Qed.

Lemma leb_opp a b :
  Double.leb a b = true -> Double.leb (Double.opp b) (Double.opp a) = true.
Proof.
  destruct a as [x | | |], b as [y | | |]; try (cbn; congruence); try reflexivity.
  cbn [Double.opp]. rewrite !leb_Fin. qc2q. lra.
Qed.

Lemma opp_not_nan a : a <> NaN -> Double.opp a <> NaN.
Proof. destruct a; cbn; congruence. Qed.

(** What [round_pos] returns. *)
Lemma round_pos_cases q :
  (0 < q)%Q ->
  (Double.round_pos q = PInf /\ (2 ^ 1024 <= Double.nearest q)%Q) \/
  (exists r : Qc, Double.round_pos q = Fin r /\ (r == Double.nearest q)%Q /\
                  (Double.nearest q < 2 ^ 1024)%Q).
Proof.
  intro Hq. unfold Double.round_pos. cbv zeta.
  destruct (Qle_bool (2 ^ 1024) (Double.nearest q)) eqn:E.
  - left. split; [reflexivity | now apply Qle_bool_iff].
  - right. exists (Q2Qc (Double.nearest q)). split; [reflexivity |]. split.
    + cbn. apply Qred_correct.
    + apply Qnot_le_lt. intro H. apply Qle_bool_iff in H. congruence.
Qed.

Lemma round_pos_not_nan q : (0 < q)%Q -> Double.round_pos q <> NaN.
Proof.
  intro Hq. destruct (round_pos_cases q Hq) as [[-> _] | [r [-> _]]]; congruence.
Qed.

Lemma round_pos_nonneg q :
  (0 < q)%Q -> Double.leb (Fin 0) (Double.round_pos q) = true.
Proof.
  intro Hq. pose proof (nearest_nonneg q Hq) as Hn.
  destruct (round_pos_cases q Hq) as [[-> _] | [r [-> [Hr _]]]]; [reflexivity |].
  apply leb_Fin. unfold Qcle. cbn. rewrite Hr. exact Hn.
Qed.

Lemma round_pos_mono x y :
  (0 < x)%Q -> (x <= y)%Q ->
  Double.leb (Double.round_pos x) (Double.round_pos y) = true.
Proof.
  intros Hx Hxy.
  assert (Hy : (0 < y)%Q) by (eapply Qlt_le_trans; eassumption).
  pose proof (nearest_mono x y Hx Hxy) as Hn.
  destruct (round_pos_cases x Hx) as [[-> Hx1] | [r [-> [Hr Hx1]]]];
    destruct (round_pos_cases y Hy) as [[-> Hy1] | [s [-> [Hs Hy1]]]];
    try reflexivity.
  - exfalso. lra.
  - apply leb_Fin. unfold Qcle. rewrite Hr, Hs. exact Hn.
Qed.

Lemma opp_round_pos_nonpos q :
  (0 < q)%Q -> Double.leb (Double.opp (Double.round_pos q)) (Fin 0) = true.
Proof.
  intro Hq. replace (Fin 0) with (Double.opp (Fin 0)).
  - apply leb_opp, round_pos_nonneg, Hq.
  - reflexivity.
Qed.

Lemma leb_antisym a b :
  Double.leb a b = true -> Double.leb b a = true -> a = b.
Proof.
  destruct a as [x | | |], b as [y | | |]; try (cbn; congruence).
  rewrite !leb_Fin. intros H1 H2. f_equal. now apply Qcle_antisym.
Qed.

Lemma round_pos_comp x y :
  (0 < x)%Q -> (x == y)%Q -> Double.round_pos x = Double.round_pos y.
Proof.
  intros Hx E. assert (Hy : (0 < y)%Q) by (rewrite <- E; exact Hx).
  apply leb_antisym; apply round_pos_mono; try assumption; rewrite E; apply Qle_refl.
Qed.

Lemma round_not_nan a : a <> NaN -> Double.round a <> NaN.
Proof.
  destruct a as [x | | |]; cbn; try congruence. intros _.
  destruct (Qc_compare_spec x 0) as [E | L | G]; [congruence | |].
  - apply opp_not_nan, round_pos_not_nan. qc2q. lra.
  - apply round_pos_not_nan. qc2q. lra.
Qed.

(** Rounding keeps the order. *)
Lemma round_mono a b :
  Double.leb a b = true -> Double.leb (Double.round a) (Double.round b) = true.
Proof.
  intro H. destruct (leb_not_nan _ _ H) as [Ha Hb].
  destruct a as [x | | |], b as [y | | |]; try congruence; try discriminate;
    try (apply leb_PInf, round_not_nan; discriminate);
    try (apply leb_NInf, round_not_nan; discriminate).
  apply leb_Fin in H. unfold Qcle in H. cbn [Double.round].
  destruct (Qc_compare_spec x 0) as [Ex | Lx | Gx];
    destruct (Qc_compare_spec y 0) as [Ey | Ly | Gy];
    try subst x; try subst y.
  - apply leb_refl. discriminate.
  - exfalso. qc2q. lra.
  - apply round_pos_nonneg. qc2q. lra.
  - apply opp_round_pos_nonpos. qc2q. lra.
  - apply leb_opp, round_pos_mono; qc2q; lra.
  - apply leb_trans with (Fin 0).
    + apply opp_round_pos_nonpos. qc2q. lra.
    + apply round_pos_nonneg. qc2q. lra.
  - exfalso. qc2q. lra.
  - exfalso. qc2q. lra.
  - apply round_pos_mono; qc2q; lra.
Qed.

Lemma of_Z_pos n : (0 < n)%Z -> (0 < Q2Qc (inject_Z n))%Qc.
Proof.
  intro H. apply lit_pos. change 0%Q with (inject_Z 0). rewrite <- Zlt_Qlt. exact H.
Qed.

(** Whole numbers below [2^53] are doubles. *)
Lemma round_of_Z n : (Z.abs n < 2 ^ 53)%Z -> Double.round (of_Z n) = of_Z n.
Proof.
  intro Hn. unfold of_Z. cbn [Double.round].
  assert (Hpos : forall m, (0 < m < 2 ^ 53)%Z ->
            Double.round_pos (Q2Qc (inject_Z m)) = Fin (Q2Qc (inject_Z m))).
  { intros m Hm.
    assert (Hq : (0 < Q2Qc (inject_Z m))%Q) by (apply of_Z_pos; lia).
    assert (Hv : (Double.nearest (Q2Qc (inject_Z m)) == inject_Z m)%Q).
    { rewrite (nearest_comp _ (inject_Z m) Hq) by apply Qred_correct.
      apply nearest_Z, Hm. }
    destruct (round_pos_cases _ Hq) as [[_ Hx] | [r [-> [Hr _]]]].
    - exfalso. rewrite Hv in Hx.
      rewrite <- (pow2_Z 1024) in Hx by lia. rewrite <- Zle_Qle in Hx. lia.
    - f_equal. apply Qc_is_canon. rewrite Hr, Hv. symmetry. apply Qred_correct. }
  assert (Hinj : forall m, (this (Q2Qc (inject_Z m)) == inject_Z m)%Q)
    by (intro m; apply Qred_correct).
  destruct (Z.lt_trichotomy n 0) as [L | [E | G]].
  - assert (Hlt : (Q2Qc (inject_Z n) < 0)%Qc).
    { unfold Qclt. rewrite Hinj. change (this 0%Qc) with (inject_Z 0).
      rewrite <- Zlt_Qlt. exact L. }
    rewrite (cmp_lt _ _ Hlt).
    rewrite (round_pos_comp _ (Q2Qc (inject_Z (- n)))).
    + rewrite Hpos by lia. cbn [Double.opp]. f_equal. apply Qc_is_canon.
      qc2q. rewrite inject_Z_opp. ring.
    + unfold Qclt in Hlt. change (this 0%Qc) with 0%Q in Hlt. lra.
    + rewrite !Hinj, inject_Z_opp. reflexivity.
  - subst n. reflexivity.
  - rewrite (cmp_gt _ _ (of_Z_pos n G)). apply Hpos. lia.
Qed.

End Rounding.

#[global] Arguments Double.round : simpl never.

Section Order.

Lemma gtb_false_iff a b :
  gtb a b = false <-> a = NaN \/ b = NaN \/ Double.leb a b = true.
Proof.
  destruct a as [x | | |], b as [y | | |]; cbn;
    try (split; [intro; auto; discriminate | intros [H | [H | H]]; congruence]).
  rewrite negb_true_iff. split; [auto | intros [H | [H | H]]; congruence].
Qed.

Lemma leb_gtb a b : Double.leb a b = true -> gtb a b = false.
Proof. intro H. apply gtb_false_iff. auto. Qed.

Lemma raised_gtb a b : Double.raised a b -> gtb a b = false.
Proof.
  intros [H | [[H _] | H]]; apply gtb_false_iff; auto.
Qed.

(** The numbers that are not negative: [a >= 0]. *)
Lemma geb0_inv a :
  Double.leb (JS.lit 0) a = true ->
  a = PInf \/ exists x : Qc, a = Fin x /\ (0 <= x)%Qc.
Proof.
  destruct a as [x | | |]; try discriminate; [| auto].
  intro H. right. exists x. split; [reflexivity |]. now apply leb_Fin in H.
Qed.

Lemma gtb0_inv a :
  gtb a (JS.lit 0) = true ->
  a = PInf \/ exists x : Qc, a = Fin x /\ (0 < x)%Qc.
Proof.
  destruct a as [x | | |]; try discriminate; [| auto].
  intro H. right. exists x. split; [reflexivity |]. now apply gtb_Fin in H.
Qed.

Lemma round_geb0 a :
  Double.leb (JS.lit 0) a = true -> Double.leb (JS.lit 0) (Double.round a) = true.
Proof. intro H. apply (round_mono _ _ H). Qed.

Lemma round_nonpos a :
  Double.leb a (JS.lit 0) = true -> Double.leb (Double.round a) (JS.lit 0) = true.
Proof. intro H. apply (round_mono _ _ H). Qed.

Lemma round_gtb a b :
  gtb a b = false -> gtb (Double.round a) (Double.round b) = false.
Proof.
  rewrite !gtb_false_iff. intros [-> | [-> | H]]; auto.
  right; right. apply round_mono, H.
Qed.

(** A rounded number above 0 comes from a number above 0. *)
Lemma round_pos_inv a :
  gtb (Double.round a) (JS.lit 0) = true -> gtb a (JS.lit 0) = true.
Proof.
  intro H. destruct (gtb a (JS.lit 0)) eqn:E; [reflexivity |].
  apply gtb_false_iff in E. destruct E as [-> | [E | E]]; try discriminate.
  apply round_nonpos, leb_gtb in E. congruence.
Qed.

End Order.

Section ExactOperations.

Ltac solve_leb :=
  first [ reflexivity
        | apply leb_PInf, round_not_nan; discriminate
        | apply leb_NInf, round_not_nan; discriminate ].

Ltac qc_signs :=
  repeat match goal with
         | |- context [(?x ?= 0)%Qc] => destruct (Qc_compare_spec x 0)
         | |- context [(0 ?= ?x)%Qc] => destruct (Qc_compare_spec 0 x)
         end.

Ltac solve_raised_gtb :=
  first [ left; reflexivity
        | right; left; reflexivity
        | right; right; solve_leb ].

Ltac solve_raised :=
  first [ left; reflexivity
        | right; left; split; reflexivity
        | right; right; solve_leb ].

(** Adding the same term to two running sums. *)
Lemma add_raised_r a b z :
  Double.raised a b -> Double.raised (Double.add a z) (Double.add b z).
Proof.
  unfold Double.raised, Double.add. intros [-> | [[-> ->] | H]].
  - left. reflexivity.
  - destruct z; cbn [JS.add]; solve_raised.
  - destruct (leb_not_nan _ _ H) as [Ha Hb].
    destruct a as [x | | |], b as [y | | |], z as [z | | |];
      try congruence; try discriminate; cbn [JS.add]; try solve_raised.
    right; right. apply round_mono, leb_Fin. apply leb_Fin in H. qc2q. lra.
Qed.

Lemma add_raised_l s t t' :
  Double.leb t t' = true -> Double.raised (Double.add s t) (Double.add s t').
Proof.
  intro H. unfold Double.add. rewrite (add_comm s t), (add_comm s t').
  apply add_raised_r. right; right. exact H.
Qed.

Lemma fold_raised (l : list EquipmentItem) a b :
  Double.raised a b ->
  Double.raised
    (fold_left (fun sum item => Double.add sum (totalDailyKWh item)) l a)
    (fold_left (fun sum item => Double.add sum (totalDailyKWh item)) l b).
Proof.
  revert a b. induction l as [| item rest IH]; intros a b H; cbn [fold_left].
  - exact H.
  - apply IH, add_raised_r, H.
Qed.

(** Raising one line of the list. *)
Lemma totalDailyLoad_raised l1 x x' l2 :
  Double.leb (totalDailyKWh x) (totalDailyKWh x') = true ->
  Double.raised (Double.totalDailyLoad (l1 ++ x :: l2))
                (Double.totalDailyLoad (l1 ++ x' :: l2)).
Proof.
  intro H. unfold Double.totalDailyLoad.
  rewrite !fold_left_app. cbn [fold_left].
  apply fold_raised, add_raised_l, H.
Qed.

(** Multiplying two numbers in order by a factor that is not negative. *)
Lemma mul_ordered a b c :
  Double.leb a b = true -> Double.leb (JS.lit 0) c = true ->
  JS.mul a c = NaN \/
  (JS.mul b c = NaN /\ Double.leb (JS.mul a c) (JS.lit 0) = true) \/
  Double.leb (JS.mul a c) (JS.mul b c) = true.
Proof.
  intros H Hc.
  destruct (geb0_inv c Hc) as [-> | [z [-> Hz]]];
    destruct a as [x | | |], b as [y | | |]; try discriminate; cbn [JS.mul];
    try apply leb_Fin in H; qc_signs; cbn [inf_of]; auto;
    try (exfalso; subst; qc2q; lra).
  - right; right. apply leb_Fin. apply Qc_mul_le_r; assumption.
  - right; left. split; [reflexivity |]. apply leb_Fin. subst. qc2q. lra.
Qed.

(** The same after rounding: the product is not lowered, and a product
    above 0 is truly below the new one. *)
Lemma mul_raised a b c :
  Double.raised a b -> Double.leb (JS.lit 0) c = true ->
  gtb (Double.mul a c) (Double.mul b c) = false /\
  (gtb (Double.mul a c) (JS.lit 0) = true ->
   Double.leb (Double.mul a c) (Double.mul b c) = true).
Proof.
  intros H Hc. unfold Double.mul.
  assert (Hn : gtb (Double.round (JS.mul NInf c)) (JS.lit 0) = false).
  { apply gtb_false_iff.
    destruct (geb0_inv c Hc) as [-> | [z [-> Hz]]]; cbn [JS.mul]; qc_signs;
      cbn [inf_of]; try solve_raised_gtb. exfalso. qc2q. lra. }
  destruct H as [-> | [[-> ->] | H]].
  - split; [reflexivity | discriminate].
  - split; [apply gtb_false_iff; auto | rewrite Hn; discriminate].
  - destruct (mul_ordered a b c H Hc) as [E | [[E1 E2] | E]].
    + rewrite E. split; [reflexivity | discriminate].
    + rewrite E1. split; [apply gtb_false_iff; auto |].
      apply round_nonpos, leb_gtb in E2. rewrite E2. discriminate.
    + apply round_mono in E. split; [apply leb_gtb, E | intros _; exact E].
Qed.

Lemma mul_gtb a b c :
  gtb a b = false -> Double.leb (JS.lit 0) c = true ->
  gtb (Double.mul a c) (Double.mul b c) = false.
Proof.
  intros H Hc. apply gtb_false_iff in H. destruct H as [-> | [-> | H]].
  - reflexivity.
  - apply gtb_false_iff. auto.
  - apply mul_raised; [right; right; exact H | exact Hc].
Qed.

(** Dividing two numbers in order by a divisor that is not negative. *)
Lemma div_gtb a b d :
  gtb a b = false -> Double.leb (JS.lit 0) d = true ->
  gtb (Double.div a d) (Double.div b d) = false.
Proof.
  intros H Hd. unfold Double.div. apply round_gtb.
  apply gtb_false_iff in H. destruct H as [-> | [-> | H]].
  - reflexivity.
  - apply gtb_false_iff. right; left. destruct a; reflexivity.
  - apply gtb_false_iff.
    destruct (geb0_inv d Hd) as [-> | [z [-> Hz]]];
      destruct a as [x | | |], b as [y | | |]; try discriminate; cbn [JS.div];
      try apply leb_Fin in H; try destruct (Qc_eq_dec z 0) as [-> | Nz];
      qc_signs; cbn [inf_of]; auto;
      try (exfalso; subst; qc2q; lra); try contradiction.
    right; right. apply leb_Fin. apply Qc_div_le_r; [exact H |].
    destruct (Qc_compare_spec z 0) as [E | L | G]; [contradiction | | exact G].
    exfalso. qc2q. lra.
Qed.

(** Dividing by a positive constant keeps the order. *)
Lemma div_const_mono a b (c : Qc) :
  (0 < c)%Qc -> Double.leb a b = true ->
  Double.leb (Double.div a (Fin c)) (Double.div b (Fin c)) = true.
Proof.
  intros Hc H. unfold Double.div. apply round_mono.
  assert (Nc : c <> 0%Qc) by (intros ->; revert Hc; apply Qc_lt_irrefl).
  pose proof (cmp_gt c 0 Hc) as G.
  destruct a as [x | | |], b as [y | | |]; try discriminate;
    rewrite ?div_Fin by exact Nc; cbn [JS.div]; rewrite ?G; try reflexivity.
  apply leb_Fin. apply leb_Fin in H. apply Qc_div_le_r; assumption.
Qed.

Lemma mul_const_mono a b (c : Qc) :
  (0 < c)%Qc -> Double.leb a b = true ->
  Double.leb (Double.mul a (Fin c)) (Double.mul b (Fin c)) = true.
Proof.
  intros Hc H. unfold Double.mul. apply round_mono.
  pose proof (cmp_gt c 0 Hc) as G. pose proof (cmp_lt 0 c Hc) as L.
  destruct a as [x | | |], b as [y | | |]; try discriminate;
    cbn [JS.mul]; rewrite ?G, ?L; try reflexivity.
  apply leb_Fin. apply leb_Fin in H. apply Qc_mul_le_r; [exact H | now apply Qc_lt_le].
Qed.

Lemma Math_round_mono a b :
  Double.leb a b = true -> Double.leb (Math_round a) (Math_round b) = true.
Proof.
  destruct a as [x | | |], b as [y | | |]; try discriminate; try reflexivity.
  intro H. apply leb_Fin in H. cbn [Math_round]. unfold of_Z. apply leb_Fin.
  qc2q. rewrite <- Zle_Qle. apply Qfloor_resp_le. lra.
Qed.

End ExactOperations.

(* ================================================================== *)
(** * The totals in binary64 *)
(* ================================================================== *)

Section Literals.

(** The whole-number literals of the source are doubles. *)
Lemma lit_whole n : (Z.abs n < 2 ^ 53)%Z -> Double.lit (inject_Z n) = of_Z n.
Proof. intro H. unfold Double.lit. apply round_of_Z, H. Qed.

Lemma lit_0 : Double.lit 0 = JS.lit 0.
Proof. reflexivity. Qed.

Lemma lit_2 : Double.lit 2 = JS.lit 2.
Proof. apply (lit_whole 2). reflexivity. Qed.

Lemma lit_5 : Double.lit 5 = JS.lit 5.
Proof. apply (lit_whole 5). reflexivity. Qed.

Lemma lit_7 : Double.lit 7 = JS.lit 7.
Proof. apply (lit_whole 7). reflexivity. Qed.

Lemma lit_1000 : Double.lit 1000 = JS.lit 1000.
Proof. apply (lit_whole 1000). reflexivity. Qed.

(** The other literals of [calculateTotals] are rounded to positive
    doubles. *)
Lemma lit_30_44 : exists c : Qc, Double.lit 30.44 = Fin c /\ (0 < c)%Qc.
Proof. eexists. split; vm_compute; reflexivity. Qed.

Lemma lit_365_25 : exists c : Qc, Double.lit 365.25 = Fin c /\ (0 < c)%Qc.
Proof. eexists. split; vm_compute; reflexivity. Qed.

Lemma lit_0_85 : exists c : Qc, Double.lit 0.85 = Fin c /\ (0 < c)%Qc.
Proof. eexists. split; vm_compute; reflexivity. Qed.

End Literals.

Section DoubleSizing.

Lemma div_0_const (c : Qc) : (0 < c)%Qc -> Double.div (JS.lit 0) (Fin c) = JS.lit 0.
Proof.
  intro Hc. unfold Double.div, JS.lit.
  rewrite div_Fin by (intros ->; revert Hc; apply Qc_lt_irrefl).
  replace (Q2Qc 0 / c)%Qc with (Q2Qc 0); [reflexivity |].
  apply Qc_is_canon. qc2q. unfold Qdiv. ring.
Qed.

Lemma mul_0_const (c : Qc) : Double.mul (JS.lit 0) (Fin c) = JS.lit 0.
Proof.
  unfold Double.mul. rewrite mul_0_Fin. reflexivity.
Qed.

Lemma div_const_geb0 a (c : Qc) :
  (0 < c)%Qc -> Double.leb (JS.lit 0) a = true ->
  Double.leb (JS.lit 0) (Double.div a (Fin c)) = true.
Proof.
  intros Hc H. rewrite <- (div_0_const c Hc). apply div_const_mono; assumption.
Qed.

Lemma mul_const_geb0 a (c : Qc) :
  (0 < c)%Qc -> Double.leb (JS.lit 0) a = true ->
  Double.leb (JS.lit 0) (Double.mul a (Fin c)) = true.
Proof.
  intros Hc H. rewrite <- (mul_0_const c). apply mul_const_mono; assumption.
Qed.

Lemma seven_pos : (0 < Q2Qc 7)%Qc.
Proof. reflexivity. Qed.

Lemma five_pos : (0 < Q2Qc 5)%Qc.
Proof. reflexivity. Qed.

Lemma two_pos : (0 < Q2Qc 2)%Qc.
Proof. reflexivity. Qed.

Lemma daysPerMonth_geb0 fi :
  Double.leb (JS.lit 0) (Double.daysPerWeek fi) = true ->
  Double.leb (JS.lit 0) (Double.daysPerMonth fi) = true.
Proof.
  intro H. unfold Double.daysPerMonth.
  destruct lit_30_44 as [c [-> Hc]]. rewrite lit_7.
  apply mul_const_geb0; [exact Hc |].
  apply (div_const_geb0 _ (Q2Qc 7) seven_pos H).
Qed.

Lemma daysPerYear_geb0 fi :
  Double.leb (JS.lit 0) (Double.daysPerWeek fi) = true ->
  Double.leb (JS.lit 0) (Double.daysPerYear fi) = true.
Proof.
  intro H. unfold Double.daysPerYear.
  destruct lit_365_25 as [c [-> Hc]]. rewrite lit_7.
  apply mul_const_geb0; [exact Hc |].
  apply (div_const_geb0 _ (Q2Qc 7) seven_pos H).
Qed.

Lemma gtb_leb_trans a b c :
  gtb a c = true -> Double.leb a b = true -> gtb b c = true.
Proof.
  destruct a as [x | | |], b as [y | | |], c as [z | | |];
    try discriminate; try reflexivity.
  rewrite !gtb_Fin, leb_Fin. apply Qc_lt_le_trans.
Qed.

Lemma gtb0_geb0 a : gtb a (JS.lit 0) = true -> Double.leb (JS.lit 0) a = true.
Proof.
  destruct a as [x | | |]; try discriminate; try reflexivity.
  intro H. apply gtb_Fin in H. apply leb_Fin. now apply Qc_lt_le.
Qed.

(** The energy needed per day is a number that is not negative, and it
    follows the annual load. *)
Lemma needed_of_geb0 a : Double.leb (JS.lit 0) (Double.needed_of a) = true.
Proof.
  unfold Double.needed_of. rewrite lit_0.
  destruct (gtb a (JS.lit 0)) eqn:E; [| reflexivity].
  destruct lit_365_25 as [c [-> Hc]].
  apply div_const_geb0; [exact Hc | apply gtb0_geb0, E].
Qed.

Lemma needed_of_mono a b :
  (gtb a (JS.lit 0) = true -> Double.leb a b = true) ->
  Double.leb (Double.needed_of a) (Double.needed_of b) = true.
Proof.
  intro H. unfold Double.needed_of. rewrite lit_0.
  destruct (gtb a (JS.lit 0)) eqn:E.
  - specialize (H eq_refl). rewrite (gtb_leb_trans a b _ E H).
    destruct lit_365_25 as [c [-> Hc]]. apply div_const_mono; assumption.
  - pose proof (needed_of_geb0 b) as G. unfold Double.needed_of in G.
    rewrite lit_0 in G. exact G.
Qed.

(** The divisor of the array size when the peak sun hours are above 0. *)
Lemma divisor_geb0 psh :
  gtb psh (JS.lit 0) = true ->
  Double.leb (JS.lit 0) (Double.mul psh Double.systemEfficiency) = true.
Proof.
  intro H. unfold Double.systemEfficiency.
  destruct lit_0_85 as [c [-> Hc]].
  apply mul_const_geb0; [exact Hc | apply gtb0_geb0, H].
Qed.

Lemma pv_of_zero n psh :
  psh = JS.lit 0 \/ n = JS.lit 0 -> Double.pv_of n psh = JS.lit 0.
Proof.
  unfold Double.pv_of. rewrite lit_0. intros [-> | ->].
  - rewrite andb_false_r. reflexivity.
  - reflexivity.
Qed.

(** The array size is not lowered by a larger need, and it is never
    negative. *)
Lemma pv_of_gtb n n' psh :
  Double.leb n n' = true ->
  gtb (Double.pv_of n psh) (Double.pv_of n' psh) = false.
Proof.
  intro H. unfold Double.pv_of. rewrite lit_0.
  destruct (gtb psh (JS.lit 0)) eqn:P; [| rewrite !andb_false_r; reflexivity].
  rewrite !andb_true_r. pose proof (divisor_geb0 psh P) as D.
  destruct (gtb n (JS.lit 0)) eqn:E.
  - rewrite (gtb_leb_trans n n' _ E H). apply div_gtb; [apply leb_gtb, H | exact D].
  - destruct (gtb n' (JS.lit 0)) eqn:E'; [| reflexivity].
    assert (Z : Double.div (JS.lit 0) (Double.mul psh Double.systemEfficiency) = NaN
                \/ Double.div (JS.lit 0) (Double.mul psh Double.systemEfficiency) = JS.lit 0).
    { unfold Double.div.
      destruct (geb0_inv _ D) as [-> | [z [-> Hz]]]; [right; reflexivity |].
      cbn [JS.div JS.lit]. destruct (Qc_eq_dec z 0) as [-> | Nz].
      - left. reflexivity.
      - right. replace (Q2Qc 0 / z)%Qc with (Q2Qc 0); [reflexivity |].
        apply Qc_is_canon. qc2q. unfold Qdiv. ring. }
    pose proof (div_gtb (JS.lit 0) n' _ (leb_gtb _ _ (gtb0_geb0 _ E')) D) as G.
    destruct Z as [Z | Z]; rewrite Z in G; [| exact G].
    (* 0 / 0: the divisor is 0, and a positive number over 0 is +Infinity *)
    apply gtb_false_iff.
    unfold Double.div in *.
    destruct (geb0_inv _ D) as [Dz | [z [Dz Hz]]]; rewrite Dz in *; [discriminate |].
    cbn [JS.div JS.lit] in Z. destruct (Qc_eq_dec z 0) as [-> | Nz]; [| discriminate].
    destruct (gtb0_inv _ E') as [-> | [y [-> Hy]]].
    + right; right. reflexivity.
    + right; right. cbn [JS.div]. destruct (Qc_eq_dec 0 0) as [_ | N]; [| contradiction].
      rewrite (cmp_gt y 0 Hy). reflexivity.
Qed.

Lemma pv_of_not_negative n psh : gtb (JS.lit 0) (Double.pv_of n psh) = false.
Proof.
  assert (H : Double.pv_of (JS.lit 0) psh = JS.lit 0) by (apply pv_of_zero; auto).
  destruct (gtb n (JS.lit 0)) eqn:E.
  - rewrite <- H. apply pv_of_gtb, gtb0_geb0, E.
  - unfold Double.pv_of. rewrite lit_0, E. reflexivity.
Qed.

End DoubleSizing.

Section DoubleBattery.

Lemma Math_round_gtb a b :
  gtb a b = false -> gtb (Math_round a) (Math_round b) = false.
Proof.
  rewrite !gtb_false_iff. intros [-> | [-> | H]]; auto.
  right; right. apply Math_round_mono, H.
Qed.

Lemma lit_2_geb0 : Double.leb (JS.lit 0) (Double.lit 2) = true.
Proof. reflexivity. Qed.

Lemma lit_5_geb0 : Double.leb (JS.lit 0) (Double.lit 5) = true.
Proof. reflexivity. Qed.

(** The battery size is not lowered by a larger array. *)
Lemma battery_of_gtb pv pv' :
  gtb pv pv' = false ->
  gtb (Double.battery_of pv) (Double.battery_of pv') = false.
Proof.
  intro H. unfold Double.battery_of.
  apply mul_gtb; [| exact lit_5_geb0].
  apply Math_round_gtb.
  apply div_gtb; [| exact lit_5_geb0].
  apply mul_gtb; [exact H | exact lit_2_geb0].
Qed.

Lemma battery_of_0 : Double.battery_of (JS.lit 0) = JS.lit 0.
Proof. num_eq. Qed.

Lemma battery_of_not_negative pv :
  gtb (JS.lit 0) pv = false -> gtb (JS.lit 0) (Double.battery_of pv) = false.
Proof.
  intro H. rewrite <- battery_of_0 at 1. apply battery_of_gtb, H.
Qed.

Lemma Math_round_geb0 a :
  Double.leb (JS.lit 0) a = true -> Double.leb (JS.lit 0) (Math_round a) = true.
Proof. intro H. apply (Math_round_mono _ _ H). Qed.

Lemma battery_of_geb0 pv :
  Double.leb (JS.lit 0) pv = true ->
  Double.leb (JS.lit 0) (Double.battery_of pv) = true.
Proof.
  intro H. unfold Double.battery_of. rewrite lit_2, lit_5.
  apply (mul_const_geb0 _ (Q2Qc 5) five_pos).
  apply Math_round_geb0.
  apply (div_const_geb0 _ (Q2Qc 5) five_pos).
  apply (mul_const_geb0 _ (Q2Qc 2) two_pos), H.
Qed.

Lemma mul_of_Z a b : JS.mul (of_Z a) (of_Z b) = of_Z (a * b).
Proof.
  unfold of_Z. cbn [JS.mul]. f_equal. apply Qc_is_canon. qc2q.
  rewrite inject_Z_mult. reflexivity.
Qed.

Lemma div_of_Z a b : b <> 0%Z -> JS.div (of_Z (a * b)) (of_Z b) = of_Z a.
Proof.
  intro Hb. unfold of_Z.
  assert (Nb : Q2Qc (inject_Z b) <> 0%Qc).
  { apply lit_neq_0. intro E. apply Hb.
    unfold Qeq in E. cbn in E. lia. }
  rewrite div_Fin by exact Nb. f_equal. apply Qc_is_canon. qc2q.
  rewrite inject_Z_mult. field.
  intro E. apply Hb. unfold Qeq in E. cbn in E. lia.
Qed.

Lemma leb_of_Z_inv a n :
  Double.leb (JS.lit 0) a = true -> Double.leb a (of_Z n) = true ->
  exists x : Qc, a = Fin x /\ (0 <= x)%Qc /\ (x <= inject_Z n)%Q.
Proof.
  intros H0 Hn. destruct (geb0_inv a H0) as [-> | [x [-> Hx]]]; [discriminate |].
  exists x. split; [reflexivity |]. split; [exact Hx |].
  apply leb_Fin in Hn. unfold of_Z in Hn. qc2q. exact Hn.
Qed.

(** An array of at most 10^15 kW gets a battery that is a whole multiple
    of 5. *)
Lemma battery_of_multiple pv :
  Double.leb (JS.lit 0) pv = true -> Double.leb pv (of_Z (10 ^ 15)) = true ->
  exists k : Z, Double.battery_of pv = of_Z (5 * k).
Proof.
  intros H0 H. unfold Double.battery_of. rewrite lit_2, lit_5.
  pose proof (mul_const_geb0 _ (Q2Qc 2) two_pos H0) as R0.
  pose proof (mul_const_mono _ _ (Q2Qc 2) two_pos H) as R1.
  change (Fin (Q2Qc 2)) with (JS.lit 2) in R0, R1.
  replace (Double.mul (of_Z (10 ^ 15)) (JS.lit 2)) with (of_Z (2 * 10 ^ 15)) in R1.
  2:{ unfold Double.mul. change (JS.lit 2) with (of_Z 2). rewrite mul_of_Z.
      symmetry. apply round_of_Z. reflexivity. }
  pose proof (div_const_geb0 _ (Q2Qc 5) five_pos R0) as Q0.
  pose proof (div_const_mono _ _ (Q2Qc 5) five_pos R1) as Q1.
  change (Fin (Q2Qc 5)) with (JS.lit 5) in Q0, Q1.
  replace (Double.div (of_Z (2 * 10 ^ 15)) (JS.lit 5)) with (of_Z (4 * 10 ^ 14)) in Q1.
  2:{ unfold Double.div. change (JS.lit 5) with (of_Z 5).
      change (2 * 10 ^ 15)%Z with (4 * 10 ^ 14 * 5)%Z.
      rewrite div_of_Z by discriminate. symmetry. apply round_of_Z. reflexivity. }
  destruct (leb_of_Z_inv _ _ Q0 Q1) as [r [-> [Hr0 Hr1]]].
  cbn [Math_round].
  set (k := Qfloor (r + (1 # 2))%Q).
  assert (Hk : (0 <= k <= 4 * 10 ^ 14)%Z).
  { split.
    - apply round_nonneg, Hr0.
    - unfold k.
      assert (Hf : (Qfloor (r + (1 # 2)) <= Qfloor (inject_Z (4 * 10 ^ 14) + (1 # 2)))%Z).
      { apply Qfloor_resp_le. lra. }
      assert (Hv : Qfloor (inject_Z (4 * 10 ^ 14) + (1 # 2)) = (4 * 10 ^ 14)%Z)
        by reflexivity.
      lia. }
  exists k. unfold Double.mul. change (JS.lit 5) with (of_Z 5).
  rewrite mul_of_Z, Z.mul_comm. apply round_of_Z. lia.
Qed.

End DoubleBattery.

Section Doubles.

(** A positive finite double lies between [2^-1074] and [2^1024]. *)
Lemma double_pos_bounds (p : Qc) :
  Double.is_double (Fin p) -> (0 < p)%Qc ->
  (2 ^ (-1074) <= p)%Q /\ (p < 2 ^ 1024)%Q.
Proof.
  unfold Double.is_double. intros H Hp. cbn [Double.round] in H.
  unfold Double.round in H. rewrite (cmp_gt p 0 Hp) in H.
  assert (Hq : (0 < p)%Q) by (qc2q; lra).
  destruct (round_pos_cases p Hq) as [[E _] | [r [E [Hr Hlt]]]];
    rewrite E in H; [discriminate |].
  injection H as ->. split; [| rewrite Hr; exact Hlt].
  rewrite Hr. unfold Double.nearest. cbv zeta.
  assert (Hm : (1 <= Double.rne (p / 2 ^ Double.exponent p))%Z).
  { destruct (Z_le_gt_dec 1 (Double.rne (p / 2 ^ Double.exponent p))) as [L | G];
      [exact L | exfalso].
    assert (Hz : (inject_Z (Double.rne (p / 2 ^ Double.exponent p))
                  * 2 ^ Double.exponent p <= 0)%Q).
    { rewrite <- (Qmult_0_l (2 ^ Double.exponent p)).
      apply Qmult_le_compat_r; [| apply Qlt_le_weak, pow2_pos].
      change 0%Q with (inject_Z 0). rewrite <- Zle_Qle. lia. }
    unfold Double.nearest in Hr. cbv zeta in Hr. rewrite <- Hr in Hz. lra. }
  apply Qle_trans with (1 * 2 ^ Double.exponent p)%Q.
  - rewrite Qmult_1_l. apply pow2_le, exponent_ge.
  - apply Qmult_le_compat_r; [| apply Qlt_le_weak, pow2_pos].
    change 1%Q with (inject_Z 1). rewrite <- Zle_Qle. exact Hm.
Qed.

(** For peak sun hours above 0 the divisor [peakSunHours * 0.85] is above
    0: the product does not underflow to zero. *)
Lemma divisor_positive_double psh :
  Double.is_double psh -> gtb psh (JS.lit 0) = true ->
  gtb (Double.mul psh Double.systemEfficiency) (JS.lit 0) = true.
Proof.
  intros Hd Hp.
  assert (Hmin : gtb (Double.mul (JS.lit (2 ^ (-1074))) Double.systemEfficiency)
                     (JS.lit 0) = true) by (vm_compute; reflexivity).
  assert (Hinf : gtb (Double.mul PInf Double.systemEfficiency) (JS.lit 0) = true)
    by (vm_compute; reflexivity).
  destruct (gtb0_inv psh Hp) as [-> | [p [-> Hp']]]; [exact Hinf |].
  destruct (double_pos_bounds p Hd Hp') as [Hlo _].
  unfold Double.systemEfficiency in *. destruct lit_0_85 as [c [E Hc]].
  rewrite E in *.
  apply (gtb_leb_trans _ _ _ Hmin).
  apply mul_const_mono; [exact Hc |].
  apply leb_Fin. unfold JS.lit. qc2q. exact Hlo.
Qed.

(** For finite peak sun hours it is finite as well. *)
Lemma divisor_finite_double (p : Qc) :
  Double.is_double (Fin p) -> (0 < p)%Qc ->
  exists d : Qc, Double.mul (Fin p) Double.systemEfficiency = Fin d /\ (0 < d)%Qc.
Proof.
  intros Hd Hp.
  assert (Hpos : gtb (Fin p) (JS.lit 0) = true) by now apply gtb_Fin.
  pose proof (divisor_positive_double _ Hd Hpos) as G.
  assert (Hle : Double.leb (Double.mul (Fin p) Double.systemEfficiency) (Fin p) = true).
  { assert (H1 : Double.leb Double.systemEfficiency (JS.lit 1) = true)
      by (vm_compute; reflexivity).
    unfold Double.systemEfficiency in *. destruct lit_0_85 as [c [E Hc]].
    rewrite E in *. apply leb_Fin in H1.
    unfold Double.is_double in Hd. rewrite <- Hd at 2.
    unfold Double.mul. apply round_mono.
    cbn [JS.mul]. apply leb_Fin. unfold JS.lit in H1. qc2q. nra. }
  destruct (gtb0_inv _ G) as [E | [d [E Hd']]].
  - rewrite E in Hle. discriminate Hle.
  - exists d. split; assumption.
Qed.

End Doubles.

Section DoubleSigns.

Lemma add_geb0 a b :
  Double.leb (JS.lit 0) a = true -> Double.leb (JS.lit 0) b = true ->
  Double.leb (JS.lit 0) (Double.add a b) = true.
Proof.
  intros Ha Hb. unfold Double.add. apply round_geb0.
  destruct (geb0_inv a Ha) as [-> | [x [-> Hx]]];
    destruct (geb0_inv b Hb) as [-> | [y [-> Hy]]]; try reflexivity.
  cbn [JS.add]. apply leb_Fin. qc2q. lra.
Qed.

Lemma sum_geb0 (l : list EquipmentItem) start :
  Double.loads_nonneg l = true -> Double.leb (JS.lit 0) start = true ->
  Double.leb (JS.lit 0)
    (fold_left (fun sum item => Double.add sum (totalDailyKWh item)) l start)
  = true.
Proof.
  revert start. induction l as [| item rest IH]; intros start Hl Hs;
    cbn [fold_left].
  - exact Hs.
  - cbn [Double.loads_nonneg forallb] in Hl. apply andb_prop in Hl as [Hi Hr].
    apply IH; [exact Hr | apply add_geb0; assumption].
Qed.

Lemma totalDailyLoad_geb0 l :
  Double.loads_nonneg l = true ->
  Double.leb (JS.lit 0) (Double.totalDailyLoad l) = true.
Proof. intro H. apply sum_geb0; [exact H | reflexivity]. Qed.

(** A product of two numbers that are not negative is not negative, or
    it is [NaN]: an infinity times 0. *)
Lemma mul_geb0_or_nan a b :
  Double.leb (JS.lit 0) a = true -> Double.leb (JS.lit 0) b = true ->
  Double.leb (JS.lit 0) (Double.mul a b) = true \/
  (Double.mul a b = NaN /\ (a = PInf \/ b = PInf)).
Proof.
  intros Ha Hb. unfold Double.mul.
  destruct (geb0_inv a Ha) as [-> | [x [-> Hx]]];
    destruct (geb0_inv b Hb) as [-> | [y [-> Hy]]]; cbn [JS.mul].
  - left. reflexivity.
  - destruct (Qc_compare_spec y 0) as [E | L | G]; cbn [inf_of].
    + right. auto.
    + exfalso. qc2q. lra.
    + left. reflexivity.
  - destruct (Qc_compare_spec x 0) as [E | L | G]; cbn [inf_of].
    + right. auto.
    + exfalso. qc2q. lra.
    + left. reflexivity.
  - left. apply round_geb0, leb_Fin. now apply Qc_mul_nonneg.
Qed.

Lemma not_negative_geb0 a :
  gtb (JS.lit 0) a = false -> a <> NaN -> Double.leb (JS.lit 0) a = true.
Proof.
  intros H N. apply gtb_false_iff in H. destruct H as [H | [H | H]];
    [discriminate | contradiction | exact H].
Qed.

(** With finite peak sun hours the array size is a number. *)
Lemma pv_of_geb0 n psh :
  Double.is_double psh -> finite psh = true ->
  Double.leb (JS.lit 0) n = true ->
  Double.leb (JS.lit 0) (Double.pv_of n psh) = true.
Proof.
  intros Hd Hf Hn. destruct (finite_inv _ Hf) as [p ->].
  unfold Double.pv_of. rewrite lit_0.
  destruct (gtb n (JS.lit 0)) eqn:En; [| reflexivity].
  destruct (gtb (Fin p) (JS.lit 0)) eqn:Ep; [| reflexivity].
  cbn [andb]. apply gtb_Fin in Ep.
  destruct (divisor_finite_double p Hd Ep) as [d [-> Hd']].
  apply div_const_geb0; assumption.
Qed.

End DoubleSigns.

(* ================================================================== *)
(** * Battery size in binary64 *)
(* ================================================================== *)

Lemma of_Z_inj a b : of_Z a = of_Z b -> a = b.
Proof.
  unfold of_Z. intro H.
  apply (f_equal (fun n => match n with Fin q => Qfloor q | _ => 0%Z end)) in H.
  unfold Q2Qc in H. cbn [this] in H.
  rewrite !Qred_correct, !Qfloor_Z in H. exact H.
Qed.

Lemma solarPVSize_not_negative fi l psh :
  gtb (JS.lit 0) (Double.solarPVSize fi l psh) = false.
Proof. apply pv_of_not_negative. Qed.

(** C3 (the claim fails as stated).  With "7" days per week, peak sun
    hours 4.5 and one line submitted with quantity "1" and "1e17" kWh a
    day, [batterySize] is 52287581699346408, whose remainder by 5 is 3:
    the product [Math.round(...) * 5] is rounded to the nearest double. *)
Lemma battery_3_mod_5 :
  let r := Double.calculateTotals seven_days load_1e17 (JS.lit 4.5) "" in
  batterySize r = of_Z 52287581699346408 /\
  (52287581699346408 mod 5 = 3)%Z /\
  ~ (exists k : Z, batterySize r = of_Z (5 * k)).
Proof.
  assert (E : batterySize (Double.calculateTotals seven_days load_1e17 (JS.lit 4.5) "")
              = of_Z 52287581699346408) by num_eq.
  cbv zeta. split; [exact E |]. split; [reflexivity |].
  intros [k Hk]. rewrite E in Hk. apply of_Z_inj in Hk. lia.
Qed.

(** C3 (amended).  For every [opDaysWeek], equipment list and
    [peakSunHours], [batterySize] is
    [Math.round((pvSize * 2) / 5) * 5] evaluated in doubles, and it is a
    whole multiple of 5 whenever [pvSize] is at most 10^15. *)
Theorem battery_multiple_of_5 fi l psh info :
  let r := Double.calculateTotals fi l psh info in
  batterySize r
  = Double.mul
      (Math_round (Double.div (Double.mul (pvSize r) (Double.lit 2))
                              (Double.lit 5)))
      (Double.lit 5) /\
  (Double.leb (pvSize r) (of_Z (10 ^ 15)) = true ->
   exists k : Z, batterySize r = of_Z (5 * k)).
Proof.
  cbv zeta. split; [reflexivity |].
  cbn [pvSize batterySize Double.calculateTotals]. intro H.
  apply battery_of_multiple; [| exact H].
  apply not_negative_geb0; [apply solarPVSize_not_negative |].
  apply (leb_not_nan _ _ H).
Qed.

Lemma battery_multiple_of_5_witness :
  Double.leb (pvSize (Double.calculateTotals initial_facilityInfo [fan_7kWh]
                                             (JS.lit 4.5) ""))
             (of_Z (10 ^ 15)) = true /\
  exists k : Z,
    batterySize (Double.calculateTotals initial_facilityInfo [fan_7kWh]
                                        (JS.lit 4.5) "") = of_Z (5 * k).
Proof.
  split; [vm_compute; reflexivity |].
  apply (proj2 (battery_multiple_of_5 initial_facilityInfo [fan_7kWh]
                                      (JS.lit 4.5) "")).
  vm_compute. reflexivity.
Defined.

(* ================================================================== *)
(** * The guarded division in binary64 *)
(* ================================================================== *)

(** C4 (the claim fails as stated).  One line submitted with quantity
    "10" and "1e308" kWh a day stores [totalDailyKWh] Infinity, and with
    "7" days per week and peak sun hours 4.5 the division yields [pvSize]
    Infinity (and so [batterySize]). *)
Lemma overflowing_load_infinite_pv :
  (exists item, load_1e308_times_10 = [item] /\ totalDailyKWh item = PInf) /\
  let r := Double.calculateTotals seven_days load_1e308_times_10 (JS.lit 4.5) "" in
  pvSize r = PInf /\ batterySize r = PInf.
Proof.
  split.
  - eexists. split; vm_compute; reflexivity.
  - cbv zeta. split; vm_compute; reflexivity.
Qed.

(** C4 (amended).  For every [opDaysWeek] and equipment list: if
    [peakSunHours] is 0 or [dailyEnergyNeeded] is 0 the engine returns
    [pvSize] 0 rather than dividing; it divides only by a
    [peakSunHours * 0.85] that is above 0; with finite [peakSunHours] the
    result is a number that is not negative, never [NaN] (it can be
    Infinity, as it is when the load overflows); and with [opDaysWeek] 7,
    one line of 100 kWh and [peakSunHours] 0, [pvSize] is 0. *)
Theorem pv_division_guarded :
  (forall fi l psh info,
      psh = JS.lit 0 \/ Double.dailyEnergyNeeded fi l = JS.lit 0 ->
      pvSize (Double.calculateTotals fi l psh info) = JS.lit 0) /\
  (forall fi l psh info,
      Double.is_double psh ->
      pvSize (Double.calculateTotals fi l psh info) = JS.lit 0 \/
      (gtb (Double.mul psh Double.systemEfficiency) (JS.lit 0) = true /\
       pvSize (Double.calculateTotals fi l psh info)
       = Double.div (Double.dailyEnergyNeeded fi l)
                    (Double.mul psh Double.systemEfficiency))) /\
  (forall fi l psh info,
      Double.is_double psh -> finite psh = true ->
      Double.leb (JS.lit 0) (pvSize (Double.calculateTotals fi l psh info)) = true) /\
  (forall street zip opHours i n q p h info,
      pvSize (Double.calculateTotals
                (mkFacility street zip opHours (VNum (JS.lit 7)))
                [mkItem i n q p h (JS.lit 100)] (JS.lit 0) info) = JS.lit 0).
Proof.
  split; [| split; [| split]].
  - intros fi l psh info H. cbn [pvSize Double.calculateTotals].
    apply (pv_of_zero (Double.dailyEnergyNeeded fi l) psh H).
  - intros fi l psh info Hd. cbn [pvSize Double.calculateTotals].
    unfold Double.solarPVSize. rewrite lit_0.
    destruct (gtb (Double.dailyEnergyNeeded fi l) (JS.lit 0)); [| now left].
    destruct (gtb psh (JS.lit 0)) eqn:P; [| now left].
    right. split; [apply divisor_positive_double; assumption | reflexivity].
  - intros fi l psh info Hd Hf. cbn [pvSize Double.calculateTotals].
    apply pv_of_geb0; [exact Hd | exact Hf | apply needed_of_geb0].
  - intros. reflexivity.
Qed.

Lemma pv_division_guarded_witness :
  Double.is_double (JS.lit 4.5) /\ finite (JS.lit 4.5) = true /\
  Double.leb (JS.lit 0)
    (pvSize (Double.calculateTotals initial_facilityInfo [fan_7kWh]
                                    (JS.lit 4.5) "")) = true.
Proof.
  assert (D : Double.is_double (JS.lit 4.5)) by (unfold Double.is_double; num_eq).
  split; [exact D |]. split; [reflexivity |].
  apply (proj1 (proj2 (proj2 pv_division_guarded))); [exact D | reflexivity].
Defined.

(* ================================================================== *)
(** * Signs of the results in binary64 *)
(* ================================================================== *)

(** C5 (the claim fails as stated).  With "-1" typed as days per week
    and one line of 7 kWh, [monthly] and [annual] are negative: -30.44 and
    -365.25 in exact arithmetic, and negative in doubles as well.  And with
    the days per week cleared and two lines of 1e308 kWh, [daily] overflows
    to Infinity and [monthly] and [annual], Infinity times 0, are [NaN]. *)
Lemma negative_days_negative_totals :
  opDaysWeek minus_one_day = VStr "-1" /\
  monthly (calculateTotals minus_one_day [fan_7kWh] (JS.lit 4.5) "")
  = JS.lit (-30.44) /\
  annual (calculateTotals minus_one_day [fan_7kWh] (JS.lit 4.5) "")
  = JS.lit (-365.25) /\
  outputs_nonneg (calculateTotals minus_one_day [fan_7kWh] (JS.lit 4.5) "")
  = false /\
  (let r := Double.calculateTotals minus_one_day [fan_7kWh] (JS.lit 4.5) "" in
   gtb (JS.lit 0) (monthly r) = true /\ gtb (JS.lit 0) (annual r) = true) /\
  (let r := Double.calculateTotals no_days two_loads_1e308 (JS.lit 4.5) "" in
   daily r = PInf /\ monthly r = NaN /\ annual r = NaN).
Proof.
  split; [reflexivity |]. split; [num_eq |]. split; [num_eq |].
  split; [num_eq |]. cbv zeta.
  split; [split; vm_compute; reflexivity |].
  split; [| split]; vm_compute; reflexivity.
Qed.

(** C5 (amended).  For every [opDaysWeek], equipment list and
    [peakSunHours], [pvSize] and [batterySize] are never negative, and with
    finite [peakSunHours] each is a number [>= 0].  [daily] is [>= 0] when
    every line's [totalDailyKWh] is [>= 0].  When the days per week that
    the engine works with are [>= 0] as well, [monthly] and [annual] are
    [>= 0], except that each is [NaN] when one of [daily] and its day
    factor is Infinity and the other is 0. *)
Theorem outputs_nonneg_on_nonneg_inputs fi l psh info :
  let r := Double.calculateTotals fi l psh info in
  (gtb (JS.lit 0) (pvSize r) = false /\ gtb (JS.lit 0) (batterySize r) = false) /\
  (Double.is_double psh -> finite psh = true ->
   Double.leb (JS.lit 0) (pvSize r) = true /\
   Double.leb (JS.lit 0) (batterySize r) = true) /\
  (Double.loads_nonneg l = true -> Double.leb (JS.lit 0) (daily r) = true) /\
  (Double.loads_nonneg l = true ->
   Double.leb (JS.lit 0) (Double.daysPerWeek fi) = true ->
   (Double.leb (JS.lit 0) (monthly r) = true \/
    (monthly r = NaN /\ (daily r = PInf \/ Double.daysPerMonth fi = PInf))) /\
   (Double.leb (JS.lit 0) (annual r) = true \/
    (annual r = NaN /\ (daily r = PInf \/ Double.daysPerYear fi = PInf)))).
Proof.
  cbv zeta.
  cbn [daily monthly annual pvSize batterySize Double.calculateTotals].
  split; [| split; [| split]].
  - split; [apply solarPVSize_not_negative |].
    apply battery_of_not_negative, solarPVSize_not_negative.
  - intros Hd Hf.
    assert (P : Double.leb (JS.lit 0) (Double.solarPVSize fi l psh) = true)
      by (apply pv_of_geb0; [exact Hd | exact Hf | apply needed_of_geb0]).
    split; [exact P | apply battery_of_geb0, P].
  - apply totalDailyLoad_geb0.
  - intros Hl Hw. pose proof (totalDailyLoad_geb0 l Hl) as D.
    split; apply mul_geb0_or_nan; try exact D;
      [apply daysPerMonth_geb0 | apply daysPerYear_geb0]; exact Hw.
Qed.

Lemma outputs_nonneg_on_nonneg_inputs_witness :
  Double.loads_nonneg [fan_7kWh] = true /\
  Double.leb (JS.lit 0) (Double.daysPerWeek initial_facilityInfo) = true /\
  Double.leb (JS.lit 0)
    (daily (Double.calculateTotals initial_facilityInfo [fan_7kWh]
                                   (JS.lit 4.5) "")) = true.
Proof.
  split; [reflexivity |]. split; [reflexivity |].
  apply (outputs_nonneg_on_nonneg_inputs initial_facilityInfo [fan_7kWh]
           (JS.lit 4.5) "").
  reflexivity.
Defined.

(* ================================================================== *)
(** * Raising a line in binary64 *)
(* ================================================================== *)

(** C6 (the claim fails as stated).  With "-1" typed as days per week,
    raising the quantity of a 7 kWh line from 1 to 2 in the table lowers
    [monthly] and [annual] (from -30.44 to -60.88 and from -365.25 to
    -730.5 in exact arithmetic, and in doubles as well).  And with any days
    per week, on the line submitted with quantity "5", power "1" and hours
    "6.917e-321" the edit of the quantity to "6" lowers the stored
    [totalDailyKWh] and with it [daily]: the per-unit figure [total / qty]
    is rounded before it is multiplied by the new quantity. *)
Lemma raising_qty_lowers_totals :
  (monthly (calculateTotals minus_one_day [fan_7kWh] (JS.lit 4.5) "")
   = JS.lit (-30.44) /\
   monthly (calculateTotals minus_one_day (handleEdit [fan_7kWh] 1 "qty" "2")
                            (JS.lit 4.5) "") = JS.lit (-60.88) /\
   gtb (annual (calculateTotals minus_one_day [fan_7kWh] (JS.lit 4.5) ""))
       (annual (calculateTotals minus_one_day
                  (handleEdit [fan_7kWh] 1 "qty" "2") (JS.lit 4.5) ""))
   = true) /\
  (let r := Double.calculateTotals minus_one_day [fan_7kWh] (JS.lit 4.5) "" in
   let r' := Double.calculateTotals minus_one_day
               (Double.handleEdit [fan_7kWh] 1 "qty" "2") (JS.lit 4.5) "" in
   gtb (monthly r) (monthly r') = true /\ gtb (annual r) (annual r') = true) /\
  (forall fi psh info,
     let r := Double.calculateTotals fi five_faint_lamps psh info in
     let r' := Double.calculateTotals fi
                 (Double.handleEdit five_faint_lamps 1 "qty" "6") psh info in
     gtb (daily r) (daily r') = true).
Proof.
  split; [| split].
  - split; [num_eq |]. split; [num_eq | vm_compute; reflexivity].
  - cbv zeta. split; vm_compute; reflexivity.
  - intros fi psh info. cbv zeta. vm_compute. reflexivity.
Qed.

(** C6 (amended).  For every equipment list and every line of it, a
    change of the line that does not lower its stored [totalDailyKWh]
    lowers none of the results: [daily] for any days per week, and
    [monthly], [annual], [pvSize] and [batterySize] when the days per week
    that the engine works with are [>= 0] ("not lowered": the old figure
    is not above the new one).  A larger quantity at a fixed per-unit
    figure [p >= 0] is such a change when the line stores [p * qty]. *)
Theorem raising_qty_monotone :
  (forall fi l1 x x' l2 psh info,
      Double.leb (totalDailyKWh x) (totalDailyKWh x') = true ->
      let r := Double.calculateTotals fi (l1 ++ x :: l2) psh info in
      let r' := Double.calculateTotals fi (l1 ++ x' :: l2) psh info in
      gtb (daily r) (daily r') = false /\
      (Double.leb (JS.lit 0) (Double.daysPerWeek fi) = true ->
       gtb (monthly r) (monthly r') = false /\
       gtb (annual r) (annual r') = false /\
       gtb (pvSize r) (pvSize r') = false /\
       gtb (batterySize r) (batterySize r') = false)) /\
  (forall p q q',
      nonneg p = true -> (q <= q')%num ->
      Double.leb (Double.mul p q) (Double.mul p q') = true).
Proof.
  split.
  - intros fi l1 x x' l2 psh info H. cbv zeta.
    cbn [daily monthly annual pvSize batterySize Double.calculateTotals].
    pose proof (totalDailyLoad_raised l1 x x' l2 H) as R.
    split; [apply raised_gtb, R |]. intro Hw.
    pose proof (mul_raised _ _ _ R (daysPerMonth_geb0 fi Hw)) as [M _].
    pose proof (mul_raised _ _ _ R (daysPerYear_geb0 fi Hw)) as [A A'].
    split; [exact M |]. split; [exact A |].
    assert (P : gtb (Double.solarPVSize fi (l1 ++ x :: l2) psh)
                    (Double.solarPVSize fi (l1 ++ x' :: l2) psh) = false).
    { apply pv_of_gtb. apply needed_of_mono. exact A'. }
    split; [exact P | apply battery_of_gtb, P].
  - intros p q q' Hp Hq.
    destruct (nonneg_inv _ Hp) as [x [-> Hx]].
    destruct q as [a | | |], q' as [b | | |]; try contradiction.
    unfold Double.mul. apply round_mono. cbn [JS.mul]. apply leb_Fin.
    cbn in Hq. qc2q. nra.
Qed.

Lemma raising_qty_monotone_witness :
  Double.leb (JS.lit 7) (JS.lit 14) = true /\
  gtb (daily (Double.calculateTotals initial_facilityInfo
                [mkItem 1 "Fan" (JS.lit 1) (JS.lit 0) (JS.lit 0) (JS.lit 7)]
                (JS.lit 4.5) ""))
      (daily (Double.calculateTotals initial_facilityInfo
                [mkItem 1 "Fan" (JS.lit 2) (JS.lit 0) (JS.lit 0) (JS.lit 14)]
                (JS.lit 4.5) "")) = false.
Proof.
  split; [reflexivity |].
  apply (proj1 (proj1 raising_qty_monotone initial_facilityInfo []
                  (mkItem 1 "Fan" (JS.lit 1) (JS.lit 0) (JS.lit 0) (JS.lit 7))
                  (mkItem 1 "Fan" (JS.lit 2) (JS.lit 0) (JS.lit 0) (JS.lit 14))
                  [] (JS.lit 4.5) "" eq_refl)).
Defined.

(* ================================================================== *)
(** * The handlers in binary64 *)
(* ================================================================== *)

Section DoubleHandlers.

Lemma Double_handleEdit_nth l id' field value i item :
  nth_error l i = Some item -> id item = id' ->
  nth_error (Double.handleEdit l id' field value) i
  = Some (Double.edit_item field (Double.edit_value field value) item).
Proof.
  intros Hnth Hid. unfold Double.handleEdit.
  rewrite nth_error_map, Hnth. cbn [option_map].
  apply Z.eqb_eq in Hid. now rewrite Hid.
Qed.

Lemma mul_Fin_0 (x : Qc) : Double.mul (Fin x) (JS.lit 0) = JS.lit 0.
Proof.
  unfold Double.mul, JS.lit. cbn [JS.mul].
  replace (x * Q2Qc 0)%Qc with (Q2Qc 0) by ring. reflexivity.
Qed.

Lemma mul_0_Fin_double (x : Qc) : Double.mul (JS.lit 0) (Fin x) = JS.lit 0.
Proof. apply mul_0_const. Qed.

Lemma div_0_1000 : Double.div (JS.lit 0) (Double.lit 1000) = JS.lit 0.
Proof. num_eq. Qed.

(** X9.  An edit of power or hours recomputes the total from power and
    hours alone.  On a line whose hours are 0 (a line entered by its daily
    kWh) an edit of the power puts [totalDailyKWh] to 0 whenever
    [qty * power] is a finite number (the quantity is not [NaN] and the
    product does not overflow); on a line whose power is 0 an edit of the
    hours does so whenever the quantity and the hours entered are
    finite. *)
Theorem power_hours_edit_drops_direct_kwh :
  (forall l id' value i item,
      nth_error l i = Some item -> id item = id' ->
      hours item = JS.lit 0 ->
      finite (Double.mul (qty item) (Double.edit_value "power" value)) = true ->
      exists item',
        nth_error (Double.handleEdit l id' "power" value) i = Some item' /\
        power item' = Double.edit_value "power" value /\
        totalDailyKWh item' = JS.lit 0) /\
  (forall l id' value i item,
      nth_error l i = Some item -> id item = id' ->
      power item = JS.lit 0 -> finite (qty item) = true ->
      finite (Double.edit_value "hours" value) = true ->
      exists item',
        nth_error (Double.handleEdit l id' "hours" value) i = Some item' /\
        hours item' = Double.edit_value "hours" value /\
        totalDailyKWh item' = JS.lit 0).
Proof.
  split.
  - intros l id' value i item Hnth Hid Hz Fm.
    rewrite (Double_handleEdit_nth l id' _ value i item Hnth Hid).
    eexists. split; [reflexivity |].
    change (Double.edit_item "power" (Double.edit_value "power" value) item)
      with (mkItem (id item) (name item) (qty item)
              (Double.edit_value "power" value) (hours item)
              (Double.div
                 (Double.mul (Double.mul (qty item) (Double.edit_value "power" value))
                             (hours item))
                 (Double.lit 1000))).
    cbn [power totalDailyKWh]. split; [reflexivity |].
    destruct (finite_inv _ Fm) as (m & ->). rewrite Hz, mul_Fin_0.
    apply div_0_1000.
  - intros l id' value i item Hnth Hid Hz Fq Fv.
    rewrite (Double_handleEdit_nth l id' _ value i item Hnth Hid).
    eexists. split; [reflexivity |].
    change (Double.edit_item "hours" (Double.edit_value "hours" value) item)
      with (mkItem (id item) (name item) (qty item) (power item)
              (Double.edit_value "hours" value)
              (Double.div
                 (Double.mul (Double.mul (qty item) (power item))
                             (Double.edit_value "hours" value))
                 (Double.lit 1000))).
    cbn [hours totalDailyKWh]. split; [reflexivity |].
    destruct (finite_inv _ Fq) as (q & ->).
    destruct (finite_inv _ Fv) as (v & ->).
    rewrite Hz, mul_Fin_0, mul_0_Fin_double. apply div_0_1000.
Qed.

Lemma power_hours_edit_drops_direct_kwh_witness :
  exists item',
    nth_error (Double.handleEdit [fan_7kWh] 1 "power" "100") 0 = Some item' /\
    totalDailyKWh item' = JS.lit 0.
Proof.
  destruct (proj1 power_hours_edit_drops_direct_kwh [fan_7kWh] 1 "100" 0%nat
              fan_7kWh eq_refl eq_refl eq_refl eq_refl)
    as (item' & Hnth & _ & Ht).
  exists item'. split; [exact Hnth | exact Ht].
Defined.

Lemma Double_handleSubmit_inv formData now item :
  Double.handleSubmit formData now = inr item ->
  (Form.name formData =? "")%string = false /\
  id item = now /\ name item = Form.name formData /\
  qty item = Double.parseInt (Form.qty formData) /\
  power item = or_else (Double.parseInt (Form.power formData)) (JS.lit 0) /\
  hours item = or_else (Double.parseFloat (Form.hours formData)) (JS.lit 0) /\
  ((gtb (Double.parseFloat (Form.kwh formData)) (JS.lit 0) = true /\
    totalDailyKWh item
    = Double.mul (Double.parseFloat (Form.kwh formData))
                 (Double.parseInt (Form.qty formData))) \/
   (gtb (Double.parseFloat (Form.kwh formData)) (JS.lit 0) = false /\
    gtb (Double.parseInt (Form.power formData)) (JS.lit 0) = true /\
    gtb (Double.parseFloat (Form.hours formData)) (JS.lit 0) = true /\
    totalDailyKWh item
    = Double.div
        (Double.mul (Double.mul (Double.parseInt (Form.qty formData))
                                (Double.parseInt (Form.power formData)))
                    (Double.parseFloat (Form.hours formData)))
        (Double.lit 1000))).
Proof.
  unfold Double.handleSubmit. rewrite lit_0.
  destruct (Form.name formData =? "")%string; [discriminate |].
  destruct (gtb (Double.parseFloat (Form.kwh formData)) (JS.lit 0)) eqn:Gk.
  - intros E. injection E as <-. cbn. repeat split. now left.
  - destruct (gtb (Double.parseInt (Form.power formData)) (JS.lit 0)) eqn:Gp;
      [| discriminate].
    destruct (gtb (Double.parseFloat (Form.hours formData)) (JS.lit 0)) eqn:Gh;
      [| discriminate].
    cbn [andb]. intros E. injection E as <-. cbn. repeat split.
    right. now repeat split.
Qed.

(** [parseInt] yields a whole number or [NaN]. *)
Lemma parseInt_whole s : Parse.parseInt s = NaN \/ exists z, Parse.parseInt s = of_Z z.
Proof.
  unfold Parse.parseInt.
  destruct (take_sign (trim_start (list_ascii_of_string s))) as [neg s1].
  destruct (span_digits s1) as [ds tl].
  destruct ds as [| c ds]; [now left |]. right.
  destruct neg; cbn [signed].
  - eexists. apply of_Z_opp.
  - eexists. reflexivity.
Qed.

(** A quantity or power above 0 is at least 1. *)
Lemma parseInt_positive s :
  gtb (Double.parseInt s) (JS.lit 0) = true ->
  Double.leb (JS.lit 1) (Double.parseInt s) = true.
Proof.
  unfold Double.parseInt. intro H.
  destruct (parseInt_whole s) as [E | [z E]]; rewrite E in *; [discriminate |].
  apply round_pos_inv in H. unfold of_Z in H. apply gtb_Fin in H.
  assert (Hz : (1 <= z)%Z).
  { qc2q. change 0%Q with (inject_Z 0) in H. rewrite <- Zlt_Qlt in H. lia. }
  assert (L : Double.leb (of_Z 1) (of_Z z) = true).
  { apply leb_Fin. qc2q. rewrite <- Zle_Qle. exact Hz. }
  apply round_mono in L. rewrite (round_of_Z 1) in L by reflexivity. exact L.
Qed.

Lemma mul_at_least_1 a b :
  Double.leb (JS.lit 1) a = true -> Double.leb (JS.lit 1) b = true ->
  Double.leb (JS.lit 1) (Double.mul a b) = true.
Proof.
  intros Ha Hb. unfold Double.mul.
  assert (L : Double.leb (of_Z 1) (JS.mul a b) = true);
    [| apply round_mono in L; rewrite (round_of_Z 1) in L by reflexivity;
       exact L].
  change (of_Z 1) with (JS.lit 1).
  destruct a as [x | | |], b as [y | | |]; try discriminate; cbn [JS.mul].
  - apply leb_Fin in Ha, Hb. apply leb_Fin. unfold JS.lit in *. qc2q. nra.
  - apply leb_Fin in Ha. rewrite (cmp_gt x 0); [reflexivity |].
    unfold JS.lit in Ha. qc2q. lra.
  - apply leb_Fin in Hb. rewrite (cmp_gt y 0); [reflexivity |].
    unfold JS.lit in Hb. qc2q. lra.
  - reflexivity.
Qed.

Lemma geb1_gtb0 a : Double.leb (JS.lit 1) a = true -> gtb a (JS.lit 0) = true.
Proof.
  destruct a as [x | | |]; try discriminate; try reflexivity.
  intro H. apply leb_Fin in H. apply gtb_Fin. unfold JS.lit in *. qc2q. lra.
Qed.

Lemma mul_positive_geb0 a b :
  gtb a (JS.lit 0) = true -> gtb b (JS.lit 0) = true ->
  Double.leb (JS.lit 0) (Double.mul a b) = true.
Proof.
  intros Ha Hb. unfold Double.mul. apply round_geb0, gtb0_geb0.
  apply mul_positive; assumption.
Qed.

End DoubleHandlers.

(** X10.  A line that [handleSubmit] hands over carries the time stamp as
    [id] and the non-empty name of the form; its power and hours are never
    [NaN]; and when its quantity is above 0 its [totalDailyKWh] is a number
    that is not negative (0 when the product underflows, Infinity when it
    overflows). *)
Theorem submitted_line formData now item :
  Double.handleSubmit formData now = inr item ->
  id item = now /\ name item = Form.name formData /\ name item <> "" /\
  is_nan (power item) = false /\ is_nan (hours item) = false /\
  (gtb (qty item) (JS.lit 0) = true ->
   Double.leb (JS.lit 0) (totalDailyKWh item) = true).
Proof.
  intros H.
  destruct (Double_handleSubmit_inv _ _ _ H)
    as (Hn & Hid & Hname & Hq & Hp & Hh & Ht).
  split; [exact Hid |]. split; [exact Hname |].
  split; [rewrite Hname; now apply String.eqb_neq |].
  split; [rewrite Hp; apply or_else_not_nan |].
  split; [rewrite Hh; apply or_else_not_nan |].
  rewrite Hq. intros Gq.
  destruct Ht as [(Gk & ->) | (_ & Gp & Gh & ->)].
  - now apply mul_positive_geb0.
  - rewrite lit_1000.
    apply (div_const_geb0 _ (Q2Qc 1000)); [reflexivity |].
    apply mul_positive_geb0; [| exact Gh].
    apply geb1_gtb0, mul_at_least_1; now apply parseInt_positive.
Qed.

Lemma submitted_line_witness :
  exists item,
    Double.handleSubmit (Form.mk "Fan" "1" "" "" "7") 1 = inr item /\
    id item = 1 /\ Double.leb (JS.lit 0) (totalDailyKWh item) = true.
Proof.
  eexists. split; [vm_compute; reflexivity |].
  match goal with
  | |- id ?item = _ /\ _ =>
      destruct (submitted_line (Form.mk "Fan" "1" "" "" "7") 1 item
                  ltac:(vm_compute; reflexivity))
        as (Hid & _ & _ & _ & _ & Ht)
  end.
  split; [exact Hid | apply Ht; vm_compute; reflexivity].
Defined.

(* ================================================================== *)
(** * More on the totals in binary64 *)
(* ================================================================== *)

(** X23.  No days, no load to size for: when the days per week that
    [calculateTotals] works with are 0, as they are after the input is
    cleared, and the daily total is a finite number (no line is [NaN] or
    an infinity and the sum does not overflow), the monthly and annual
    totals, [pvSize] and [batterySize] are all 0. *)
Theorem no_days_no_sizing :
  (forall fi l psh info,
      Double.daysPerWeek fi = JS.lit 0 ->
      finite (Double.totalDailyLoad l) = true ->
      let r := Double.calculateTotals fi l psh info in
      monthly r = JS.lit 0 /\ annual r = JS.lit 0 /\
      pvSize r = JS.lit 0 /\ batterySize r = JS.lit 0) /\
  (forall prev,
      Double.daysPerWeek (handleFacilityInfoChange prev "opDaysWeek" "")
      = JS.lit 0).
Proof.
  split; [| reflexivity].
  intros fi l psh info Hw Hl. cbv zeta.
  cbn [monthly annual pvSize batterySize Double.calculateTotals].
  destruct (finite_inv _ Hl) as (d & Ed).
  assert (Em : Double.totalMonthlyLoad fi l = JS.lit 0).
  { unfold Double.totalMonthlyLoad, Double.daysPerMonth. rewrite Hw, Ed.
    replace (Double.mul (Double.div (JS.lit 0) (Double.lit 7)) (Double.lit 30.44))
      with (JS.lit 0) by (symmetry; num_eq).
    apply mul_Fin_0. }
  assert (Ea : Double.totalAnnualLoad fi l = JS.lit 0).
  { unfold Double.totalAnnualLoad, Double.daysPerYear. rewrite Hw, Ed.
    replace (Double.mul (Double.div (JS.lit 0) (Double.lit 7)) (Double.lit 365.25))
      with (JS.lit 0) by (symmetry; num_eq).
    apply mul_Fin_0. }
  assert (Ep : Double.solarPVSize fi l psh = JS.lit 0).
  { unfold Double.solarPVSize, Double.dailyEnergyNeeded. now rewrite Ea. }
  split; [exact Em |]. split; [exact Ea |]. split; [exact Ep |].
  unfold Double.batteryStorageSize, Double.rawBatterySize. rewrite Ep.
  apply battery_of_0.
Qed.

Lemma no_days_no_sizing_witness :
  monthly (Double.calculateTotals
             (handleFacilityInfoChange initial_facilityInfo "opDaysWeek" "")
             [fan_7kWh] (JS.lit 4.5) "") = JS.lit 0.
Proof.
  apply (proj1 no_days_no_sizing
           (handleFacilityInfoChange initial_facilityInfo "opDaysWeek" "")
           [fan_7kWh] (JS.lit 4.5) ""); reflexivity.
Defined.

Section RoundingError.

(** Below [2^(k+1)] rounding moves a number by at most [2^(k-53)]. *)
Lemma round_near (q : Qc) k :
  (0 <= q)%Qc -> (q < 2 ^ (k + 1))%Q -> (-1022 <= k <= 1000)%Z ->
  exists r : Qc,
    Double.round (Fin q) = Fin r /\ (0 <= r)%Qc /\
    (r - 2 ^ (k - 53) <= q)%Q /\ (q <= r + 2 ^ (k - 53))%Q.
Proof.
  intros H0 Hk Hr.
  pose proof (pow2_pos (k - 53)) as Hp.
  unfold Double.round.
  destruct (Qc_compare_spec q 0) as [E | L | G].
  - exists q. split; [reflexivity |]. split; [exact H0 |]. split; lra.
  - exfalso. qc2q. lra.
  - assert (Hq : (0 < q)%Q) by (qc2q; lra).
    pose proof (ilog2_below q (k + 1) Hq Hk) as Hl.
    assert (He : (Double.exponent q <= k - 52)%Z)
      by (unfold Double.exponent; lia).
    pose proof (nearest_le_pow q Hq) as Hv.
    destruct (nearest_error q Hq) as [E1 E2].
    assert (Hh : (2 ^ (Double.exponent q - 1) <= 2 ^ (k - 53))%Q)
      by (apply pow2_le; lia).
    destruct (round_pos_cases q Hq) as [[_ Hx] | [r [-> [Er _]]]].
    + exfalso.
      assert (Hb : (2 ^ (Double.exponent q + 53) < 2 ^ 1024)%Q)
        by (apply pow2_lt; lia).
      lra.
    + exists r. split; [reflexivity |]. split.
      * pose proof (nearest_nonneg q Hq). qc2q. lra.
      * rewrite Er. split; lra.
Qed.

End RoundingError.

(** X22.  The battery is sized within 3 kWh of twice the array: when
    [pvSize] is at most 10^15, [pvSize] and [batterySize] are finite
    numbers with 2 * pvSize - 3 < batterySize < 2 * pvSize + 3 (2.5 from
    rounding to a multiple of 5, the rest from the rounding of the
    doubles). *)
Theorem battery_near_twice_pv fi l psh info :
  let r := Double.calculateTotals fi l psh info in
  Double.leb (pvSize r) (of_Z (10 ^ 15)) = true ->
  exists x b : Qc,
    pvSize r = Fin x /\ batterySize r = Fin b /\
    (x * Q2Qc 2 - Q2Qc 3 < b /\ b < x * Q2Qc 2 + Q2Qc 3)%Qc.
Proof.
  cbv zeta. cbn [pvSize batterySize Double.calculateTotals]. intro H.
  assert (H0 : Double.leb (JS.lit 0) (Double.solarPVSize fi l psh) = true).
  { apply not_negative_geb0; [apply solarPVSize_not_negative |].
    apply (leb_not_nan _ _ H). }
  destruct (leb_of_Z_inv _ _ H0 H) as [x [Ex [Hx0 Hx1]]].
  unfold Double.batteryStorageSize, Double.rawBatterySize. rewrite Ex.
  exists x. rewrite lit_2, lit_5. unfold Double.mul at 2. cbn [JS.mul JS.lit].
  assert (B15 : (inject_Z (10 ^ 15) == 1000000000000000)%Q) by reflexivity.
  rewrite B15 in Hx1.
  destruct (round_near (x * Q2Qc 2)%Qc 50) as [r1 [-> [R10 [R1a R1b]]]].
  { qc2q. lra. }
  { change (2 ^ (50 + 1))%Q with 2251799813685248%Q. qc2q. lra. }
  { lia. }
  change (2 ^ (50 - 53))%Q with (1 # 8)%Q in R1a, R1b.
  assert (Hqx : (this (x * Q2Qc 2)%Qc == x * 2)%Q) by (qc2q; reflexivity).
  rewrite Hqx in R1a, R1b.
  unfold Double.div. rewrite div_lit by discriminate.
  remember (r1 / Q2Qc 5)%Qc as y eqn:Ey.
  assert (E5 : (r1 = Q2Qc 5 * y)%Qc).
  { subst y. field. apply lit_neq_0. discriminate. }
  apply Qc_eq_Q in E5.
  assert (Y0 : (0 <= y)%Qc).
  { subst y. apply Qc_div_nonneg; [exact R10 | reflexivity]. }
  clear Ey B15.
  destruct (round_near y 48) as [r2 [-> [R20 [R2a R2b]]]].
  { exact Y0. }
  { change (2 ^ (48 + 1))%Q with 562949953421312%Q. qc2q. lra. }
  { lia. }
  change (2 ^ (48 - 53))%Q with (1 # 32)%Q in R2a, R2b.
  cbn [Math_round].
  destruct (round_within_half r2) as [K1 K2].
  set (k := Qfloor (r2 + (1 # 2))%Q) in *.
  assert (Hk : (0 <= k <= 10 ^ 15)%Z).
  { split.
    - apply round_nonneg, R20.
    - rewrite Zle_Qle. change (inject_Z (10 ^ 15)) with 1000000000000000%Q.
      qc2q. lra. }
  exists (Q2Qc (inject_Z (5 * k))). split; [reflexivity |]. split.
  - unfold Double.mul. change (Fin (Q2Qc 5)) with (JS.lit 5).
    rewrite of_Z_times_5. apply round_of_Z. lia.
  - unfold Qcminus. qc2q. rewrite inject_Z_mult.
    change (inject_Z 5) with 5%Q. split; lra.
Qed.

Lemma battery_near_twice_pv_witness :
  Double.leb (pvSize (Double.calculateTotals initial_facilityInfo [fan_7kWh]
                                             (JS.lit 4.5) ""))
             (of_Z (10 ^ 15)) = true /\
  exists x b : Qc,
    pvSize (Double.calculateTotals initial_facilityInfo [fan_7kWh] (JS.lit 4.5) "")
    = Fin x /\
    batterySize (Double.calculateTotals initial_facilityInfo [fan_7kWh]
                                        (JS.lit 4.5) "")
    = Fin b /\
    (x * Q2Qc 2 - Q2Qc 3 < b /\ b < x * Q2Qc 2 + Q2Qc 3)%Qc.
Proof.
  split; [vm_compute; reflexivity |].
  apply (battery_near_twice_pv initial_facilityInfo [fan_7kWh] (JS.lit 4.5) "").
  vm_compute. reflexivity.
Defined.

(* ================================================================== *)
(** * [Math.round] on doubles *)
(* ================================================================== *)

Section MathRound.

Lemma Qfloor_whole_half n : Qfloor (inject_Z n + (1 # 2)) = n.
Proof.
  apply Z.le_antisymm.
  - assert (H : (Qfloor (inject_Z n + (1 # 2)) < n + 1)%Z).
    { rewrite Zlt_Qlt. eapply Qle_lt_trans; [apply Qfloor_le |].
      rewrite inject_Z_plus. change (inject_Z 1) with 1%Q. lra. }
    lia.
  - rewrite <- (Qfloor_Z n) at 1. apply Qfloor_resp_le. lra.
Qed.

(** A positive double from [2^52] on is a whole number. *)
Lemma large_double_whole (q : Q) :
  (2 ^ 52 <= q)%Q -> exists n : Z, (Double.nearest q == inject_Z n)%Q.
Proof.
  intro H. pose proof (ilog2_above q 52 H) as Hl.
  assert (He : (0 <= Double.exponent q)%Z) by (unfold Double.exponent; lia).
  exists (Double.rne (q / 2 ^ Double.exponent q) * 2 ^ Double.exponent q)%Z.
  unfold Double.nearest. cbv zeta.
  rewrite inject_Z_mult, pow2_Z by exact He. reflexivity.
Qed.

Lemma Math_round_whole n : Math_round (of_Z n) = of_Z n.
Proof.
  unfold of_Z at 1. cbn [Math_round]. f_equal.
  unfold Q2Qc. cbn [this]. rewrite <- (Qfloor_whole_half n) at 2.
  apply Qfloor_comp. apply Qplus_comp; [apply Qred_correct | reflexivity].
Qed.

Lemma Fin_of_Z (x : Qc) n : (x == inject_Z n)%Q -> Fin x = of_Z n.
Proof.
  intro H. unfold of_Z. f_equal. apply Qc_is_canon. qc2q. exact H.
Qed.

(** [Math.round] of a double is a double: the model applies no rounding
    to its result. *)
Lemma Math_round_double a : Double.is_double a -> Double.is_double (Math_round a).
Proof.
  unfold Double.is_double. intro Hd.
  destruct a as [x | | |]; try reflexivity.
  destruct (Qlt_le_dec (Qabs x) (2 ^ 52)) as [Hs | Hb].
  - (* below 2^52 the nearest whole number is below 2^53 *)
    cbn [Math_round]. apply round_of_Z.
    apply Qabs_Qlt_condition in Hs. destruct Hs as [Hs1 Hs2].
    change (2 ^ 52)%Q with (inject_Z (2 ^ 52)) in Hs1, Hs2.
    assert (H1 : (Qfloor (x + (1 # 2)) <= 2 ^ 52)%Z).
    { rewrite <- (Qfloor_whole_half (2 ^ 52)). apply Qfloor_resp_le. lra. }
    assert (H2 : (- 2 ^ 52 <= Qfloor (x + (1 # 2)))%Z).
    { rewrite <- (Qfloor_Z (- 2 ^ 52)). apply Qfloor_resp_le.
      rewrite inject_Z_opp. lra. }
    lia.
  - (* from 2^52 on the double is a whole number already *)
    assert (W : exists n, Fin x = of_Z n).
    { unfold Double.round in Hd.
      destruct (Qc_compare_spec x 0) as [E | L | G].
      - exists 0%Z. subst x. reflexivity.
      - assert (Hq : (0 < - x)%Q) by (qc2q; lra).
        assert (Hb' : (2 ^ 52 <= - x)%Q).
        { rewrite Qabs_neg in Hb by (qc2q; lra). exact Hb. }
        destruct (large_double_whole _ Hb') as [n Hn].
        destruct (round_pos_cases _ Hq) as [[E _] | [r [E [Er _]]]];
          rewrite E in Hd; [discriminate |].
        cbn [Double.opp] in Hd. injection Hd as Hd.
        exists (- n)%Z. apply Fin_of_Z. rewrite inject_Z_opp, <- Hn, <- Er.
        rewrite <- Hd. qc2q. reflexivity.
      - assert (Hq : (0 < x)%Q) by (qc2q; lra).
        assert (Hb' : (2 ^ 52 <= x)%Q).
        { rewrite Qabs_pos in Hb by lra. exact Hb. }
        destruct (large_double_whole _ Hb') as [n Hn].
        destruct (round_pos_cases _ Hq) as [[E _] | [r [E [Er _]]]];
          rewrite E in Hd; [discriminate |].
        injection Hd as ->. exists n. apply Fin_of_Z. rewrite Er. exact Hn. }
    destruct W as [n W]. rewrite W, Math_round_whole, <- W. exact Hd.
Qed.

End MathRound.

(* ================================================================== *)
(** * [Double] against the binary64 arithmetic of the kernel *)
(* ================================================================== *)

(** On these operands the operations of [Double] give the floats that the
    primitive binary64 operations give. *)
Example mul_as_binary64 :
  to_float (Double.mul (Double.lit 0.1) (Double.lit 3))
  = PrimFloat.mul (to_float (Double.lit 0.1)) (to_float (Double.lit 3)) /\
  to_float (Double.mul (Double.lit 1e308) (Double.lit 10))
  = PrimFloat.mul (to_float (Double.lit 1e308)) (to_float (Double.lit 10)) /\
  to_float (Double.mul (Double.lit 1e-323) (Double.lit 0.85))
  = PrimFloat.mul (to_float (Double.lit 1e-323)) (to_float (Double.lit 0.85)) /\
  to_float (Double.mul (Double.lit 1e200) (Double.lit 1e200))
  = PrimFloat.mul (to_float (Double.lit 1e200)) (to_float (Double.lit 1e200)) /\
  to_float (Double.mul PInf (Double.lit 0))
  = PrimFloat.mul (to_float PInf) (to_float (Double.lit 0)).
Proof. split; [| split; [| split; [| split]]]; vm_compute; reflexivity. Qed.

Example div_as_binary64 :
  to_float (Double.div (Double.mul (Double.lit 0.1) (Double.lit 3)) (Double.lit 3))
  = PrimFloat.div (PrimFloat.mul (to_float (Double.lit 0.1)) (to_float (Double.lit 3)))
                  (to_float (Double.lit 3)) /\
  to_float (Double.div (Double.lit 3.4585e-323) (Double.lit 5))
  = PrimFloat.div (to_float (Double.lit 3.4585e-323)) (to_float (Double.lit 5)) /\
  to_float (Double.div (Double.lit 5) (Double.lit 7))
  = PrimFloat.div (to_float (Double.lit 5)) (to_float (Double.lit 7)) /\
  to_float (Double.div (Double.lit 1e17) (Double.lit 3.825))
  = PrimFloat.div (to_float (Double.lit 1e17)) (to_float (Double.lit 3.825)).
Proof. split; [| split; [| split]]; vm_compute; reflexivity. Qed.

Example add_as_binary64 :
  to_float (Double.add (Double.lit 0.1) (Double.lit 0.2))
  = PrimFloat.add (to_float (Double.lit 0.1)) (to_float (Double.lit 0.2)) /\
  to_float (Double.add (Double.lit 1e308) (Double.lit 1e308))
  = PrimFloat.add (to_float (Double.lit 1e308)) (to_float (Double.lit 1e308)) /\
  to_float (Double.add (Double.lit 9007199254740992) (Double.lit 1))
  = PrimFloat.add (to_float (Double.lit 9007199254740992)) (to_float (Double.lit 1)) /\
  to_float (Double.add PInf NInf) = PrimFloat.add (to_float PInf) (to_float NInf).
Proof. split; [| split; [| split]]; vm_compute; reflexivity. Qed.

(* ================================================================== *)
(** * Reading a per-unit figure back in binary64 *)
(* ================================================================== *)

Section RelativeError.

Local Open Scope Q_scope.

(** Between [2^-1022] and [2^1023] rounding moves a number by at most
    [2^-53] of it. *)
Lemma round_relative (q : Qc) :
  2 ^ (-1022) <= q -> q < 2 ^ 1023 ->
  exists r : Qc,
    Double.round (Fin q) = Fin r /\
    q * (1 - 2 ^ (-53)) <= r /\ r <= q * (1 + 2 ^ (-53)).
Proof.
  intros Hlo Hhi.
  assert (Hq : 0 < q) by (pose proof (pow2_pos (-1022)); lra).
  pose proof (ilog2_above q (-1022) Hlo) as Hl.
  pose proof (ilog2_below q 1023 Hq Hhi) as Hu.
  destruct (ilog2_spec q Hq) as [S1 _].
  assert (He : Double.exponent q = (Double.ilog2 q - 53 + 1)%Z)
    by (unfold Double.exponent; lia).
  destruct (nearest_error q Hq) as [E1 E2].
  rewrite He in E1, E2.
  replace (Double.ilog2 q - 53 + 1 - 1)%Z with (Double.ilog2 q + -53)%Z in E1, E2 by lia.
  rewrite pow2_plus in E1, E2.
  set (u := 2 ^ (-53)) in *.
  assert (Hu0 : 0 < u) by apply pow2_pos.
  assert (Hu1 : u < 1) by reflexivity.
  assert (Hm : 2 ^ Double.ilog2 q * u <= q * u).
  { apply Qmult_le_compat_r; [exact S1 | lra]. }
  unfold Double.round.
  destruct (Qc_compare_spec q 0) as [E | L | G].
  - exfalso. rewrite E in Hq. revert Hq. apply Qlt_irrefl.
  - exfalso. qc2q. lra.
  - destruct (round_pos_cases q Hq) as [[_ Hx] | [r [-> [Er _]]]].
    + exfalso.
      assert (P : 2 ^ 1024 == 2 ^ 1023 * 2).
      { change 1024%Z with (1023 + 1)%Z. rewrite pow2_plus. reflexivity. }
      assert (Hb : q * u <= q * 1).
      { rewrite !(Qmult_comm q). apply Qmult_le_compat_r; lra. }
      rewrite P in Hx.
      lra.
    + exists r. split; [reflexivity |]. rewrite Er. split; lra.
Qed.

End RelativeError.

Section ReadBack.

Local Open Scope Q_scope.

(** A product and the quotient by its second factor, each rounded, give
    the first factor back to within [2^-51] of it. *)
Lemma mul_div_near (v q : Qc) :
  0 < q -> 2 ^ (-1021) <= v -> v < 2 ^ 1022 ->
  2 ^ (-1022) <= v * q -> v * q < 2 ^ 1023 ->
  exists r : Qc,
    Double.div (Double.mul (Fin v) (Fin q)) (Fin q) = Fin r /\
    v * (1 - 2 ^ (-51)) <= r /\ r <= v * (1 + 2 ^ (-51)).
Proof.
  intros Hq Hv1 Hv2 Hp1 Hp2.
  assert (Hq0 : q <> Q2Qc 0).
  { intro E. rewrite E in Hq. revert Hq. apply Qlt_irrefl. }
  assert (Hv : 0 < v) by (pose proof (pow2_pos (-1021)); lra).
  unfold Double.mul. cbn [JS.mul].
  destruct (round_relative (v * q)%Qc) as [p [-> [P1 P2]]];
    [qc2q; exact Hp1 | qc2q; exact Hp2 |].
  unfold Double.div. rewrite div_Fin by exact Hq0.
  assert (Ey : (p / q)%Qc * q == p).
  { qc2q. field. intro E. rewrite E in Hq. revert Hq. apply Qlt_irrefl. }
  set (y := (p / q)%Qc) in *.
  assert (Eu : 2 ^ (-51) == 4 * 2 ^ (-53)) by reflexivity.
  assert (Eh : 2 ^ (-1021) == 2 * 2 ^ (-1022)) by reflexivity.
  assert (Ek : 2 ^ 1023 == 2 * 2 ^ 1022) by reflexivity.
  set (u := 2 ^ (-53)) in *. set (w := 2 ^ (-51)) in *.
  assert (Hu0 : 0 < u) by apply pow2_pos.
  assert (Hu1 : u <= 1 # 2) by (unfold Qle; cbn; lia).
  assert (Pq : (v * q)%Qc == v * q) by (qc2q; reflexivity).
  rewrite Pq in P1, P2. rewrite <- Ey in P1, P2.
  assert (Y1 : v * (1 - u) <= y).
  { apply (Qmult_le_r _ _ q Hq). lra. }
  assert (Y2 : y <= v * (1 + u)).
  { apply (Qmult_le_r _ _ q Hq). lra. }
  assert (Vu : 0 <= v * u) by (apply Qmult_le_0_compat; lra).
  assert (Vh : v * u <= v * (1 # 2)).
  { rewrite !(Qmult_comm v). apply Qmult_le_compat_r; lra. }
  destruct (round_relative y) as [r [-> [R1 R2]]].
  - pose proof (pow2_pos (-1022)). lra.
  - pose proof (pow2_pos 1022). lra.
  - exists r. split; [reflexivity |].
    fold u in R1, R2. clear Eh Ek Hv1 Hv2 Hp1 Hp2.
    assert (Yu1 : v * (1 - u) * u <= y * u).
    { apply Qmult_le_compat_r; lra. }
    assert (Yu2 : y * u <= v * (1 + u) * u).
    { apply Qmult_le_compat_r; lra. }
    assert (Vuu : 0 <= v * u * u) by (apply Qmult_le_0_compat; lra).
    assert (Vuh : v * u * u <= v * u * 1).
    { rewrite !(Qmult_comm (v * u)). apply Qmult_le_compat_r; lra. }
    assert (Ew : v * w == 4 * (v * u)).
    { setoid_replace w with (4 * u) by exact Eu. ring. }
    split; lra.
Qed.

End ReadBack.

(** X27.  In doubles a per-unit figure entered in the table is read back
    to within [2^-51] of itself: on a line with a positive finite
    quantity [q], after the edit of "dailyKWhPerUnit" to a number [v] with
    [2^-1021 <= v < 2^1022] and [2^-1022 <= v * q < 2^1023] (no underflow
    and no overflow), power and hours are 0, the quantity is as before
    and the per-unit figure [r] that the table computes for display,
    total / qty, has [v * (1 - 2^-51) <= r <= v * (1 + 2^-51)]. *)
Theorem per_unit_edit_reads_back_nearly l id' value i item (q v : Qc) :
  nth_error l i = Some item -> id item = id' ->
  qty item = Fin q -> (0 < q)%Q ->
  Double.edit_value "dailyKWhPerUnit" value = Fin v ->
  (2 ^ (-1021) <= v)%Q -> (v < 2 ^ 1022)%Q ->
  (2 ^ (-1022) <= v * q)%Q -> (v * q < 2 ^ 1023)%Q ->
  exists (item' : EquipmentItem) (r : Qc),
    nth_error (Double.handleEdit l id' "dailyKWhPerUnit" value) i
    = Some item' /\
    power item' = JS.lit 0 /\ hours item' = JS.lit 0 /\
    qty item' = qty item /\
    Double.perUnitKwh item' = Fin r /\
    (v * (1 - 2 ^ (-51)) <= r)%Q /\ (r <= v * (1 + 2 ^ (-51)))%Q.
Proof.
  intros Hnth Hid Eq Hq Ev Hv1 Hv2 Hp1 Hp2.
  rewrite (Double_handleEdit_nth l id' _ value i item Hnth Hid).
  destruct (mul_div_near v q Hq Hv1 Hv2 Hp1 Hp2) as [r [Er [R1 R2]]].
  eexists. exists r. split; [reflexivity |].
  change (Double.edit_item "dailyKWhPerUnit"
            (Double.edit_value "dailyKWhPerUnit" value) item)
    with (mkItem (id item) (name item) (qty item) (Double.lit 0) (Double.lit 0)
            (Double.mul (Double.edit_value "dailyKWhPerUnit" value) (qty item))).
  cbn [power hours qty]. rewrite lit_0.
  split; [reflexivity |]. split; [reflexivity |]. split; [reflexivity |].
  split; [| split; assumption].
  unfold Double.perUnitKwh. cbn [qty totalDailyKWh]. rewrite lit_0, Eq, Ev.
  assert (G : gtb (Fin q) (JS.lit 0) = true).
  { apply gtb_Fin. qc2q. exact Hq. }
  rewrite G. exact Er.
Qed.

Lemma per_unit_edit_reads_back_nearly_witness :
  exists (item' : EquipmentItem) (r : Qc),
    nth_error (Double.handleEdit [mkItem 1 "Fan" (JS.lit 3) (JS.lit 0) (JS.lit 0)
                                         (JS.lit 21)]
                                 1 "dailyKWhPerUnit" "0.1") 0 = Some item' /\
    Double.perUnitKwh item' = Fin r /\
    (Q2Qc (3602879701896397 # 36028797018963968) * (1 - 2 ^ (-51)) <= r)%Q /\
    (r <= Q2Qc (3602879701896397 # 36028797018963968) * (1 + 2 ^ (-51)))%Q.
Proof.
  destruct (per_unit_edit_reads_back_nearly
              [mkItem 1 "Fan" (JS.lit 3) (JS.lit 0) (JS.lit 0) (JS.lit 21)]
              1 "0.1" 0%nat
              (mkItem 1 "Fan" (JS.lit 3) (JS.lit 0) (JS.lit 0) (JS.lit 21))
              (Q2Qc 3) (Q2Qc (3602879701896397 # 36028797018963968))
              eq_refl eq_refl eq_refl)
    as (item' & r & Hnth & _ & _ & _ & Hr & R1 & R2).
  - reflexivity.
  - num_eq.
  - vm_compute. discriminate.
  - reflexivity.
  - vm_compute. discriminate.
  - reflexivity.
  - exists item', r. split; [exact Hnth |]. split; [exact Hr |].
    split; assumption.
Defined.

(* ================================================================== *)
(** * Where the two readings agree, and where they part *)
(* ================================================================== *)

(** The test [parseInt(value, 10) > 7] of [handleFacilityInfoChange] has
    the same outcome in doubles: the handler is the same in both
    readings. *)
Lemma days_cap_test_in_doubles s :
  gtb (Double.parseInt s) (JS.lit 7) = gtb (Parse.parseInt s) (JS.lit 7).
Proof.
  unfold Double.parseInt.
  destruct (parseInt_whole s) as [-> | [z ->]]; [reflexivity |].
  assert (E7 : JS.lit 7 = of_Z 7) by num_eq. rewrite E7.
  destruct (Z_le_gt_dec z 7) as [L | G].
  - assert (H : Double.leb (of_Z z) (of_Z 7) = true).
    { apply leb_Fin. unfold of_Z. qc2q. rewrite <- Zle_Qle. exact L. }
    rewrite (leb_gtb _ _ H).
    apply round_mono in H. rewrite (round_of_Z 7) in H by reflexivity.
    apply (leb_gtb _ _ H).
  - assert (H : Double.leb (of_Z 8) (of_Z z) = true).
    { apply leb_Fin. unfold of_Z. qc2q. rewrite <- Zle_Qle. lia. }
    assert (G8 : gtb (of_Z 8) (of_Z 7) = true) by reflexivity.
    rewrite (gtb_leb_trans _ _ _ G8 H).
    apply round_mono in H. rewrite (round_of_Z 8) in H by reflexivity.
    apply (gtb_leb_trans _ _ _ G8 H).
Qed.

(** After 0.1 kWh is entered for a line of quantity 3 the per-unit
    figure of the table is 0.10000000000000002 in doubles, where exact
    arithmetic gives 0.1. *)
Example per_unit_figure_rounded :
  let line := mkItem 1 "Fan" (JS.lit 3) (JS.lit 0) (JS.lit 0) (JS.lit 21) in
  (forall item,
      nth_error (Double.handleEdit [line] 1 "dailyKWhPerUnit" "0.1") 0
      = Some item ->
      Double.perUnitKwh item = Double.lit 0.10000000000000002 /\
      Double.perUnitKwh item <> Double.lit 0.1) /\
  (forall item,
      nth_error (handleEdit [line] 1 "dailyKWhPerUnit" "0.1") 0 = Some item ->
      perUnitKwh item = JS.lit 0.1).
Proof.
  cbv zeta. split.
  - intros item H.
    assert (E : nth_error
                  (Double.handleEdit
                     [mkItem 1 "Fan" (JS.lit 3) (JS.lit 0) (JS.lit 0) (JS.lit 21)]
                     1 "dailyKWhPerUnit" "0.1") 0
                = Some (mkItem 1 "Fan" (JS.lit 3) (Double.lit 0) (Double.lit 0)
                          (Double.mul (Double.edit_value "dailyKWhPerUnit" "0.1")
                                      (JS.lit 3)))) by reflexivity.
    rewrite E in H. injection H as <-.
    assert (V : Double.perUnitKwh
                  (mkItem 1 "Fan" (JS.lit 3) (Double.lit 0) (Double.lit 0)
                     (Double.mul (Double.edit_value "dailyKWhPerUnit" "0.1")
                                 (JS.lit 3)))
                = Double.lit 0.10000000000000002) by num_eq.
    rewrite V. split; [reflexivity |].
    intro N. apply (f_equal (fun a => match a, Double.lit 0.1 with
                                      | Fin q, Fin q' => Qeq_bool q q'
                                      | _, _ => false end)) in N.
    vm_compute in N. discriminate N.
  - intros item H.
    assert (E : nth_error
                  (handleEdit
                     [mkItem 1 "Fan" (JS.lit 3) (JS.lit 0) (JS.lit 0) (JS.lit 21)]
                     1 "dailyKWhPerUnit" "0.1") 0
                = Some (mkItem 1 "Fan" (JS.lit 3) (JS.lit 0) (JS.lit 0)
                          (JS.mul (edit_value "dailyKWhPerUnit" "0.1") (JS.lit 3))))
      by reflexivity.
    rewrite E in H. injection H as <-. num_eq.
Qed.
